(** * Rinascimento Oscuro relay server: session registry and event relay

    A shallow embedding of [src/server.js] (socket.io relay for a shared
    tabletop session) together with the properties of its session
    registry, join / rejoin / presence protocol and fan-out rules.

    Conventions of the embedding.

    - A JavaScript [Map] is an insertion-ordered association list with
      unique string keys ([JsMap]); [set] on an existing key keeps the
      key's position, as in ECMAScript.
    - Payloads, player objects and log entries are JavaScript values
      ([value]) that hold data only: no functions and no symbols.
      Numbers are the integers ([Z]); the ones a JavaScript number holds
      exactly are the safe integers ([safe_integer]), and [to_string]
      prints these as ECMAScript does, in plain decimal: a statement
      that gives the digits of a number asks for a safe integer.
      Objects carry their own properties only: the property names the
      server reads are not names of [Object.prototype].
    - A string is held as the bytes of its UTF-8 form, a surrogate that
      stands alone taking the three bytes this form gives a code point of
      its size; [code_units] cuts it into its UTF-16 code units, which
      are what indexing a JavaScript string yields.
    - Every call of [Date.now()] and of [Math.random().toString(36)] is
      an explicit argument of the handler that makes it, in call order.
    - A handler that raises a [TypeError] (reading a property of
      [undefined] or [null], or printing an object that has a [toString]
      of its own) yields [Throw]; nothing catches it in the source, so
      the run of the server stops there.
    - An emitted event records its fan-out ([ToSender], [ToOthers room],
      [ToRoom room], [ToCallback]); [recipients] resolves it against the
      table of connected sockets.  The private room socket.io gives each
      socket under its own id is left out: a session id never equals a
      socket id.
    - Left out as well: the [error] listener, the [/] and [/health]
      endpoints, which only read [sessions.size], and the lines the
      handlers write to the console.  Such a line prints a session id, a
      socket id or the name of a player: payloads are taken to give
      names that print without raising, and no [__proto__] of their own
      where [Object.assign] copies them. *)

From Stdlib Require Import String Ascii List ZArith Bool Lia.
From Stdlib Require Import Permutation Sorted DecimalString.
Import ListNotations.

Local Open Scope string_scope.
Local Open Scope Z_scope.

Set Implicit Arguments.

(** ** Insertion-ordered maps with string keys ([Map]) *)

Module JsMap.

Section Ops.
Variable V : Type.

Definition t := list (string * V).

Definition empty : t := [].

Fixpoint get (k : string) (m : t) : option V :=
  match m with
  | [] => None
  | (k', v) :: r => if String.eqb k k' then Some v else get k r
  end.

Definition has (k : string) (m : t) : bool :=
  match get k m with Some _ => true | None => false end.

(** [m.set(k, v)]: overwrite in place, or append a new entry. *)
Fixpoint set (k : string) (v : V) (m : t) : t :=
  match m with
  | [] => [(k, v)]
  | (k', v') :: r =>
      if String.eqb k k' then (k, v) :: r else (k', v') :: set k v r
  end.

Fixpoint delete (k : string) (m : t) : t :=
  match m with
  | [] => []
  | (k', v') :: r =>
      if String.eqb k k' then r else (k', v') :: delete k r
  end.

Definition keys (m : t) : list string := map fst m.
Definition values (m : t) : list V := map snd m.
Definition size (m : t) : nat := length m.

(** Keys of a [Map] are pairwise distinct. *)
Definition wf (m : t) : Prop := NoDup (keys m).
End Ops.

Arguments empty {V}.

End JsMap.

(** ** JavaScript values *)

Set Warnings "-register-all".

Inductive value : Type :=
| VUndefined
| VNull
| VBool (b : bool)
| VNum (n : Z)
| VStr (s : string)
| VArr (xs : list value)
| VObj (props : list (string * value)).

(** A plain object: its own enumerable properties, in insertion order. *)
Abbreviation object := (JsMap.t value).

(** Outcome of running JavaScript code that may raise. *)
Inductive result (A : Type) : Type :=
| Ok (a : A)
| Throw (err : string).

Arguments Ok {A} a.
Arguments Throw {A} err.

Definition bind {A B : Type} (r : result A) (k : A -> result B) : result B :=
  match r with
  | Ok a => k a
  | Throw e => Throw e
  end.

Notation "x <- e ;; k" := (bind e (fun x => k))
  (at level 61, e at next level, right associativity).

(** [ToBoolean]. *)
Definition truthy (v : value) : bool :=
  match v with
  | VUndefined | VNull => false
  | VBool b => b
  | VNum n => negb (n =? 0)
  | VStr s => negb (String.eqb s EmptyString)
  | VArr _ | VObj _ => true
  end.

Definition nullish (v : value) : bool :=
  match v with
  | VUndefined | VNull => true
  | _ => false
  end.

(** [v.k] for a [v] that is neither [undefined] nor [null]. *)
Definition member (v : value) (k : string) : value :=
  match v with
  | VObj o => match JsMap.get k o with Some x => x | None => VUndefined end
  | _ => VUndefined
  end.

(** [v.k]: a [TypeError] when [v] is [undefined] or [null]. *)
Definition prop (v : value) (k : string) : result value :=
  if nullish v then Throw "TypeError" else Ok (member v k).

(** [v?.k]. *)
Definition opt_prop (v : value) (k : string) : value :=
  if nullish v then VUndefined else member v k.

(** [o.k] for an object held by the server. *)
Definition field (o : object) (k : string) : value := member (VObj o) k.

(** [a || b] and [a && b]. *)
Definition js_or (a b : value) : value := if truthy a then a else b.
Definition js_and (a b : value) : value := if truthy a then b else a.

(** [v === 's'] for a string literal. *)
Definition is_str (v : value) (s : string) : bool :=
  match v with
  | VStr x => String.eqb x s
  | _ => false
  end.

Definition string_of_Z (n : Z) : string := NilZero.string_of_int (Z.to_int n).
Definition string_of_nat (n : nat) : string := NilZero.string_of_uint (Nat.to_uint n).

(** [Number.isSafeInteger]: an integer a number holds exactly, printed as
    its decimal digits. *)
Definition safe_integer (n : Z) : bool := Z.abs n <? 2 ^ 53.

(** [ToString], as a template literal applies it.  An array is joined
    with commas, [undefined] and [null] elements printing as nothing.  An
    object is printed by the first of its [toString] and [valueOf] that
    is a function and returns a primitive.  For an object of data that
    is [Object.prototype.toString], unless the object has a [toString]
    of its own, which is no function: then [valueOf] is tried, its own
    is no function either and [Object.prototype.valueOf] returns the
    object itself, so a [TypeError] is raised. *)
Fixpoint to_string (v : value) : result string :=
  match v with
  | VUndefined => Ok "undefined"
  | VNull => Ok "null"
  | VBool true => Ok "true"
  | VBool false => Ok "false"
  | VNum n => Ok (string_of_Z n)
  | VStr s => Ok s
  | VArr xs =>
      (fix join (l : list value) : result string :=
         match l with
         | [] => Ok EmptyString
         | x :: r =>
             e <- (if nullish x then Ok EmptyString else to_string x) ;;
             match r with
             | [] => Ok e
             | _ :: _ => rest <- join r ;; Ok (e ++ "," ++ rest)
             end
         end) xs
  | VObj o =>
      if JsMap.has "toString" o then Throw "TypeError"
      else Ok "[object Object]"
  end.

(** *** Strings as sequences of UTF-16 code units *)

(** The three bytes of a code point from [0x800] to [0xFFFF]. *)
Definition three_bytes (u : N) : string :=
  String (ascii_of_N (224 + u / 4096)%N)
    (String (ascii_of_N (128 + (u / 64) mod 64)%N)
       (String (ascii_of_N (128 + u mod 64)%N) EmptyString)).

(** The code point held by the four bytes [a b c d]. *)
Definition code_point4 (a b c d : ascii) : N :=
  ((N_of_ascii a mod 8) * 262144 + (N_of_ascii b mod 64) * 4096
   + (N_of_ascii c mod 64) * 64 + N_of_ascii d mod 64)%N.

(** The code units of a string, each as a string: a character of one,
    two or three bytes is one code unit, a character of four bytes is a
    pair of surrogates. *)
Fixpoint code_units (l : list ascii) : list string :=
  match l with
  | [] => []
  | a :: r =>
      if (N_of_ascii a <? 192)%N then String a EmptyString :: code_units r
      else if (N_of_ascii a <? 224)%N then
        match r with
        | b :: r1 => String a (String b EmptyString) :: code_units r1
        | [] => [String a EmptyString]
        end
      else if (N_of_ascii a <? 240)%N then
        match r with
        | b :: c :: r2 =>
            String a (String b (String c EmptyString)) :: code_units r2
        | _ => [string_of_list_ascii l]
        end
      else
        match r with
        | b :: c :: d :: r3 =>
            let v := (code_point4 a b c d - 65536)%N in
            three_bytes (55296 + v / 1024)%N
              :: three_bytes (56320 + v mod 1024)%N :: code_units r3
        | _ => [string_of_list_ascii l]
        end
  end.

Fixpoint indexed_from (i : nat) (xs : list value) : object :=
  match xs with
  | [] => []
  | x :: r => (string_of_nat i, x) :: indexed_from (S i) r
  end.

(** The own enumerable properties copied by object spread and by
    [Object.assign]: those of an object, the indexed elements of an
    array, the indexed code units of a string, and none for the other
    values. *)
Definition own_props (v : value) : object :=
  match v with
  | VObj o => o
  | VArr xs => indexed_from 0 xs
  | VStr s => indexed_from 0 (map VStr (code_units (list_ascii_of_string s)))
  | _ => []
  end.

(** [Object.assign(target, src)] on property lists. *)
Definition assign (target src : object) : object :=
  fold_left (fun acc kv => JsMap.set (fst kv) (snd kv) acc) src target.

(** [{ ...a, ...b }]. *)
Definition spread2 (a b : value) : object :=
  assign (assign [] (own_props a)) (own_props b).

(** ** Data model *)

(** A session object, as built by [createSession] and [create_session].
    [masterId] is [null] ([None]) or a socket id; the [players] map holds
    the player objects by id; [gameState] and [gmNotes] are [undefined]
    until something assigns them. *)
Module Session.
Record t := mk {
  id : string;
  masterId : option string;
  players : JsMap.t object;
  gameLog : list value;
  gameState : value;
  gmNotes : value;
  createdAt : Z;
  lastActivity : Z
}.

Definition with_masterId (m : option string) (s : t) : t :=
  mk (id s) m (players s) (gameLog s) (gameState s) (gmNotes s)
     (createdAt s) (lastActivity s).
Definition with_players (p : JsMap.t object) (s : t) : t :=
  mk (id s) (masterId s) p (gameLog s) (gameState s) (gmNotes s)
     (createdAt s) (lastActivity s).
Definition with_gameLog (l : list value) (s : t) : t :=
  mk (id s) (masterId s) (players s) l (gameState s) (gmNotes s)
     (createdAt s) (lastActivity s).
Definition with_gmNotes (n : value) (s : t) : t :=
  mk (id s) (masterId s) (players s) (gameLog s) (gameState s) n
     (createdAt s) (lastActivity s).
Definition with_lastActivity (a : Z) (s : t) : t :=
  mk (id s) (masterId s) (players s) (gameLog s) (gameState s) (gmNotes s)
     (createdAt s) a.
End Session.

(** The fields the handlers keep on the socket object, and the rooms the
    socket has joined. *)
Module Socket.
Record t := mk {
  id : string;
  sessionId : option string;
  playerId : option string;
  isMaster : value;
  rooms : list string
}.

(** A socket as handed to the [connection] callback. *)
Definition fresh (c : string) : t := mk c None None VUndefined [].

Definition with_sessionId (s : option string) (k : t) : t :=
  mk (id k) s (playerId k) (isMaster k) (rooms k).
Definition with_playerId (p : option string) (k : t) : t :=
  mk (id k) (sessionId k) p (isMaster k) (rooms k).
Definition with_isMaster (m : value) (k : t) : t :=
  mk (id k) (sessionId k) (playerId k) m (rooms k).

(** [socket.join(room)]. *)
Definition join (room : string) (k : t) : t :=
  mk (id k) (sessionId k) (playerId k) (isMaster k)
     (if existsb (String.eqb room) (rooms k) then rooms k
      else rooms k ++ [room]).
End Socket.

(** Where an emitted event goes: [socket.emit], [socket.to(room).emit],
    [io.to(room).emit], or the acknowledgement callback of a legacy
    request. *)
Inductive target : Type :=
| ToSender
| ToOthers (room : string)
| ToRoom (room : string)
| ToCallback.

Record outbound := mk_out {
  dest : target;
  event : string;
  args : list value
}.

(** What one run of a handler leaves behind. *)
Record reply := mk_reply {
  r_sessions : JsMap.t Session.t;
  r_socket : Socket.t;
  r_emitted : list outbound
}.

(** Truthiness of a field that is [undefined] / [null] or a string. *)
Definition set_id (o : option string) : bool :=
  match o with
  | Some s => negb (String.eqb s EmptyString)
  | None => false
  end.

(** [sessions.get(v)] for a key taken from a payload: only a string can
    equal a key of the map. *)
Definition find_session (v : value) (sessions : JsMap.t Session.t)
  : option (string * Session.t) :=
  match v with
  | VStr s => match JsMap.get s sessions with
              | Some x => Some (s, x)
              | None => None
              end
  | _ => None
  end.

Definition find_player (v : value) (players : JsMap.t object)
  : option (string * object) :=
  match v with
  | VStr s => match JsMap.get s players with
              | Some x => Some (s, x)
              | None => None
              end
  | _ => None
  end.

Definition is_online (p : object) : bool := truthy (field p "online").
Definition is_master (p : object) : bool := truthy (field p "isMaster").

(** [session.masterId && session.players.get(session.masterId)?.online] *)
Definition liveMaster (s : Session.t) : value :=
  match Session.masterId s with
  | None => VNull
  | Some m =>
      if String.eqb m EmptyString then VStr EmptyString
      else match JsMap.get m (Session.players s) with
           | None => VUndefined
           | Some p => field p "online"
           end
  end.

(** ** Event handlers of a connected socket *)

Definition emit (ev : string) (a : list value) : outbound :=
  mk_out ToSender ev a.
Definition emit_others (room ev : string) (a : list value) : outbound :=
  mk_out (ToOthers room) ev a.
Definition emit_room (room ev : string) (a : list value) : outbound :=
  mk_out (ToRoom room) ev a.
Definition callback (a : value) : outbound :=
  mk_out ToCallback "callback" [a].

(** A handler that returns without touching anything. *)
Definition silent (sessions : JsMap.t Session.t) (socket : Socket.t) : reply :=
  mk_reply sessions socket [].

Definition roster (s : Session.t) : value :=
  VArr (map VObj (JsMap.values (Session.players s))).

Definition new_session_id (rnd : string) : string :=
  "rinascimento-" ++ substring 2 6 rnd.

Definition str_or_null (o : option string) : value :=
  match o with
  | Some s => VStr s
  | None => VNull
  end.

(** The message of the error [joinAsGameMaster] emits when the session
    already has an online master. *)
Definition master_exists : string :=
  "C'è già un Game Master in questa sessione".

Section Handlers.
Variable sessions : JsMap.t Session.t.
Variable socket : Socket.t.

Definition heartbeat : result reply :=
  Ok (mk_reply sessions socket [emit "heartbeat-ack" []]).

(** [rnd] is [Math.random().toString(36)]; [t1], [t2] are the two
    readings of the clock. *)
Definition createSession (data : value) (rnd : string) (t1 t2 : Z)
  : result reply :=
  let sessionId := new_session_id rnd in
  let session :=
    Session.mk sessionId None JsMap.empty [] (VObj []) VUndefined t1 t2 in
  Ok (mk_reply (JsMap.set sessionId session sessions) socket
        [emit "sessionCreated"
           [VObj [("sessionId", VStr sessionId); ("success", VBool true)]]]).

Definition joinSession (data : value) (t : Z) : result reply :=
  sessionId <- prop data "sessionId" ;;
  match find_session sessionId sessions with
  | None =>
      Ok (mk_reply sessions socket
            [emit "sessionError"
               [VObj [("message", VStr "Sessione non trovata");
                      ("code", VStr "SESSION_NOT_FOUND")]]])
  | Some (sid, session) =>
      let socket1 :=
        Socket.with_sessionId (Some sid) (Socket.join sid socket) in
      let session1 := Session.with_lastActivity t session in
      Ok (mk_reply (JsMap.set sid session1 sessions) socket1
            [emit "joinedSession"
               [VObj [("sessionId", VStr sid);
                      ("players", roster session1);
                      ("gameLog", VArr (Session.gameLog session1))]]])
  end.

(** The player object both join handlers build. *)
Definition new_player (playerData : value) (master : bool) (t : Z)
  : result object :=
  name <- prop playerData "name" ;;
  characterName <- prop playerData "characterName" ;;
  characterConcept <- prop playerData "characterConcept" ;;
  Ok [("id", VStr (Socket.id socket));
      ("name", name);
      ("characterName", js_or characterName (VStr EmptyString));
      ("characterConcept", js_or characterConcept (VStr EmptyString));
      ("isMaster", VBool master);
      ("online", VBool true);
      ("joinedAt", VNum t)].

Definition joinAsGameMaster (data : value) (t1 t2 : Z) : result reply :=
  sessionId <- prop data "sessionId" ;;
  playerData <- prop data "playerData" ;;
  match find_session sessionId sessions with
  | None =>
      Ok (mk_reply sessions socket
            [emit "sessionError"
               [VObj [("message", VStr "Sessione non trovata")]]])
  | Some (sid, session) =>
      if truthy (liveMaster session) then
        Ok (mk_reply sessions socket
              [emit "sessionError"
                 [VObj [("message", VStr master_exists)]]])
      else
        player <- new_player playerData true t1 ;;
        let session1 :=
          Session.with_lastActivity t2
            (Session.with_masterId (Some (Socket.id socket))
               (Session.with_players
                  (JsMap.set (Socket.id socket) player
                     (Session.players session)) session)) in
        let socket1 :=
          Socket.with_isMaster (VBool true)
            (Socket.with_playerId (Some (Socket.id socket)) socket) in
        Ok (mk_reply (JsMap.set sid session1 sessions) socket1
              [emit "playerJoined"
                 [VObj [("playerId", VStr (Socket.id socket));
                        ("playerData", VObj player);
                        ("isMaster", VBool true)]];
               emit_others sid "playerUpdate"
                 [VObj [("player", VObj player)]]])
  end.

Definition joinAsPlayer (data : value) (t1 t2 : Z) : result reply :=
  sessionId <- prop data "sessionId" ;;
  playerData <- prop data "playerData" ;;
  match find_session sessionId sessions with
  | None =>
      Ok (mk_reply sessions socket
            [emit "sessionError"
               [VObj [("message", VStr "Sessione non trovata")]]])
  | Some (sid, session) =>
      player <- new_player playerData false t1 ;;
      let session1 :=
        Session.with_lastActivity t2
          (Session.with_players
             (JsMap.set (Socket.id socket) player
                (Session.players session)) session) in
      let socket1 :=
        Socket.with_isMaster (VBool false)
          (Socket.with_playerId (Some (Socket.id socket)) socket) in
      Ok (mk_reply (JsMap.set sid session1 sessions) socket1
            [emit "playerJoined"
               [VObj [("playerId", VStr (Socket.id socket));
                      ("playerData", VObj player);
                      ("isMaster", VBool false)]];
             emit_others sid "playerUpdate"
               [VObj [("player", VObj player)]]])
  end.

Definition rejoin_failed : reply :=
  mk_reply sessions socket
    [emit "sessionError"
       [VObj [("message",
               VStr "Impossibile riconnettersi alla sessione")]]].

Definition rejoinSession (data : value) (t : Z) : result reply :=
  sessionId <- prop data "sessionId" ;;
  playerId <- prop data "playerId" ;;
  match find_session sessionId sessions with
  | None => Ok rejoin_failed
  | Some (sid, session) =>
      match find_player playerId (Session.players session) with
      | None => Ok rejoin_failed
      | Some (pid, player0) =>
          let player := JsMap.set "online" (VBool true) player0 in
          let socket1 :=
            Socket.with_isMaster (field player "isMaster")
              (Socket.with_playerId (Some pid)
                 (Socket.with_sessionId (Some sid)
                    (Socket.join sid socket))) in
          let session1 :=
            Session.with_lastActivity t
              (Session.with_players
                 (JsMap.set pid player (Session.players session))
                 session) in
          Ok (mk_reply (JsMap.set sid session1 sessions) socket1
                [emit "playerJoined"
                   [VObj [("playerId", VStr pid);
                          ("playerData", VObj player);
                          ("isMaster", field player "isMaster")]];
                 emit_others sid "playerUpdate"
                   [VObj [("player", VObj player)]]])
      end
  end.

Definition characterUpdate (data : value) (t : Z) : result reply :=
  if negb (set_id (Socket.sessionId socket))
     || negb (set_id (Socket.playerId socket))
  then Ok (silent sessions socket)
  else
    match Socket.sessionId socket, Socket.playerId socket with
    | Some sid, Some pid =>
        match JsMap.get sid sessions with
        | None => Ok (silent sessions socket)
        | Some session =>
            match JsMap.get pid (Session.players session) with
            | None => Ok (silent sessions socket)
            | Some player0 =>
                character <- prop data "character" ;;
                let player :=
                  if truthy character then
                    JsMap.set "character"
                      (VObj (spread2 (field player0 "character") character))
                      player0
                  else player0 in
                let session1 :=
                  Session.with_lastActivity t
                    (Session.with_players
                       (JsMap.set pid player (Session.players session))
                       session) in
                Ok (mk_reply (JsMap.set sid session1 sessions) socket
                      [emit_others sid "gameStateUpdate"
                         [VObj [("type", VStr "characterUpdate");
                                ("playerId", VStr pid);
                                ("playerName", field player "name");
                                ("character", character)]]])
            end
        end
    | _, _ => Ok (silent sessions socket)
    end.

(** The entry [gameStateUpdate] pushes on the log for a dice roll or a
    game-master note; [t] is the reading of the clock for [timestamp].
    Printing [data.roll?.total] may raise. *)
Definition log_entry (data : value) (t : Z) : result value :=
  content <-
    (if truthy (member data "note") then Ok (member data "note")
     else
       total <- to_string (opt_prop (member data "roll") "total") ;;
       Ok (VStr ("Tiro dadi: " ++ total))) ;;
  Ok (VObj [("timestamp", VNum t);
            ("type", member data "type");
            ("author", js_or (member data "playerName") (VStr "Sistema"));
            ("content", content);
            ("data", data)]).

Definition gameStateUpdate (data : value) (t1 t2 : Z) : result reply :=
  if negb (set_id (Socket.sessionId socket)) then Ok (silent sessions socket)
  else
    match Socket.sessionId socket with
    | None => Ok (silent sessions socket)
    | Some sid =>
        match JsMap.get sid sessions with
        | None => Ok (silent sessions socket)
        | Some session =>
            let session1 := Session.with_lastActivity t1 session in
            type <- prop data "type" ;;
            gameLog <-
              (if is_str type "diceRoll" || is_str type "gmNote" then
                 entry <- log_entry data t2 ;;
                 Ok (Session.gameLog session1 ++ [entry])%list
               else Ok (Session.gameLog session1)) ;;
            Ok (mk_reply
                  (JsMap.set sid (Session.with_gameLog gameLog session1)
                     sessions)
                  socket
                  [emit_room sid "gameStateUpdate" [data]])
        end
    end.

Definition onlinePlayers (session : Session.t) : list object :=
  filter is_online (JsMap.values (Session.players session)).

(** One element of the [activeSessions] array. *)
Record summary := mk_summary {
  sm_sessionId : string;
  sm_playerCount : nat;
  sm_hasMaster : value;
  sm_createdAt : Z
}.

Definition summary_value (x : summary) : value :=
  VObj [("sessionId", VStr (sm_sessionId x));
        ("playerCount", VNum (Z.of_nat (sm_playerCount x)));
        ("hasMaster", sm_hasMaster x);
        ("createdAt", VNum (sm_createdAt x))].

Definition summarize (kv : string * Session.t) : summary :=
  mk_summary (fst kv) (length (onlinePlayers (snd kv)))
    (liveMaster (snd kv)) (Session.createdAt (snd kv)).

(** The loop over [sessions.entries()] that pushes a summary for each
    session with an online player. *)
Definition collect_active : list summary :=
  fold_left
    (fun activeSessions kv =>
       if (0 <? length (onlinePlayers (snd kv)))%nat
       then (activeSessions ++ [summarize kv])%list
       else activeSessions)
    sessions [].

(** [Array.prototype.sort] with a comparator: a stable sort, here by
    insertion.  [cmp a b <= 0] keeps [a] before [b]. *)
Fixpoint sort_insert (A : Type) (cmp : A -> A -> Z) (x : A) (l : list A)
  : list A :=
  match l with
  | [] => [x]
  | y :: r => if cmp x y <=? 0 then x :: y :: r else y :: sort_insert cmp x r
  end.

Definition js_sort (A : Type) (cmp : A -> A -> Z) (l : list A) : list A :=
  fold_right (sort_insert cmp) [] l.

(** [(a, b) => b.createdAt - a.createdAt] *)
Definition newest_first (a b : summary) : Z :=
  sm_createdAt b - sm_createdAt a.

Definition activeSessions : list summary :=
  js_sort newest_first collect_active.

Definition getActiveSessions : result reply :=
  Ok (mk_reply sessions socket
        [emit "activeSessions"
           [VObj [("sessions", VArr (map summary_value activeSessions))]]]).

Definition gmNotesUpdate (data : value) (t : Z) : result reply :=
  if negb (set_id (Socket.sessionId socket))
     || negb (truthy (Socket.isMaster socket))
  then Ok (silent sessions socket)
  else
    match Socket.sessionId socket with
    | None => Ok (silent sessions socket)
    | Some sid =>
        match JsMap.get sid sessions with
        | None => Ok (silent sessions socket)
        | Some session =>
            notes <- prop data "notes" ;;
            let session1 :=
              Session.with_lastActivity t
                (Session.with_gmNotes notes session) in
            Ok (mk_reply (JsMap.set sid session1 sessions) socket
                  [emit "gmNotesSaved" []])
        end
    end.

Definition messageAck (data : value) : result reply :=
  messageId <- prop data "messageId" ;;
  if truthy messageId then
    Ok (mk_reply sessions socket
          [emit "messageAck" [VObj [("messageId", messageId)]]])
  else Ok (silent sessions socket).

Definition ping : result reply :=
  Ok (mk_reply sessions socket [emit "pong" []]).

(** *** Legacy handlers ([cb]: the request carries a callback) *)

Definition create_session (data : value) (cb : bool) (rnd : string)
    (t1 t2 t3 : Z) : result reply :=
  let sessionId := new_session_id rnd in
  let session :=
    Session.mk sessionId None JsMap.empty
      [VObj [("author", VStr "Sistema");
             ("text", VStr "Sessione creata.");
             ("timestamp", VNum t1)]]
      VUndefined VUndefined t2 t3 in
  Ok (mk_reply (JsMap.set sessionId session sessions) socket
        (if cb then
           [callback (VObj [("success", VBool true);
                            ("sessionId", VStr sessionId)])]
         else [])).

Definition join_session (data : value) (cb : bool) (t : Z) : result reply :=
  sessionId <- prop data "sessionId" ;;
  playerData <- prop data "playerData" ;;
  match find_session sessionId sessions with
  | None =>
      Ok (mk_reply sessions socket
            (if cb then
               [callback (VObj [("success", VBool false);
                                ("error", VStr "Sessione non trovata")])]
             else []))
  | Some (sid, session) =>
      let socket1 :=
        Socket.with_sessionId (Some sid) (Socket.join sid socket) in
      let player0 :=
        JsMap.set "online" (VBool true)
          (JsMap.set "id" (VStr (Socket.id socket))
             (assign [] (own_props playerData))) in
      claim <-
        (if set_id (Session.masterId session) then Ok false
         else w <- prop playerData "wantsToBeMaster" ;; Ok (truthy w)) ;;
      let player :=
        if claim then JsMap.set "isMaster" (VBool true) player0
        else player0 in
      let session1 :=
        (if claim
         then Session.with_masterId (Some (Socket.id socket))
         else fun s => s)
          (Session.with_players
             (JsMap.set (Socket.id socket) player (Session.players session))
             (Session.with_lastActivity t session)) in
      Ok (mk_reply (JsMap.set sid session1 sessions) socket1
            ((if cb then
                [callback
                   (VObj [("success", VBool true);
                          ("session",
                           VObj [("id", VStr sid);
                                 ("players", roster session1);
                                 ("gameLog", VArr (Session.gameLog session1));
                                 ("masterId",
                                  str_or_null (Session.masterId session1))])])]
              else [])
             ++ [emit_others sid "player_joined"
                   [VObj [("player", VObj player)]]]))
  end.

Definition game_message (data : value) (t1 t2 : Z) : result reply :=
  if negb (set_id (Socket.sessionId socket)) then Ok (silent sessions socket)
  else
    match Socket.sessionId socket with
    | None => Ok (silent sessions socket)
    | Some sid =>
        match JsMap.get sid sessions with
        | None => Ok (silent sessions socket)
        | Some session =>
            let message :=
              VObj (JsMap.set "timestamp" (VNum t1)
                      (assign [] (own_props data))) in
            let session1 :=
              Session.with_lastActivity t2
                (Session.with_gameLog
                   (Session.gameLog session ++ [message]) session) in
            Ok (mk_reply (JsMap.set sid session1 sessions) socket
                  [emit_room sid "game_message" [message]])
        end
    end.

Definition update_player (data : value) (t : Z) : result reply :=
  if negb (set_id (Socket.sessionId socket)) then Ok (silent sessions socket)
  else
    match Socket.sessionId socket with
    | None => Ok (silent sessions socket)
    | Some sid =>
        match JsMap.get sid sessions with
        | None => Ok (silent sessions socket)
        | Some session =>
            match JsMap.get (Socket.id socket) (Session.players session) with
            | None => Ok (silent sessions socket)
            | Some player0 =>
                let player := assign player0 (own_props data) in
                let session1 :=
                  Session.with_lastActivity t
                    (Session.with_players
                       (JsMap.set (Socket.id socket) player
                          (Session.players session)) session) in
                Ok (mk_reply (JsMap.set sid session1 sessions) socket
                      [emit_others sid "player_updated"
                         [VObj [("playerId", VStr (Socket.id socket));
                                ("playerData", VObj player)]]])
            end
        end
    end.

Definition disconnect (t : Z) : result reply :=
  if negb (set_id (Socket.sessionId socket)) then Ok (silent sessions socket)
  else
    match Socket.sessionId socket with
    | None => Ok (silent sessions socket)
    | Some sid =>
        match JsMap.get sid sessions with
        | None => Ok (silent sessions socket)
        | Some session =>
            match JsMap.get (Socket.id socket) (Session.players session) with
            | None => Ok (silent sessions socket)
            | Some player0 =>
                let player := JsMap.set "online" (VBool false) player0 in
                let session1 :=
                  Session.with_lastActivity t
                    (Session.with_players
                       (JsMap.set (Socket.id socket) player
                          (Session.players session)) session) in
                Ok (mk_reply (JsMap.set sid session1 sessions) socket
                      [emit_others sid "playerUpdate"
                         [VObj [("player", VObj player)]];
                       emit_others sid "player_disconnected"
                         [VObj [("playerId", VStr (Socket.id socket));
                                ("playerName", field player "name")]]])
            end
        end
    end.

End Handlers.

(** ** The hourly cleanup of inactive sessions *)

Definition oneHour : Z := 60 * 60 * 1000.

Definition allPlayersOffline (session : Session.t) : bool :=
  forallb (fun player => negb (is_online player))
    (JsMap.values (Session.players session)).

(** The test guarding [sessions.delete(sessionId)]. *)
Definition inactive (now : Z) (session : Session.t) : bool :=
  allPlayersOffline session && (now - Session.lastActivity session >? oneHour).

(** The [setInterval] callback: one pass over [sessions.entries()],
    deleting as it goes; [now] is its reading of the clock. *)
Definition sweep (now : Z) (sessions : JsMap.t Session.t)
  : JsMap.t Session.t :=
  fold_left
    (fun acc kv =>
       if inactive now (snd kv) then JsMap.delete (fst kv) acc else acc)
    sessions sessions.

(** ** [GET /sessions] *)

Record listing := mk_listing {
  ls_id : string;
  ls_playerCount : nat;
  ls_totalPlayers : nat;
  ls_createdAt : Z;
  ls_hasMaster : value;
  ls_masterName : value
}.

Definition listing_value (x : listing) : value :=
  VObj [("id", VStr (ls_id x));
        ("playerCount", VNum (Z.of_nat (ls_playerCount x)));
        ("totalPlayers", VNum (Z.of_nat (ls_totalPlayers x)));
        ("createdAt", VNum (ls_createdAt x));
        ("hasMaster", ls_hasMaster x);
        ("masterName", ls_masterName x)].

(** [now] is the reading [Date.now()] gives if [createdAt] is falsy. *)
Definition list_session (now : Z) (kv : string * Session.t) : listing :=
  let session := snd kv in
  mk_listing (fst kv)
    (length (onlinePlayers session))
    (JsMap.size (Session.players session))
    (if Session.createdAt session =? 0 then now else Session.createdAt session)
    match Session.masterId session with
    | None => VBool false
    | Some m => match JsMap.get m (Session.players session) with
                | None => VUndefined
                | Some p => field p "online"
                end
    end
    (if set_id (Session.masterId session) then
       match Session.masterId session with
       | None => VNull
       | Some m => match JsMap.get m (Session.players session) with
                   | None => VUndefined
                   | Some p => field p "name"
                   end
       end
     else VNull).

(** [nows i] is the clock as read while the [i]-th session is listed. *)
Definition get_sessions (nows : nat -> Z) (sessions : JsMap.t Session.t)
  : value :=
  VObj [("sessions",
         VArr (map listing_value
                 (js_sort (fun a b => ls_createdAt b - ls_createdAt a)
                    (map (fun ikv => list_session (nows (fst ikv)) (snd ikv))
                       (combine (seq 0 (length sessions)) sessions)))))].

(** ** The server: session registry and connected sockets *)

Record server := mk_server {
  srv_sessions : JsMap.t Session.t;
  srv_sockets : JsMap.t Socket.t
}.

(** The server right after start-up. *)
Definition boot : server := mk_server JsMap.empty JsMap.empty.

(** An event received from a client, with the clock and random readings
    its handler will take. *)
Inductive message : Type :=
| Heartbeat
| CreateSession (data : value) (rnd : string) (t1 t2 : Z)
| JoinSession (data : value) (t : Z)
| JoinAsGameMaster (data : value) (t1 t2 : Z)
| JoinAsPlayer (data : value) (t1 t2 : Z)
| RejoinSession (data : value) (t : Z)
| CharacterUpdate (data : value) (t : Z)
| GameStateUpdate (data : value) (t1 t2 : Z)
| GetActiveSessions
| GmNotesUpdate (data : value) (t : Z)
| MessageAck (data : value)
| Ping
| LegacyCreateSession (data : value) (cb : bool) (rnd : string) (t1 t2 t3 : Z)
| LegacyJoinSession (data : value) (cb : bool) (t : Z)
| LegacyGameMessage (data : value) (t1 t2 : Z)
| LegacyUpdatePlayer (data : value) (t : Z).

Definition handle (sessions : JsMap.t Session.t) (socket : Socket.t)
    (m : message) : result reply :=
  match m with
  | Heartbeat => heartbeat sessions socket
  | CreateSession data rnd t1 t2 => createSession sessions socket data rnd t1 t2
  | JoinSession data t => joinSession sessions socket data t
  | JoinAsGameMaster data t1 t2 => joinAsGameMaster sessions socket data t1 t2
  | JoinAsPlayer data t1 t2 => joinAsPlayer sessions socket data t1 t2
  | RejoinSession data t => rejoinSession sessions socket data t
  | CharacterUpdate data t => characterUpdate sessions socket data t
  | GameStateUpdate data t1 t2 => gameStateUpdate sessions socket data t1 t2
  | GetActiveSessions => getActiveSessions sessions socket
  | GmNotesUpdate data t => gmNotesUpdate sessions socket data t
  | MessageAck data => messageAck sessions socket data
  | Ping => ping sessions socket
  | LegacyCreateSession data cb rnd t1 t2 t3 =>
      create_session sessions socket data cb rnd t1 t2 t3
  | LegacyJoinSession data cb t => join_session sessions socket data cb t
  | LegacyGameMessage data t1 t2 => game_message sessions socket data t1 t2
  | LegacyUpdatePlayer data t => update_player sessions socket data t
  end.

(** What happens to the server: a client connects, a connected client
    sends an event, a client goes away, or the cleanup timer fires. *)
Inductive input : Type :=
| Connect (c : string)
| Recv (c : string) (m : message)
| Disconnect (c : string) (t : Z)
| Sweep (now : Z).

(** An emitted event together with the socket whose handler emitted it. *)
Definition sent := (string * outbound)%type.

Definition step (srv : server) (i : input) : result (server * list sent) :=
  match i with
  | Connect c =>
      if JsMap.has c (srv_sockets srv) then Ok (srv, [])
      else Ok (mk_server (srv_sessions srv)
                 (JsMap.set c (Socket.fresh c) (srv_sockets srv)), [])
  | Recv c m =>
      match JsMap.get c (srv_sockets srv) with
      | None => Ok (srv, [])
      | Some socket =>
          r <- handle (srv_sessions srv) socket m ;;
          Ok (mk_server (r_sessions r)
                (JsMap.set c (r_socket r) (srv_sockets srv)),
              map (pair c) (r_emitted r))
      end
  | Disconnect c t =>
      match JsMap.get c (srv_sockets srv) with
      | None => Ok (srv, [])
      | Some socket =>
          r <- disconnect (srv_sessions srv) socket t ;;
          Ok (mk_server (r_sessions r) (JsMap.delete c (srv_sockets srv)),
              map (pair c) (r_emitted r))
      end
  | Sweep now =>
      Ok (mk_server (sweep now (srv_sessions srv)) (srv_sockets srv), [])
  end.

Fixpoint run (srv : server) (tr : list input) : result (server * list sent) :=
  match tr with
  | [] => Ok (srv, [])
  | i :: rest =>
      a <- step srv i ;;
      b <- run (fst a) rest ;;
      Ok (fst b, (snd a ++ snd b)%list)
  end.

(** ** Fan-out *)

Definition in_room (room : string) (k : Socket.t) : bool :=
  existsb (String.eqb room) (Socket.rooms k).

(** The connections an emitted event is delivered to. *)
Definition recipients (sockets : JsMap.t Socket.t) (sender : string)
    (d : target) : list string :=
  match d with
  | ToSender | ToCallback => [sender]
  | ToOthers room =>
      map (@Socket.id)
        (filter (fun k => in_room room k
                          && negb (String.eqb (Socket.id k) sender))
           (JsMap.values sockets))
  | ToRoom room =>
      map (@Socket.id) (filter (in_room room) (JsMap.values sockets))
  end.

(** ** Notions used by the properties *)

(** The ids of the players of a session recorded as master and online. *)
Definition live_masters (s : Session.t) : list string :=
  JsMap.keys
    (filter (fun kv => is_master (snd kv) && is_online (snd kv))
       (Session.players s)).

(** Inputs of the modern join / rejoin / presence protocol. *)
Definition presence_op (i : input) : bool :=
  match i with
  | Connect _ => true
  | Recv _ (CreateSession _ _ _ _) => true
  | Recv _ (JoinSession _ _) => true
  | Recv _ (JoinAsGameMaster _ _ _) => true
  | Recv _ (JoinAsPlayer _ _ _) => true
  | Recv _ (RejoinSession _ _) => true
  | Disconnect _ _ => true
  | _ => false
  end.



Definition joins_as (m : message) : bool :=
  match m with
  | JoinAsGameMaster _ _ _ | JoinAsPlayer _ _ _ => true
  | _ => false
  end.

(** Input [i] is not from connection [c], or is one of its
    [joinAsGameMaster] / [joinAsPlayer] events. *)
Definition only_joins_as (c : string) (i : input) : bool :=
  match i with
  | Connect c' => negb (String.eqb c' c)
  | Recv c' m => negb (String.eqb c' c) || joins_as m
  | Disconnect c' _ => negb (String.eqb c' c)
  | Sweep _ => true
  end.

(** Session ids are built by [new_session_id]. *)
Definition session_key (k : string) : bool := prefix "rinascimento-" k.

(** A socket of the table: filed under its id and, once bound to a
    session, a member of that session's room. *)
Definition socket_ok (c : string) (k : Socket.t) : Prop :=
  Socket.id k = c /\
  forall s, Socket.sessionId k = Some s ->
            session_key s = true /\ in_room s k = true.

Definition keys_ok (sessions : JsMap.t Session.t) : Prop :=
  forall k, In k (JsMap.keys sessions) -> session_key k = true.

(** What holds of the server whatever it has been through. *)
Record server_ok (srv : server) : Prop := mk_server_ok {
  ok_keys : keys_ok (srv_sessions srv);
  ok_wf : JsMap.wf (srv_sessions srv);
  ok_table : JsMap.wf (srv_sockets srv);
  ok_sockets : forall c k, JsMap.get c (srv_sockets srv) = Some k ->
                           socket_ok c k
}.

(** Every number [to_string] prints when it prints [v] is a safe
    integer. *)
Fixpoint plain (v : value) : bool :=
  match v with
  | VNum n => safe_integer n
  | VArr xs =>
      (fix all (l : list value) : bool :=
         match l with
         | [] => true
         | x :: r => plain x && all r
         end) xs
  | _ => true
  end.

(** The session of a [sessions] entry has a player online. *)
Definition has_online (kv : string * Session.t) : bool :=
  (0 <? length (onlinePlayers (snd kv)))%nat.

(** A list of summaries runs from the newest session to the oldest. *)
Definition newest_to_oldest (l : list summary) : Prop :=
  StronglySorted (fun a b => sm_createdAt b <= sm_createdAt a) l.

(** Every player recorded as master and online is the one [masterId]
    names, and [masterId] is a socket id. *)
Definition master_slot_ok (s : Session.t) : Prop :=
  JsMap.wf (Session.players s) /\
  (forall m, Session.masterId s = Some m -> m <> EmptyString) /\
  (forall pid p, JsMap.get pid (Session.players s) = Some p ->
                 is_master p = true -> is_online p = true ->
                 Session.masterId s = Some pid).

Definition slots_ok (sessions : JsMap.t Session.t) : Prop :=
  forall sid s, JsMap.get sid sessions = Some s -> master_slot_ok s.

(** Inputs other than [rejoinSession] and the legacy [join_session] and
    [update_player]; socket ids are never the empty string. *)
Definition keeps_slot (i : input) : bool :=
  match i with
  | Connect c => negb (String.eqb c EmptyString)
  | Recv _ (RejoinSession _ _) => false
  | Recv _ (LegacyJoinSession _ _ _) => false
  | Recv _ (LegacyUpdatePlayer _ _) => false
  | _ => true
  end.

(** ** Sample data *)

Definition room1 : string := "rinascimento-abc123".

(** A player object as [joinAsGameMaster] / [joinAsPlayer] build it. *)
Definition sample_player (c name : string) (master online : bool) : object :=
  [("id", VStr c); ("name", VStr name);
   ("characterName", VStr EmptyString);
   ("characterConcept", VStr EmptyString);
   ("isMaster", VBool master); ("online", VBool online);
   ("joinedAt", VNum 1000)].

(** A session whose master Anna and player Bruno both went offline. *)
Definition idle_session : Session.t :=
  Session.mk room1 (Some "A")
    [("A", sample_player "A" "Anna" true false);
     ("B", sample_player "B" "Bruno" false false)]
    [] (VObj []) VUndefined 1000 2000.

(** The same session with Anna online. *)
Definition live_session : Session.t :=
  Session.mk room1 (Some "A")
    [("A", sample_player "A" "Anna" true true);
     ("B", sample_player "B" "Bruno" false false)]
    [] (VObj []) VUndefined 1000 2000.

(** The payload [{sessionId, playerData: {name}}] of a join request. *)
Definition join_request (sid name : string) : value :=
  VObj [("sessionId", VStr sid); ("playerData", VObj [("name", VStr name)])].

(** Anna's socket once she has joined [room1] and then joined it as the
    game master. *)
Definition anna_socket : Socket.t :=
  Socket.mk "A" (Some room1) (Some "A") (VBool true) [room1].

(** Bruno's socket, bound to [room1] through [rejoinSession]. *)
Definition bruno_socket : Socket.t :=
  Socket.mk "B" (Some room1) (Some "B") (VBool false) [room1].


(** Bruno online in [room1], with a character sheet holding [a: 1]. *)
Definition bruno_player : object :=
  JsMap.set "character" (VObj [("a", VNum 1)])
    (sample_player "B" "Bruno" false true).

Definition bruno_session : Session.t :=
  Session.mk room1 None [("B", bruno_player)] [] (VObj []) VUndefined 1000 2000.

(** Bruno himself before any [characterUpdate]. *)
Definition bruno_new_session : Session.t :=
  Session.mk room1 None [("B", sample_player "B" "Bruno" false true)]
    [] (VObj []) VUndefined 1000 2000.

Definition patch_a : value := VObj [("character", VObj [("a", VNum 1)])].
Definition patch_b : value := VObj [("character", VObj [("b", VNum 2)])].

(** The payload [{sessionId, playerId}] of a rejoin request. *)
Definition rejoin_request (sid pid : string) : value :=
  VObj [("sessionId", VStr sid); ("playerId", VStr pid)].

(** Scenario: Anna connects, creates [room1], joins it and joins as the
    game master. *)
Definition anna_in_room : list input :=
  [Connect "A";
   Recv "A" (CreateSession VUndefined "0.abc123xyz" 1000 1000);
   Recv "A" (JoinSession (VObj [("sessionId", VStr room1)]) 1001);
   Recv "A" (JoinAsGameMaster (join_request room1 "Anna") 1000 1002)].

Definition anna_session : Session.t :=
  Session.mk room1 (Some "A") [("A", sample_player "A" "Anna" true true)]
    [] (VObj []) VUndefined 1000 1002.

(** The server after [anna_in_room], and what it has emitted. *)
Definition anna_server : server :=
  mk_server [(room1, anna_session)] [("A", anna_socket)].

Definition anna_in_room_sent : list sent :=
  [("A", emit "sessionCreated"
           [VObj [("sessionId", VStr room1); ("success", VBool true)]]);
   ("A", emit "joinedSession"
           [VObj [("sessionId", VStr room1);
                  ("players", VArr []); ("gameLog", VArr [])]]);
   ("A", emit "playerJoined"
           [VObj [("playerId", VStr "A");
                  ("playerData", VObj (sample_player "A" "Anna" true true));
                  ("isMaster", VBool true)]]);
   ("A", emit_others room1 "playerUpdate"
           [VObj [("player", VObj (sample_player "A" "Anna" true true))]])].

Definition dice_roll : value :=
  VObj [("type", VStr "diceRoll"); ("roll", VObj [("total", VNum 15)])].

(** A dice roll whose total is an object with a [toString] entry. *)
Definition odd_roll : value :=
  VObj [("type", VStr "diceRoll");
        ("roll", VObj [("total", VObj [("toString", VNum 0)])])].

(** A game-master note whose text is the empty string. *)
Definition empty_note : value :=
  VObj [("type", VStr "gmNote"); ("note", VStr EmptyString)].

(** Scenario: Bruno connects and joins [room1] with [joinAsPlayer]
    alone, while Anna, who created the room, is around. *)
Definition bruno_joins_as_player : list input :=
  [Recv "B" (JoinAsPlayer (join_request room1 "Bruno") 1000 3001);
   Recv "A" (GameStateUpdate dice_roll 3002 3003);
   Recv "B" (JoinAsGameMaster (join_request room1 "Bruno") 3004 3005)].

(** [anna_server] with Bruno's connection just accepted. *)
Definition bruno_connected : server :=
  mk_server [(room1, anna_session)]
    [("A", anna_socket); ("B", Socket.fresh "B")].

(** The server after [bruno_joins_as_player], and what it emitted on the
    way: Bruno is a player of the room, his socket is not bound to it,
    and his attempt to become master was refused. *)
Definition bruno_unbound : server :=
  mk_server
    [(room1,
      Session.mk room1 (Some "A")
        [("A", sample_player "A" "Anna" true true);
         ("B", sample_player "B" "Bruno" false true)]
        [VObj [("timestamp", VNum 3003); ("type", VStr "diceRoll");
               ("author", VStr "Sistema");
               ("content", VStr "Tiro dadi: 15"); ("data", dice_roll)]]
        (VObj []) VUndefined 1000 3002)]
    [("A", anna_socket);
     ("B", Socket.mk "B" None (Some "B") (VBool false) [])].

Definition bruno_sent : list sent :=
  [("B", emit "playerJoined"
           [VObj [("playerId", VStr "B");
                  ("playerData", VObj (sample_player "B" "Bruno" false true));
                  ("isMaster", VBool false)]]);
   ("B", emit_others room1 "playerUpdate"
           [VObj [("player", VObj (sample_player "B" "Bruno" false true))]]);
   ("A", emit_room room1 "gameStateUpdate" [dice_roll]);
   ("B", emit "sessionError" [VObj [("message", VStr master_exists)]])].





(** Scenario: Anna creates [room1], joins it, becomes its game master
    and drops; Bruno takes the vacant master slot; Anna's client comes
    back on a new connection and rejoins under her player id. *)
Definition master_returns : list input :=
  [Connect "A";
   Recv "A" (CreateSession VUndefined "0.abc123xyz" 1000 1000);
   Recv "A" (JoinSession (VObj [("sessionId", VStr room1)]) 1001);
   Recv "A" (JoinAsGameMaster (join_request room1 "Anna") 1000 1002);
   Disconnect "A" 1003;
   Connect "B";
   Recv "B" (JoinAsGameMaster (join_request room1 "Bruno") 1000 1004);
   Connect "C";
   Recv "C" (RejoinSession (rejoin_request room1 "A") 1005)].

(** The server after [master_returns], and what it emitted on the way. *)
Definition two_masters_session : Session.t :=
  Session.mk room1 (Some "B")
    [("A", sample_player "A" "Anna" true true);
     ("B", sample_player "B" "Bruno" true true)]
    [] (VObj []) VUndefined 1000 1005.

Definition two_masters_server : server :=
  mk_server [(room1, two_masters_session)]
    [("B", Socket.mk "B" None (Some "B") (VBool true) []);
     ("C", Socket.mk "C" (Some room1) (Some "A") (VBool true) [room1])].

Definition master_returns_sent : list sent :=
  [("A", emit "sessionCreated"
           [VObj [("sessionId", VStr room1); ("success", VBool true)]]);
   ("A", emit "joinedSession"
           [VObj [("sessionId", VStr room1);
                  ("players", VArr []); ("gameLog", VArr [])]]);
   ("A", emit "playerJoined"
           [VObj [("playerId", VStr "A");
                  ("playerData", VObj (sample_player "A" "Anna" true true));
                  ("isMaster", VBool true)]]);
   ("A", emit_others room1 "playerUpdate"
           [VObj [("player", VObj (sample_player "A" "Anna" true true))]]);
   ("A", emit_others room1 "playerUpdate"
           [VObj [("player", VObj (sample_player "A" "Anna" true false))]]);
   ("A", emit_others room1 "player_disconnected"
           [VObj [("playerId", VStr "A"); ("playerName", VStr "Anna")]]);
   ("B", emit "playerJoined"
           [VObj [("playerId", VStr "B");
                  ("playerData", VObj (sample_player "B" "Bruno" true true));
                  ("isMaster", VBool true)]]);
   ("B", emit_others room1 "playerUpdate"
           [VObj [("player", VObj (sample_player "B" "Bruno" true true))]]);
   ("C", emit "playerJoined"
           [VObj [("playerId", VStr "A");
                  ("playerData", VObj (sample_player "A" "Anna" true true));
                  ("isMaster", VBool true)]]);
   ("C", emit_others room1 "playerUpdate"
           [VObj [("player", VObj (sample_player "A" "Anna" true true))]])].

(** ** Notions used by the further properties *)

(** The sessions a cleanup pass at [now] keeps. *)
Definition kept (now : Z) (kv : string * Session.t) : bool :=
  negb (inactive now (snd kv)).

(** The session [createSession] stores. *)
Definition blank_session (sid : string) (t1 t2 : Z) : Session.t :=
  Session.mk sid None JsMap.empty [] (VObj []) VUndefined t1 t2.

(** A stored session: it carries the id it is filed under, its players
    have distinct ids, and [masterId], when set, is the id of one of
    them. *)
Definition session_ok (k : string) (s : Session.t) : Prop :=
  Session.id s = k /\
  JsMap.wf (Session.players s) /\
  (forall m, Session.masterId s = Some m ->
             JsMap.has m (Session.players s) = true).

Definition registry_ok (sessions : JsMap.t Session.t) : Prop :=
  forall k s, JsMap.get k sessions = Some s -> session_ok k s.

(** [s1] continues [s]: the same id and creation time, the log of [s]
    with entries added at its end, and every player of [s] still there. *)
Definition continues (s s1 : Session.t) : Prop :=
  Session.id s1 = Session.id s /\
  Session.createdAt s1 = Session.createdAt s /\
  (exists more, Session.gameLog s1 = (Session.gameLog s ++ more)%list) /\
  (forall pid, JsMap.has pid (Session.players s) = true ->
               JsMap.has pid (Session.players s1) = true).

(** The id under which a message files a new session, if it does. *)
Definition creates (m : message) : option string :=
  match m with
  | CreateSession _ rnd _ _ => Some (new_session_id rnd)
  | LegacyCreateSession _ _ rnd _ _ _ => Some (new_session_id rnd)
  | _ => None
  end.

(** Input [i] is a creation request that produces the id [sid]. *)
Definition recreates (sid : string) (i : input) : bool :=
  match i with
  | Recv _ m => match creates m with
                | Some k => String.eqb k sid
                | None => false
                end
  | _ => false
  end.

Definition is_sweep (i : input) : bool :=
  match i with
  | Sweep _ => true
  | _ => false
  end.

(** No object inside [v] defines [toString], [valueOf] or [__proto__]
    of its own: printing [v] calls no method a client has supplied. *)
Fixpoint tame (v : value) : bool :=
  match v with
  | VArr xs =>
      (fix all (l : list value) : bool :=
         match l with
         | [] => true
         | x :: r => tame x && all r
         end) xs
  | VObj o =>
      negb (JsMap.has "toString" o) && negb (JsMap.has "valueOf" o)
      && negb (JsMap.has "__proto__" o)
      && (fix all (l : list (string * value)) : bool :=
            match l with
            | [] => true
            | kv :: r => tame (snd kv) && all r
            end) o
  | _ => true
  end.

(** The payload of a message, if its handler looks at it. *)
Definition payload (m : message) : option value :=
  match m with
  | JoinSession data _ | RejoinSession data _ | CharacterUpdate data _
  | GameStateUpdate data _ _ | GmNotesUpdate data _ | MessageAck data
  | JoinAsGameMaster data _ _ | JoinAsPlayer data _ _
  | LegacyJoinSession data _ _ | LegacyGameMessage data _ _
  | LegacyUpdatePlayer data _ => Some data
  | _ => None
  end.

(** The payload is there where the handler reads its properties ([data]
    itself, and [data.playerData] for the handlers that build a player
    from it), and it is tame. *)
Definition well_formed (m : message) : bool :=
  match payload m with
  | Some data => tame data
  | None => true
  end
  &&
  match m with
  | JoinSession data _ | RejoinSession data _ | CharacterUpdate data _
  | GameStateUpdate data _ _ | GmNotesUpdate data _ | MessageAck data =>
      negb (nullish data)
  | JoinAsGameMaster data _ _ | JoinAsPlayer data _ _
  | LegacyJoinSession data _ _ =>
      negb (nullish data) && negb (nullish (member data "playerData"))
  | _ => true
  end.

Definition well_formed_input (i : input) : bool :=
  match i with
  | Recv _ m => well_formed m
  | _ => true
  end.

(** The payload of the handlers that read a property of it before any
    other check. *)
Definition read_at_once (m : message) : option value :=
  match m with
  | JoinSession data _ | JoinAsGameMaster data _ _ | JoinAsPlayer data _ _
  | RejoinSession data _ | MessageAck data | LegacyJoinSession data _ _ =>
      Some data
  | _ => None
  end.

(** A legacy join request asking for the master slot. *)
Definition legacy_join_request (sid name : string) : value :=
  VObj [("sessionId", VStr sid);
        ("playerData",
         VObj [("name", VStr name); ("wantsToBeMaster", VBool true);
               ("online", VBool false)])].

(** A session nobody has claimed yet, as the legacy [create_session]
    files it. *)
Definition legacy_session : Session.t :=
  Session.mk room1 None JsMap.empty
    [VObj [("author", VStr "Sistema"); ("text", VStr "Sessione creata.");
           ("timestamp", VNum 1000)]]
    VUndefined VUndefined 1000 1000.

Definition chat_message : value :=
  VObj [("author", VStr "Anna"); ("text", VStr "ciao");
        ("timestamp", VNum 1)].

(** A [GET /sessions] listing runs from the newest session to the
    oldest. *)
Definition newest_listing_first (l : list listing) : Prop :=
  StronglySorted (fun a b => ls_createdAt b <= ls_createdAt a) l.

(** The [sessionError] payloads of the join handlers. *)
Definition not_found : value :=
  VObj [("message", VStr "Sessione non trovata")].

Definition not_found_coded : value :=
  VObj [("message", VStr "Sessione non trovata");
        ("code", VStr "SESSION_NOT_FOUND")].

Definition cannot_rejoin : value :=
  VObj [("message", VStr "Impossibile riconnettersi alla sessione")].

(** Every player of the session carries the id it is filed under. *)
Definition players_filed (s : Session.t) : Prop :=
  forall pid p, JsMap.get pid (Session.players s) = Some p ->
                field p "id" = VStr pid.

Definition all_filed (sessions : JsMap.t Session.t) : Prop :=
  forall k s, JsMap.get k sessions = Some s -> players_filed s.

(** Inputs other than the legacy [update_player]. *)
Definition keeps_ids (i : input) : bool :=
  match i with
  | Recv _ (LegacyUpdatePlayer _ _) => false
  | _ => true
  end.

(** * Properties *)

Unset Implicit Arguments.

(** ** [JsMap] *)

Module JsMapFacts.
Import JsMap.

Section Facts.
Variable V : Type.
Implicit Types (m : JsMap.t V) (k : string) (v : V).

Lemma get_set_same k v m : get k (set k v m) = Some v.
Proof.
  induction m as [|[k' v'] r IH]; simpl.
  - now rewrite String.eqb_refl.
  - destruct (String.eqb k k') eqn:E; simpl; rewrite ?String.eqb_refl, ?E; auto.
Qed.

Lemma get_set_other k k' v m : k <> k' -> get k (set k' v m) = get k m.
Proof.
  intros N. apply String.eqb_neq in N.
  induction m as [|[k2 v2] r IH]; simpl.
  - now rewrite N.
  - destruct (String.eqb k' k2) eqn:E; simpl.
    + apply String.eqb_eq in E. subst k2. now rewrite N.
    + now rewrite IH.
Qed.

Lemma set_get_id k v m : get k m = Some v -> set k v m = m.
Proof.
  induction m as [|[k' v'] r IH]; simpl; [discriminate|].
  destruct (String.eqb k k') eqn:E.
  - apply String.eqb_eq in E. intros [= ->]. now subst.
  - intros H. now rewrite IH.
Qed.


Lemma keys_set_present k v v0 m :
  get k m = Some v0 -> keys (set k v m) = keys m.
Proof.
  induction m as [|[k' v'] r IH]; simpl; [discriminate|].
  destruct (String.eqb k k') eqn:E; simpl.
  - apply String.eqb_eq in E. now subst.
  - intros H. f_equal. now apply IH.
Qed.

Lemma set_absent k v m : get k m = None -> set k v m = (m ++ [(k, v)])%list.
Proof.
  induction m as [|[k' v'] r IH]; simpl; auto.
  destruct (String.eqb k k'); [discriminate|].
  intros H. now rewrite IH.
Qed.


Lemma in_keys_set k k' v m :
  In k (keys (set k' v m)) -> k = k' \/ In k (keys m).
Proof.
  induction m as [|[k2 v2] r IH]; simpl.
  - intros [H|[]]; auto.
  - destruct (String.eqb k' k2) eqn:E; simpl.
    + apply String.eqb_eq in E. subst. tauto.
    + intros [H|H]; auto. destruct (IH H); auto.
Qed.

Lemma in_keys_delete k k' m : In k (keys (delete k' m)) -> In k (keys m).
Proof.
  induction m as [|[k2 v2] r IH]; simpl; auto.
  destruct (String.eqb k' k2); simpl; tauto.
Qed.

Lemma get_in_keys k v m : get k m = Some v -> In k (keys m).
Proof.
  induction m as [|[k' v'] r IH]; simpl; [discriminate|].
  destruct (String.eqb k k') eqn:E.
  - apply String.eqb_eq in E. auto.
  - auto.
Qed.

Lemma get_none_not_in k m : get k m = None -> ~ In k (keys m).
Proof.
  induction m as [|[k' v'] r IH]; simpl; auto.
  destruct (String.eqb k k') eqn:E; [discriminate|].
  apply String.eqb_neq in E. intros H [H1|H1]; [congruence|].
  now apply IH.
Qed.

Lemma get_in k v m : get k m = Some v -> In (k, v) m.
Proof.
  induction m as [|[k' v'] r IH]; simpl; [discriminate|].
  destruct (String.eqb k k') eqn:E.
  - apply String.eqb_eq in E. intros [= ->]. subst. auto.
  - auto.
Qed.

Lemma in_get k v m : wf m -> In (k, v) m -> get k m = Some v.
Proof.
  unfold wf. induction m as [|[k' v'] r IH]; simpl; [tauto|].
  intros W. apply NoDup_cons_iff in W. destruct W as [W1 W2].
  intros [H|H].
  - inversion H; subst. now rewrite String.eqb_refl.
  - destruct (String.eqb k k') eqn:E.
    + apply String.eqb_eq in E. subst. exfalso. apply W1.
      change k' with (fst (k', v)). now apply in_map.
    + auto.
Qed.

Lemma wf_set k v m : wf m -> wf (set k v m).
Proof.
  unfold wf. induction m as [|[k' v'] r IH]; simpl.
  - intros _. constructor; [tauto|constructor].
  - intros W. apply NoDup_cons_iff in W. destruct W as [W1 W2].
    destruct (String.eqb k k') eqn:E; simpl.
    + apply String.eqb_eq in E. subst. now constructor.
    + constructor; auto.
      intros H. apply in_keys_set in H. apply String.eqb_neq in E.
      destruct H; [congruence|contradiction].
Qed.

Lemma wf_delete k m : wf m -> wf (delete k m).
Proof.
  unfold wf. induction m as [|[k' v'] r IH]; simpl; auto.
  intros W. apply NoDup_cons_iff in W. destruct W as [W1 W2].
  destruct (String.eqb k k'); simpl; auto.
  constructor; auto. intros H. now apply in_keys_delete in H.
Qed.

Lemma get_delete_same k m : wf m -> get k (delete k m) = None.
Proof.
  unfold wf. induction m as [|[k' v'] r IH]; simpl; auto.
  intros W. apply NoDup_cons_iff in W. destruct W as [W1 W2].
  destruct (String.eqb k k') eqn:E; simpl.
  - apply String.eqb_eq in E. subst.
    destruct (get k' r) eqn:G; auto.
    apply get_in_keys in G. contradiction.
  - rewrite E. auto.
Qed.

Lemma get_delete_other k k' m : k <> k' -> get k (delete k' m) = get k m.
Proof.
  intros N. apply String.eqb_neq in N.
  induction m as [|[k2 v2] r IH]; simpl; auto.
  destruct (String.eqb k' k2) eqn:E; simpl.
  - apply String.eqb_eq in E. subst. now rewrite N.
  - now rewrite IH.
Qed.
End Facts.
End JsMapFacts.

(** ** The cleanup pass *)

Section Sweep.
Variable now : Z.

Let pass (acc : JsMap.t Session.t) (kv : string * Session.t) :=
  if inactive now (snd kv) then JsMap.delete (fst kv) acc else acc.

(** After the entries [l] have been visited, a key is gone if one of
    the visited entries carried it and was inactive. *)
Lemma get_after_pass (k : string) (l acc : JsMap.t Session.t) :
  JsMap.wf acc ->
  JsMap.get k (fold_left pass l acc) =
  if existsb (fun kv => String.eqb (fst kv) k && inactive now (snd kv)) l
  then None else JsMap.get k acc.
Proof.
  revert acc. induction l as [|[k' s] r IH]; intros acc W; simpl; auto.
  unfold pass at 2. simpl.
  destruct (inactive now s) eqn:I.
  - rewrite IH by now apply JsMapFacts.wf_delete.
    destruct (String.eqb k' k) eqn:E; simpl.
    + apply String.eqb_eq in E. subst k'.
      rewrite JsMapFacts.get_delete_same by assumption.
      now destruct (existsb _ r).
    + apply String.eqb_neq in E.
      rewrite JsMapFacts.get_delete_other by congruence. reflexivity.
  - rewrite IH by assumption. now rewrite andb_false_r.
Qed.

Lemma visited_inactive (k : string) (m : JsMap.t Session.t) :
  JsMap.wf m ->
  existsb (fun kv => String.eqb (fst kv) k && inactive now (snd kv)) m =
  match JsMap.get k m with
  | Some s => inactive now s
  | None => false
  end.
Proof.
  unfold JsMap.wf. induction m as [|[k' s] r IH]; simpl; auto.
  intros W. apply NoDup_cons_iff in W. destruct W as [W1 W2].
  rewrite (String.eqb_sym k k').
  destruct (String.eqb k' k) eqn:E; simpl.
  - apply String.eqb_eq in E. subst k'.
    destruct (inactive now s); auto.
    rewrite IH by assumption.
    destruct (JsMap.get k r) eqn:G; auto.
    apply JsMapFacts.get_in_keys in G. contradiction.
  - now apply IH.
Qed.

(** What one pass leaves under each key. *)
Lemma get_sweep (k : string) (sessions : JsMap.t Session.t) :
  JsMap.wf sessions ->
  JsMap.get k (sweep now sessions) =
  match JsMap.get k sessions with
  | Some s => if inactive now s then None else Some s
  | None => None
  end.
Proof.
  intros W. unfold sweep. fold pass.
  rewrite get_after_pass, visited_inactive by assumption.
  destruct (JsMap.get k sessions) as [s|]; auto.
Qed.

Lemma wf_after_pass (l acc : JsMap.t Session.t) :
  JsMap.wf acc -> JsMap.wf (fold_left pass l acc).
Proof.
  revert acc. induction l as [|kv r IH]; intros acc W; simpl; auto.
  apply IH. unfold pass. destruct (inactive now (snd kv)); auto.
  now apply JsMapFacts.wf_delete.
Qed.

Lemma wf_sweep (sessions : JsMap.t Session.t) :
  JsMap.wf sessions -> JsMap.wf (sweep now sessions).
Proof. apply wf_after_pass. Qed.

Lemma keys_after_pass (k : string) (l acc : JsMap.t Session.t) :
  In k (JsMap.keys (fold_left pass l acc)) -> In k (JsMap.keys acc).
Proof.
  revert acc. induction l as [|kv r IH]; intros acc; simpl; auto.
  intros H. apply IH in H. unfold pass in H.
  destruct (inactive now (snd kv)); auto.
  now apply JsMapFacts.in_keys_delete in H.
Qed.

Lemma keys_sweep (k : string) (sessions : JsMap.t Session.t) :
  In k (JsMap.keys (sweep now sessions)) -> In k (JsMap.keys sessions).
Proof. apply keys_after_pass. Qed.
End Sweep.

Lemma allPlayersOffline_spec (session : Session.t) :
  allPlayersOffline session = true <->
  forall p, In p (JsMap.values (Session.players session)) ->
            is_online p = false.
Proof.
  unfold allPlayersOffline. rewrite forallb_forall.
  split; intros H p Hp; specialize (H p Hp).
  - now apply negb_true_iff.
  - now apply negb_true_iff.
Qed.

(** C5.  One pass of the cleanup removes a stored session when all its
    players are offline and [now - lastActivity] exceeds one hour, and
    keeps it, unchanged, when some player is online or
    [now - lastActivity] is within the hour. *)
Theorem C5_sweep_removes_exactly_the_inactive
    (now : Z) (sessions : JsMap.t Session.t) (k : string)
    (session : Session.t) :
  JsMap.wf sessions ->
  JsMap.get k sessions = Some session ->
  ((forall p, In p (JsMap.values (Session.players session)) ->
              is_online p = false) /\
   now - Session.lastActivity session > oneHour ->
   JsMap.get k (sweep now sessions) = None)
  /\
  ((exists p, In p (JsMap.values (Session.players session)) /\
              is_online p = true) \/
   now - Session.lastActivity session <= oneHour ->
   JsMap.get k (sweep now sessions) = Some session).
Proof.
  intros W G. rewrite (get_sweep now k sessions W), G.
  unfold inactive. split.
  - intros [Hoff Hidle].
    apply allPlayersOffline_spec in Hoff. rewrite Hoff.
    replace (now - Session.lastActivity session >? oneHour) with true; auto.
    symmetry. apply Z.gtb_lt. lia.
  - intros [[p [Hp Hon]]|Hfresh].
    + destruct (allPlayersOffline session) eqn:A; auto.
      rewrite allPlayersOffline_spec in A. rewrite (A p Hp) in Hon.
      discriminate.
    + replace (now - Session.lastActivity session >? oneHour) with false.
      * now rewrite andb_false_r.
      * symmetry. rewrite Z.gtb_ltb. apply Z.ltb_ge. lia.
Qed.

Lemma C5_witness :
  JsMap.get room1 (sweep 3602001 [(room1, idle_session)]) = None /\
  JsMap.get room1 (sweep 3602000 [(room1, idle_session)])
  = Some idle_session /\
  JsMap.get room1 (sweep 9999999 [(room1, live_session)])
  = Some live_session.
Proof.
  assert (W : forall s : Session.t, JsMap.wf [(room1, s)]).
  { intros s. repeat constructor. simpl. tauto. }
  split; [|split].
  - apply (proj1 (C5_sweep_removes_exactly_the_inactive
                    3602001 [(room1, idle_session)] room1 idle_session
                    (W _) eq_refl)).
    split.
    + simpl. intros p [<-|[<-|[]]]; reflexivity.
    + reflexivity.
  - apply (proj2 (C5_sweep_removes_exactly_the_inactive
                    3602000 [(room1, idle_session)] room1 idle_session
                    (W _) eq_refl)).
    right. simpl. discriminate.
  - apply (proj2 (C5_sweep_removes_exactly_the_inactive
                    9999999 [(room1, live_session)] room1 live_session
                    (W _) eq_refl)).
    left. exists (sample_player "A" "Anna" true true).
    split; [simpl; auto | reflexivity].
Defined.

(** ** Sorting and the list of active sessions *)

Section SortFacts.
Variable A : Type.
Variable cmp : A -> A -> Z.

Lemma sort_insert_perm (x : A) (l : list A) :
  Permutation (sort_insert cmp x l) (x :: l).
Proof.
  induction l as [|y r IH]; simpl; auto.
  destruct (cmp x y <=? 0); auto.
  rewrite IH. apply perm_swap.
Qed.

Lemma js_sort_perm (l : list A) : Permutation (js_sort cmp l) l.
Proof.
  induction l as [|x r IH]; simpl; auto.
  rewrite sort_insert_perm. now constructor.
Qed.

(** The order the comparator induces: [x] may stay before [y]. *)
Let before (x y : A) : Prop := cmp x y <= 0.

Hypothesis before_total : forall x y, before x y \/ before y x.
Hypothesis before_trans :
  forall x y z, before x y -> before y z -> before x z.

Lemma sort_insert_sorted (x : A) (l : list A) :
  StronglySorted before l -> StronglySorted before (sort_insert cmp x l).
Proof.
  induction 1 as [|y r Hr IH Hy]; simpl.
  - repeat constructor.
  - destruct (cmp x y <=? 0) eqn:E.
    + apply Z.leb_le in E. constructor.
      * now constructor.
      * constructor; auto.
        eapply Forall_impl; [|exact Hy]. intros z Hz.
        now apply before_trans with y.
    + apply Z.leb_gt in E. constructor; auto.
      apply (Permutation_Forall (Permutation_sym (sort_insert_perm x r))).
      constructor; auto.
      destruct (before_total x y) as [H|H]; auto.
      unfold before in H. lia.
Qed.

Lemma js_sort_sorted (l : list A) : StronglySorted before (js_sort cmp l).
Proof.
  induction l as [|x r IH]; simpl.
  - constructor.
  - now apply sort_insert_sorted.
Qed.
End SortFacts.

Lemma sorted_weaken (A : Type) (R S : A -> A -> Prop) (l : list A) :
  (forall x y, R x y -> S x y) -> StronglySorted R l -> StronglySorted S l.
Proof.
  intros RS. induction 1 as [|x r Hr IH Hx]; constructor; auto.
  eapply Forall_impl; [|exact Hx]. auto.
Qed.

Lemma collect_active_from (l : JsMap.t Session.t) (acc : list summary) :
  fold_left
    (fun activeSessions kv =>
       if (0 <? length (onlinePlayers (snd kv)))%nat
       then (activeSessions ++ [summarize kv])%list
       else activeSessions) l acc
  = (acc ++ map summarize (filter has_online l))%list.
Proof.
  revert acc. induction l as [|kv r IH]; intros acc; simpl.
  - now rewrite app_nil_r.
  - rewrite IH. unfold has_online at 2.
    destruct (0 <? length (onlinePlayers (snd kv)))%nat; simpl; auto.
    now rewrite <- app_assoc.
Qed.

Lemma collect_active_filter (sessions : JsMap.t Session.t) :
  collect_active sessions = map summarize (filter has_online sessions).
Proof. unfold collect_active. now rewrite collect_active_from. Qed.

Lemma liveMaster_true (s : Session.t) :
  liveMaster s = VBool true <->
  exists m p, Session.masterId s = Some m /\ m <> EmptyString /\
              JsMap.get m (Session.players s) = Some p /\
              field p "online" = VBool true.
Proof.
  unfold liveMaster. split.
  - destruct (Session.masterId s) as [m|]; [|discriminate].
    destruct (String.eqb m EmptyString) eqn:E; [discriminate|].
    apply String.eqb_neq in E.
    destruct (JsMap.get m (Session.players s)) as [p|] eqn:G; [|discriminate].
    intros H. exists m, p. repeat split; auto.
  - intros (m & p & -> & N & -> & H).
    apply String.eqb_neq in N. now rewrite N.
Qed.

Lemma liveMaster_truthy (s : Session.t) :
  truthy (liveMaster s) = true <->
  exists m p, Session.masterId s = Some m /\ m <> EmptyString /\
              JsMap.get m (Session.players s) = Some p /\
              is_online p = true.
Proof.
  unfold liveMaster, is_online. split.
  - destruct (Session.masterId s) as [m|]; [|discriminate].
    destruct (String.eqb m EmptyString) eqn:E; [discriminate|].
    apply String.eqb_neq in E.
    destruct (JsMap.get m (Session.players s)) as [p|] eqn:G; [|discriminate].
    intros H. exists m, p. repeat split; auto.
  - intros (m & p & -> & N & -> & H).
    apply String.eqb_neq in N. now rewrite N.
Qed.

(** Sorting the images of a list is sorting the list by the images. *)
Lemma sort_insert_map (A B : Type) (f : A -> B) (cmp : B -> B -> Z)
    (x : A) (l : list A) :
  sort_insert cmp (f x) (map f l)
  = map f (sort_insert (fun a b => cmp (f a) (f b)) x l).
Proof.
  induction l as [|y r IH]; simpl; auto.
  destruct (cmp (f x) (f y) <=? 0); simpl; auto.
  now rewrite IH.
Qed.

Lemma js_sort_map (A B : Type) (f : A -> B) (cmp : B -> B -> Z)
    (l : list A) :
  js_sort cmp (map f l) = map f (js_sort (fun a b => cmp (f a) (f b)) l).
Proof.
  unfold js_sort. induction l as [|x r IH]; simpl; auto.
  rewrite IH. apply sort_insert_map.
Qed.

(** C6.  [getActiveSessions] changes nothing and answers the requesting
    socket alone, with one [activeSessions] event whose [sessions] array
    holds one object for each stored session that has an online player
    and for no other.  The object of a session gives its id as
    [sessionId], the number of its online players as [playerCount], its
    [createdAt], and as [hasMaster] a value that is [true] exactly when
    [masterId] is set and the player it names has [online = true] (and
    is truthy exactly when that player's [online] is).  The array runs
    from the newest [createdAt] to the oldest. *)
Theorem C6_getActiveSessions_lists_live_sessions_newest_first
    (sessions : JsMap.t Session.t) (socket : Socket.t) :
  exists listed : list (string * Session.t),
    getActiveSessions sessions socket
    = Ok (mk_reply sessions socket
            [mk_out ToSender "activeSessions"
               [VObj
                  [("sessions",
                    VArr
                      (map
                         (fun kv =>
                            VObj
                              [("sessionId", VStr (fst kv));
                               ("playerCount",
                                VNum
                                  (Z.of_nat
                                     (length
                                        (filter is_online
                                           (JsMap.values
                                              (Session.players (snd kv)))))));
                               ("hasMaster", liveMaster (snd kv));
                               ("createdAt",
                                VNum (Session.createdAt (snd kv)))])
                         listed))]]])
    /\ Permutation listed (filter has_online sessions)
    /\ (forall k s,
          In (k, s) listed <->
          In (k, s) sessions /\
          exists p, In p (JsMap.values (Session.players s)) /\
                    truthy (field p "online") = true)
    /\ StronglySorted
         (fun a b => Session.createdAt (snd b) <= Session.createdAt (snd a))
         listed
    /\ (forall s,
          liveMaster s = VBool true <->
          exists m p, Session.masterId s = Some m /\ m <> EmptyString /\
                      JsMap.get m (Session.players s) = Some p /\
                      field p "online" = VBool true)
    /\ (forall s,
          truthy (liveMaster s) = true <->
          exists m p, Session.masterId s = Some m /\ m <> EmptyString /\
                      JsMap.get m (Session.players s) = Some p /\
                      truthy (field p "online") = true).
Proof.
  pose (by_age := fun a b : string * Session.t =>
                    Session.createdAt (snd b) - Session.createdAt (snd a)).
  assert (P : Permutation (js_sort by_age (filter has_online sessions))
                (filter has_online sessions)) by apply js_sort_perm.
  exists (js_sort by_age (filter has_online sessions)).
  split; [|split; [exact P|split; [|split; [|split]]]].
  - unfold getActiveSessions, activeSessions.
    rewrite collect_active_filter.
    rewrite (js_sort_map _ _ summarize newest_first).
    rewrite map_map. reflexivity.
  - intros k s. split.
    + intros I. apply (Permutation_in _ P) in I.
      apply filter_In in I. destruct I as [I O]. split; [exact I|].
      unfold has_online, onlinePlayers in O. cbn [snd] in O.
      apply Nat.ltb_lt in O.
      destruct (filter is_online (JsMap.values (Session.players s)))
        as [|p r] eqn:F; simpl in O; [lia|].
      assert (Ip : In p (filter is_online
                           (JsMap.values (Session.players s))))
        by (rewrite F; now left).
      apply filter_In in Ip. destruct Ip as [Ip On].
      exists p. split; [exact Ip | exact On].
    + intros (I & p & Ip & On).
      apply (Permutation_in _ (Permutation_sym P)).
      apply filter_In. split; [exact I|].
      unfold has_online, onlinePlayers. cbn [snd]. apply Nat.ltb_lt.
      assert (Ip' : In p (filter is_online
                            (JsMap.values (Session.players s))))
        by (apply filter_In; split; [exact Ip | exact On]).
      destruct (filter is_online (JsMap.values (Session.players s)));
        simpl in *; [tauto | lia].
  - eapply sorted_weaken; [| apply (js_sort_sorted _ by_age)].
    + unfold by_age. intros a b H. simpl in H. lia.
    + unfold by_age. intros x y. lia.
    + unfold by_age. intros x y z. lia.
  - apply liveMaster_true.
  - intros s. apply (liveMaster_truthy s).
Qed.

(** ** Game-master notes *)

(** C8.  [gmNotesUpdate] from a socket whose [isMaster] is not set does
    nothing: the sessions are as they were and nothing is emitted (the
    same holds of a socket bound to no stored session).  From a socket
    with [isMaster] set and bound to a stored session it replaces the
    session's [gmNotes] by the payload's [notes], sets [lastActivity],
    and emits [gmNotesSaved] to the requesting socket alone. *)
Theorem C8_gmNotesUpdate_is_master_only
    (sessions : JsMap.t Session.t) (socket : Socket.t) (data : value) (t : Z) :
  (truthy (Socket.isMaster socket) = false ->
   gmNotesUpdate sessions socket data t = Ok (mk_reply sessions socket []))
  /\
  ((forall sid, Socket.sessionId socket = Some sid ->
                sid = EmptyString \/ JsMap.get sid sessions = None) ->
   gmNotesUpdate sessions socket data t = Ok (mk_reply sessions socket []))
  /\
  (forall sid session notes,
     truthy (Socket.isMaster socket) = true ->
     Socket.sessionId socket = Some sid -> sid <> EmptyString ->
     JsMap.get sid sessions = Some session ->
     prop data "notes" = Ok notes ->
     gmNotesUpdate sessions socket data t
     = Ok (mk_reply
             (JsMap.set sid
                (Session.mk (Session.id session) (Session.masterId session)
                   (Session.players session) (Session.gameLog session)
                   (Session.gameState session) notes
                   (Session.createdAt session) t)
                sessions)
             socket
             [mk_out ToSender "gmNotesSaved" []])).
Proof.
  unfold gmNotesUpdate. split; [|split].
  - intros M. rewrite M. simpl. now rewrite orb_true_r.
  - intros U. destruct (Socket.sessionId socket) as [sid|]; [|reflexivity].
    destruct (U sid eq_refl) as [->|G]; [reflexivity|].
    rewrite G. now destruct (_ || _).
  - intros sid session notes M B N G P.
    rewrite M, B, G, P. simpl.
    apply String.eqb_neq in N. now rewrite N.
Qed.

Lemma C8_witness :
  gmNotesUpdate [(room1, live_session)] bruno_socket
    (VObj [("notes", VStr "trappola al ponte")]) 5000
  = Ok (mk_reply [(room1, live_session)] bruno_socket [])
  /\
  gmNotesUpdate [(room1, live_session)] anna_socket
    (VObj [("notes", VStr "trappola al ponte")]) 5000
  = Ok (mk_reply
          [(room1,
            Session.mk room1 (Some "A") (Session.players live_session) []
              (VObj []) (VStr "trappola al ponte") 1000 5000)]
          anna_socket [mk_out ToSender "gmNotesSaved" []]).
Proof.
  split.
  - apply (proj1 (C8_gmNotesUpdate_is_master_only
                    [(room1, live_session)] bruno_socket
                    (VObj [("notes", VStr "trappola al ponte")]) 5000)).
    reflexivity.
  - apply (proj2 (proj2 (C8_gmNotesUpdate_is_master_only
                           [(room1, live_session)] anna_socket
                           (VObj [("notes", VStr "trappola al ponte")]) 5000))
             room1 live_session (VStr "trappola al ponte")).
    + reflexivity.
    + reflexivity.
    + discriminate.
    + reflexivity.
    + reflexivity.
Defined.

(** ** Joining as game master *)

(** C2, as the code has it.  [joinAsGameMaster] on a stored session whose
    [masterId] is set and names an online player leaves the sessions and
    the socket exactly as they were and emits to the caller a single
    [sessionError] whose payload holds the message [master_exists] and
    nothing else: it has no [code]. *)
Theorem C2_joinAsGameMaster_refused_while_master_is_online
    (sessions : JsMap.t Session.t) (socket : Socket.t) (data : value)
    (t1 t2 : Z) (sid : string) (session : Session.t) (m : string)
    (p : object) :
  prop data "sessionId" = Ok (VStr sid) ->
  JsMap.get sid sessions = Some session ->
  Session.masterId session = Some m -> m <> EmptyString ->
  JsMap.get m (Session.players session) = Some p ->
  is_online p = true ->
  joinAsGameMaster sessions socket data t1 t2
  = Ok (mk_reply sessions socket
          [mk_out ToSender "sessionError"
             [VObj [("message", VStr master_exists)]]])
  /\ member (VObj [("message", VStr master_exists)]) "code" = VUndefined.
Proof.
  intros S G M N P O. split; [|reflexivity].
  unfold joinAsGameMaster.
  assert (D : nullish data = false).
  { unfold prop in S. destruct (nullish data); [discriminate|reflexivity]. }
  rewrite S. unfold prop at 1. rewrite D. simpl.
  rewrite G.
  assert (L : truthy (liveMaster session) = true).
  { apply liveMaster_truthy. exists m, p. auto. }
  now rewrite L.
Qed.

Lemma C2_witness :
  joinAsGameMaster [(room1, live_session)] (Socket.fresh "C")
    (join_request room1 "Carla") 3000 3001
  = Ok (mk_reply [(room1, live_session)] (Socket.fresh "C")
          [mk_out ToSender "sessionError"
             [VObj [("message", VStr master_exists)]]]).
Proof.
  apply (C2_joinAsGameMaster_refused_while_master_is_online
           [(room1, live_session)] (Socket.fresh "C")
           (join_request room1 "Carla") 3000 3001
           room1 live_session "A" (sample_player "A" "Anna" true true)).
  - reflexivity.
  - reflexivity.
  - reflexivity.
  - discriminate.
  - reflexivity.
  - reflexivity.
Defined.

(** C2 as stated fails: with Anna online as master of [room1], a second
    [joinAsGameMaster] is answered, but no event it emits carries the
    code [MASTER_ALREADY_PRESENT]. *)
Lemma C2_counterexample :
  JsMap.get room1 [(room1, live_session)] = Some live_session /\
  Session.masterId live_session = Some "A" /\
  (exists p, JsMap.get "A" (Session.players live_session) = Some p /\
             field p "online" = VBool true) /\
  exists r,
    joinAsGameMaster [(room1, live_session)] (Socket.fresh "C")
      (join_request room1 "Carla") 3000 3001 = Ok r /\
    ~ (exists out payload,
         In out (r_emitted r) /\ In payload (args out) /\
         member payload "code" = VStr "MASTER_ALREADY_PRESENT").
Proof.
  split; [reflexivity|]. split; [reflexivity|]. split.
  - eexists. split; reflexivity.
  - eexists. split; [reflexivity|].
    intros (out & payload & Ho & Hp & Hc). simpl in Ho.
    destruct Ho as [<-|[]]. simpl in Hp. destruct Hp as [<-|[]].
    discriminate.
Qed.

(** ** Creating a session *)

Lemma prefix_app (a b : string) : prefix a (a ++ b) = true.
Proof.
  induction a as [|c a IH]; simpl.
  - now destruct b.
  - destruct (ascii_dec c c); [exact IH | congruence].
Qed.

Lemma new_session_id_key (rnd : string) :
  session_key (new_session_id rnd) = true.
Proof. apply prefix_app. Qed.

(** C9, as the code has it.  [createSession] always returns: it builds
    the id [rinascimento-] followed by at most six characters of the
    random string, without looking it up in the store; it files under
    that id an empty session (no players, empty log, [masterId] unset)
    whose [createdAt] and [lastActivity] are the two clock readings of the
    call; whatever is stored under any other id stays as it was, and when
    the id was not in the store the store gains just this entry; the
    caller receives [sessionCreated] with the id and [success]. *)
Theorem C9_createSession_files_an_empty_session
    (sessions : JsMap.t Session.t) (socket : Socket.t) (data : value)
    (rnd : string) (t1 t2 : Z) :
  exists sid session sessions1,
    sid = new_session_id rnd
    /\ session = Session.mk sid None [] [] (VObj []) VUndefined t1 t2
    /\ createSession sessions socket data rnd t1 t2
       = Ok (mk_reply sessions1 socket
               [mk_out ToSender "sessionCreated"
                  [VObj [("sessionId", VStr sid); ("success", VBool true)]]])
    /\ prefix "rinascimento-" sid = true
    /\ (String.length sid <= 19)%nat
    /\ JsMap.get sid sessions1 = Some session
    /\ (forall k, k <> sid -> JsMap.get k sessions1 = JsMap.get k sessions)
    /\ (JsMap.get sid sessions = None ->
        sessions1 = (sessions ++ [(sid, session)])%list).
Proof.
  do 3 eexists. split; [reflexivity|]. split; [reflexivity|].
  split; [reflexivity|]. split; [apply new_session_id_key|].
  split; [|split; [|split]].
  - unfold new_session_id. simpl.
    enough (forall n m s, (String.length (substring n m s) <= m)%nat) as L.
    { specialize (L 2%nat 6%nat rnd). lia. }
    induction n as [|n IHn]; intros m s.
    + revert s. induction m as [|m IHm]; intros [|c s]; simpl; auto; try lia.
      specialize (IHm s). lia.
    + destruct s as [|c s]; simpl; [lia | apply IHn].
  - apply JsMapFacts.get_set_same.
  - intros k N. now apply JsMapFacts.get_set_other.
  - apply JsMapFacts.set_absent.
Qed.

(** C9 as stated fails.  When the random string repeats, the id is one
    already in the store and the session stored under it is replaced by
    an empty one; and when the clock advances between the two readings,
    [createdAt] and [lastActivity] differ. *)
Lemma C9_counterexample :
  (exists r,
     createSession [(room1, live_session)] (Socket.fresh "C") VUndefined
       "0.abc123xyz" 3000 3000 = Ok r /\
     new_session_id "0.abc123xyz" = room1 /\
     JsMap.get room1 [(room1, live_session)] = Some live_session /\
     JsMap.get room1 (r_sessions r) <> Some live_session)
  /\
  (exists r s,
     createSession [] (Socket.fresh "C") VUndefined "0.abc123xyz" 2999 3000
     = Ok r /\
     JsMap.get room1 (r_sessions r) = Some s /\
     Session.createdAt s <> Session.lastActivity s).
Proof.
  split.
  - eexists. split; [reflexivity|]. split; [reflexivity|].
    split; [reflexivity|]. simpl. discriminate.
  - do 2 eexists. split; [reflexivity|]. split; [reflexivity|].
    simpl. discriminate.
Qed.

(** ** Object spread and [Object.assign] *)

Lemma get_assign_absent (k : string) (src target : object) :
  JsMap.get k src = None ->
  JsMap.get k (assign target src) = JsMap.get k target.
Proof.
  unfold assign. revert target.
  induction src as [|[k' v'] r IH]; intros target; simpl; auto.
  destruct (String.eqb k k') eqn:E; [discriminate|].
  intros H. rewrite IH by assumption.
  apply JsMapFacts.get_set_other. now apply String.eqb_neq.
Qed.

Lemma get_assign_present (k : string) (v : value) (src target : object) :
  JsMap.wf src -> JsMap.get k src = Some v ->
  JsMap.get k (assign target src) = Some v.
Proof.
  unfold assign, JsMap.wf. revert target.
  induction src as [|[k' v'] r IH]; intros target W; simpl; [discriminate|].
  apply NoDup_cons_iff in W. destruct W as [W1 W2].
  destruct (String.eqb k k') eqn:E.
  - apply String.eqb_eq in E. subst k'. intros [= ->].
    change (JsMap.get k (assign (JsMap.set k v target) r) = Some v).
    rewrite get_assign_absent.
    + apply JsMapFacts.get_set_same.
    + destruct (JsMap.get k r) eqn:G; auto.
      apply JsMapFacts.get_in_keys in G. contradiction.
  - intros H. now apply IH.
Qed.

Lemma get_assign_empty (k : string) (src : object) :
  JsMap.wf src -> JsMap.get k (assign [] src) = JsMap.get k src.
Proof.
  intros W. destruct (JsMap.get k src) eqn:G.
  - now apply get_assign_present.
  - now rewrite get_assign_absent.
Qed.

(** [{ ...a, ...b }] keeps what [a] holds under the keys [b] lacks, and
    takes from [b] the keys [b] has. *)
Lemma get_spread2_kept (k : string) (a b : value) :
  JsMap.wf (own_props a) ->
  JsMap.get k (own_props b) = None ->
  JsMap.get k (spread2 a b) = JsMap.get k (own_props a).
Proof.
  intros W H. unfold spread2. rewrite get_assign_absent by assumption.
  now apply get_assign_empty.
Qed.

Lemma get_spread2_patched (k : string) (v : value) (a b : value) :
  JsMap.wf (own_props b) ->
  JsMap.get k (own_props b) = Some v ->
  JsMap.get k (spread2 a b) = Some v.
Proof. intros W H. unfold spread2. now apply get_assign_present. Qed.

Lemma wf_assign (src target : object) :
  JsMap.wf target -> JsMap.wf (assign target src).
Proof.
  unfold assign. revert target.
  induction src as [|[k v] r IH]; intros target W; simpl; auto.
  apply IH. now apply JsMapFacts.wf_set.
Qed.

Lemma wf_spread2 (a b : value) : JsMap.wf (spread2 a b).
Proof. unfold spread2. do 2 apply wf_assign. constructor. Qed.

(** ** Character updates *)

(** C7.  For a socket bound to a player of a stored session,
    [characterUpdate] with patch [data.character] leaves the socket and
    every other session as they are; in the socket's session it sets
    [lastActivity] and replaces the record stored for the socket's
    player, every other player staying as it was.  The new record
    differs from the old one at most in [character]: when the patch is
    truthy the new [character] is an object in which every key the patch
    lacks holds what the old [character] held under it and every key of
    the patch holds the patch's value; a falsy patch leaves the record
    as it was.  The others in the room are sent one [gameStateUpdate]
    whose [character] is the patch itself. *)
Theorem C7_characterUpdate_merges_the_patch
    (sessions : JsMap.t Session.t) (socket : Socket.t) (data : value) (t : Z)
    (sid pid : string) (session : Session.t) (player : object)
    (patch : value) :
  Socket.sessionId socket = Some sid -> sid <> EmptyString ->
  Socket.playerId socket = Some pid -> pid <> EmptyString ->
  JsMap.get sid sessions = Some session ->
  JsMap.get pid (Session.players session) = Some player ->
  JsMap.wf (own_props (field player "character")) ->
  prop data "character" = Ok patch ->
  exists r players1 player1,
    characterUpdate sessions socket data t = Ok r
    /\ r_socket r = socket
    /\ r_emitted r
       = [mk_out (ToOthers sid) "gameStateUpdate"
            [VObj [("type", VStr "characterUpdate");
                   ("playerId", VStr pid);
                   ("playerName", field player "name");
                   ("character", patch)]]]
    /\ JsMap.get sid (r_sessions r)
       = Some (Session.mk (Session.id session) (Session.masterId session)
                 players1 (Session.gameLog session)
                 (Session.gameState session) (Session.gmNotes session)
                 (Session.createdAt session) t)
    /\ (forall k, k <> sid ->
                  JsMap.get k (r_sessions r) = JsMap.get k sessions)
    /\ JsMap.keys (r_sessions r) = JsMap.keys sessions
    /\ JsMap.get pid players1 = Some player1
    /\ (forall k, k <> pid ->
                  JsMap.get k players1 = JsMap.get k (Session.players session))
    /\ JsMap.keys players1 = JsMap.keys (Session.players session)
    /\ (forall k, k <> "character" -> field player1 k = field player k)
    /\ (truthy patch = false -> player1 = player)
    /\ (truthy patch = true ->
        exists merged,
          field player1 "character" = VObj merged /\
          (forall k, JsMap.get k (own_props patch) = None ->
                     JsMap.get k merged
                     = JsMap.get k (own_props (field player "character"))) /\
          (forall k v, JsMap.wf (own_props patch) ->
                       JsMap.get k (own_props patch) = Some v ->
                       JsMap.get k merged = Some v)).
Proof.
  intros B NB P NP G GP W D.
  apply String.eqb_neq in NB, NP.
  unfold characterUpdate. rewrite B, P, G, GP, D. simpl.
  rewrite NB, NP. simpl.
  pose (player1 :=
          if truthy patch then
            JsMap.set "character"
              (VObj (spread2 (field player "character") patch)) player
          else player).
  assert (Nm : field player1 "name" = field player "name").
  { unfold player1. destruct (truthy patch); [|reflexivity].
    unfold field, member.
    now rewrite JsMapFacts.get_set_other by discriminate. }
  exists (mk_reply
            (JsMap.set sid
               (Session.with_lastActivity t
                  (Session.with_players
                     (JsMap.set pid player1 (Session.players session))
                     session))
               sessions)
            socket
            [mk_out (ToOthers sid) "gameStateUpdate"
               [VObj [("type", VStr "characterUpdate");
                      ("playerId", VStr pid);
                      ("playerName", field player1 "name");
                      ("character", patch)]]]),
    (JsMap.set pid player1 (Session.players session)), player1.
  cbn [r_socket r_emitted r_sessions].
  split; [reflexivity|]. split; [reflexivity|].
  split; [now rewrite Nm|].
  split; [apply JsMapFacts.get_set_same|].
  split; [intros k N; now apply JsMapFacts.get_set_other|].
  split; [now apply JsMapFacts.keys_set_present with session|].
  split; [apply JsMapFacts.get_set_same|].
  split; [intros k N; now apply JsMapFacts.get_set_other|].
  split; [now apply JsMapFacts.keys_set_present with player|].
  unfold player1. destruct (truthy patch) eqn:T.
  - split; [|split].
    + intros k N. unfold field, member.
      now rewrite JsMapFacts.get_set_other.
    + discriminate.
    + intros _. eexists. split; [|split].
      * unfold field, member. now rewrite JsMapFacts.get_set_same.
      * intros k H. now apply get_spread2_kept.
      * intros k v Wp H. now apply get_spread2_patched.
  - split; [reflexivity|]. split; [reflexivity|discriminate].
Qed.

(** Patching [{a: 1}] and then [{b: 2}] leaves both [a: 1] and [b: 2]. *)
Example characterUpdate_a_then_b :
  exists r1 r2 s p c,
    characterUpdate [(room1, bruno_new_session)] bruno_socket patch_a 3000
    = Ok r1 /\
    characterUpdate (r_sessions r1) (r_socket r1) patch_b 3001 = Ok r2 /\
    JsMap.get room1 (r_sessions r2) = Some s /\
    JsMap.get "B" (Session.players s) = Some p /\
    field p "character" = VObj c /\
    JsMap.get "a" c = Some (VNum 1) /\ JsMap.get "b" c = Some (VNum 2).
Proof. do 5 eexists. repeat split; reflexivity. Qed.

Lemma C7_witness :
  (exists r players1 player1 merged,
     characterUpdate [(room1, bruno_session)] bruno_socket patch_b 3000 = Ok r
     /\ r_emitted r
        = [mk_out (ToOthers room1) "gameStateUpdate"
             [VObj [("type", VStr "characterUpdate");
                    ("playerId", VStr "B");
                    ("playerName", VStr "Bruno");
                    ("character", VObj [("b", VNum 2)])]]]
     /\ JsMap.get room1 (r_sessions r)
        = Some (Session.mk room1 None players1 [] (VObj []) VUndefined
                  1000 3000)
     /\ JsMap.get "B" players1 = Some player1
     /\ field player1 "character" = VObj merged
     /\ JsMap.get "a" merged = Some (VNum 1)
     /\ JsMap.get "b" merged = Some (VNum 2))
  /\
  (exists r players1 player1 merged,
     characterUpdate [(room1, bruno_session)] bruno_socket
       (VObj [("character", VStr "sì")]) 3000 = Ok r
     /\ JsMap.get room1 (r_sessions r)
        = Some (Session.mk room1 None players1 [] (VObj []) VUndefined
                  1000 3000)
     /\ JsMap.get "B" players1 = Some player1
     /\ field player1 "character" = VObj merged
     /\ JsMap.get "a" merged = Some (VNum 1)
     /\ JsMap.get "0" merged = Some (VStr "s")
     /\ JsMap.get "1" merged = Some (VStr "ì")
     /\ JsMap.get "2" merged = None).
Proof.
  split.
  - destruct (C7_characterUpdate_merges_the_patch
                [(room1, bruno_session)] bruno_socket patch_b 3000
                room1 "B" bruno_session bruno_player (VObj [("b", VNum 2)]))
      as (r & players1 & player1 & E & _ & Em & Gs & _ & _ & Gp & _ & _ & _
          & _ & M).
    + reflexivity.
    + discriminate.
    + reflexivity.
    + discriminate.
    + reflexivity.
    + reflexivity.
    + repeat constructor. simpl. tauto.
    + reflexivity.
    + destruct (M eq_refl) as (merged & C & K & Pt).
      exists r, players1, player1, merged. split; [exact E|].
      split; [exact Em|]. split; [exact Gs|]. split; [exact Gp|].
      split; [exact C|]. split.
      * rewrite K; reflexivity.
      * apply Pt; [|reflexivity]. repeat constructor. simpl. tauto.
  - destruct (C7_characterUpdate_merges_the_patch
                [(room1, bruno_session)] bruno_socket
                (VObj [("character", VStr "sì")]) 3000
                room1 "B" bruno_session bruno_player (VStr "sì"))
      as (r & players1 & player1 & E & _ & _ & Gs & _ & _ & Gp & _ & _ & _
          & _ & M).
    + reflexivity.
    + discriminate.
    + reflexivity.
    + discriminate.
    + reflexivity.
    + reflexivity.
    + repeat constructor. simpl. tauto.
    + reflexivity.
    + destruct (M eq_refl) as (merged & C & K & Pt).
      assert (W : JsMap.wf (own_props (VStr "sì")))
        by (repeat constructor; simpl; intuition discriminate).
      exists r, players1, player1, merged. split; [exact E|].
      split; [exact Gs|]. split; [exact Gp|]. split; [exact C|].
      split; [rewrite K; reflexivity|].
      split; [apply Pt; [exact W | reflexivity]|].
      split; [apply Pt; [exact W | reflexivity]|].
      rewrite K; reflexivity.
Defined.

(** ** Rejoining *)

Section Rejoin.
Variables (data : value) (sid pid : string).
Hypothesis data_sid : prop data "sessionId" = Ok (VStr sid).
Hypothesis data_pid : prop data "playerId" = Ok (VStr pid).


End Rejoin.



(** ** What every reachable state of the server satisfies *)

Lemma keys_ok_set (k : string) (v : Session.t) (sessions : JsMap.t Session.t) :
  session_key k = true -> keys_ok sessions -> keys_ok (JsMap.set k v sessions).
Proof.
  intros K H k' I. apply JsMapFacts.in_keys_set in I.
  destruct I as [->|I]; auto.
Qed.

Lemma keys_ok_get (k : string) (v : Session.t) (sessions : JsMap.t Session.t) :
  keys_ok sessions -> JsMap.get k sessions = Some v -> session_key k = true.
Proof. intros H G. apply H. eapply JsMapFacts.get_in_keys; eauto. Qed.

Lemma find_session_get (v : value) (sessions : JsMap.t Session.t)
    (sid : string) (session : Session.t) :
  find_session v sessions = Some (sid, session) ->
  v = VStr sid /\ JsMap.get sid sessions = Some session.
Proof.
  unfold find_session. destruct v; try discriminate.
  destruct (JsMap.get s sessions) eqn:G; [|discriminate].
  intros [= <- <-]. auto.
Qed.

Lemma in_room_join (room : string) (k : Socket.t) :
  in_room room (Socket.join room k) = true.
Proof.
  unfold in_room, Socket.join. simpl.
  destruct (existsb (String.eqb room) (Socket.rooms k)) eqn:E; auto.
  rewrite existsb_app. simpl. rewrite String.eqb_refl.
  now rewrite orb_true_r.
Qed.

Lemma socket_ok_bind (c sid : string) (k : Socket.t) :
  session_key sid = true -> socket_ok c k ->
  socket_ok c (Socket.with_sessionId (Some sid) (Socket.join sid k)).
Proof.
  intros K [I _]. split; [exact I|].
  simpl. intros s [= <-]. split; [exact K|]. apply (in_room_join sid k).
Qed.

Lemma socket_ok_playerId (c : string) (p : option string) (k : Socket.t) :
  socket_ok c k -> socket_ok c (Socket.with_playerId p k).
Proof. intros [I B]. split; [exact I | exact B]. Qed.

Lemma socket_ok_isMaster (c : string) (m : value) (k : Socket.t) :
  socket_ok c k -> socket_ok c (Socket.with_isMaster m k).
Proof. intros [I B]. split; [exact I | exact B]. Qed.

Create HintDb relay.

#[local] Hint Resolve keys_ok_set keys_ok_get JsMapFacts.wf_set
  socket_ok_bind socket_ok_playerId socket_ok_isMaster
  new_session_id_key : relay.

(** Case analysis on the run of a handler that returned. *)
Ltac returned H :=
  repeat match type of H with
    | Ok _ = Ok _ => injection H as H; subst
    | Throw _ = Ok _ => discriminate H
    | bind ?e _ = Ok _ =>
        let E := fresh "E" in
        destruct e eqn:E; cbn [bind] in H; [|discriminate H]
    | (if ?b then _ else _) = Ok _ =>
        let E := fresh "E" in destruct b eqn:E
    | match ?x with _ => _ end = Ok _ =>
        let E := fresh "E" in destruct x eqn:E
    end.

(** The log [gameStateUpdate] has built, once it has returned. *)
Ltac logged_here :=
  try match goal with
    | E : (if ?b then bind (log_entry ?d ?t) _ else _) = Ok _ |- _ =>
        destruct b;
        [ destruct (log_entry d t); cbn [bind] in E; [|discriminate E] | ];
        injection E as <-
    end.

Ltac found :=
  repeat match goal with
    | H : find_session _ _ = Some (_, _) |- _ =>
        apply find_session_get in H; destruct H as [? H]; subst
    end.

Lemma handle_ok (sessions : JsMap.t Session.t) (socket : Socket.t)
    (c : string) (m : message) (r : reply) :
  keys_ok sessions -> JsMap.wf sessions -> socket_ok c socket ->
  handle sessions socket m = Ok r ->
  keys_ok (r_sessions r) /\ JsMap.wf (r_sessions r) /\
  socket_ok c (r_socket r).
Proof.
  intros K W S H.
  destruct m; cbn [handle] in H;
    unfold heartbeat, createSession, joinSession, joinAsGameMaster,
      joinAsPlayer, rejoinSession, rejoin_failed, characterUpdate,
      gameStateUpdate, getActiveSessions, gmNotesUpdate, messageAck, ping,
      create_session, join_session, game_message, update_player, silent in H;
    returned H; found; cbn [r_sessions r_socket];
    (split; [|split]); eauto 8 with relay.
Qed.

Lemma disconnect_ok (sessions : JsMap.t Session.t) (socket : Socket.t)
    (t : Z) (r : reply) :
  keys_ok sessions -> JsMap.wf sessions ->
  disconnect sessions socket t = Ok r ->
  keys_ok (r_sessions r) /\ JsMap.wf (r_sessions r).
Proof.
  intros K W H. unfold disconnect, silent in H.
  returned H; cbn [r_sessions]; split; eauto 6 with relay.
Qed.

Lemma boot_ok : server_ok boot.
Proof.
  constructor; simpl.
  - intros k [].
  - constructor.
  - constructor.
  - discriminate.
Qed.

Lemma step_ok (srv srv1 : server) (i : input) (out : list sent) :
  server_ok srv -> step srv i = Ok (srv1, out) -> server_ok srv1.
Proof.
  intros [K W T S] H. destruct i as [c|c m|c t|now]; cbn [step] in H.
  - destruct (JsMap.has c (srv_sockets srv)) eqn:E;
      injection H as <- <-; constructor; auto; cbn.
    + now apply JsMapFacts.wf_set.
    + intros c' k G.
      destruct (string_dec c' c) as [->|N].
      * rewrite JsMapFacts.get_set_same in G. injection G as <-.
        split; [reflexivity | discriminate].
      * rewrite JsMapFacts.get_set_other in G by assumption. now apply S.
  - destruct (JsMap.get c (srv_sockets srv)) as [socket|] eqn:G.
    + destruct (handle (srv_sessions srv) socket m) as [r|] eqn:E;
        cbn [bind] in H; [|discriminate].
      injection H as <- <-.
      destruct (handle_ok _ _ c _ _ K W (S _ _ G) E) as (K1 & W1 & S1).
      constructor; cbn; auto.
      * now apply JsMapFacts.wf_set.
      * intros c' k G'.
        destruct (string_dec c' c) as [->|N].
        -- rewrite JsMapFacts.get_set_same in G'. now injection G' as <-.
        -- rewrite JsMapFacts.get_set_other in G' by assumption. now apply S.
    + injection H as <- <-. now constructor.
  - destruct (JsMap.get c (srv_sockets srv)) as [socket|] eqn:G.
    + destruct (disconnect (srv_sessions srv) socket t) as [r|] eqn:E;
        cbn [bind] in H; [|discriminate].
      injection H as <- <-.
      destruct (disconnect_ok _ _ _ _ K W E) as (K1 & W1).
      constructor; cbn; auto.
      * now apply JsMapFacts.wf_delete.
      * intros c' k G'.
        destruct (string_dec c' c) as [->|N].
        -- rewrite JsMapFacts.get_delete_same in G' by assumption.
           discriminate.
        -- rewrite JsMapFacts.get_delete_other in G' by assumption.
           now apply S.
    + injection H as <- <-. now constructor.
  - injection H as <- <-. constructor; cbn; auto.
    + intros k I. apply K. eapply keys_sweep; eauto.
    + now apply wf_sweep.
Qed.

Lemma run_ok (tr : list input) :
  forall (srv srv1 : server) (out : list sent),
    server_ok srv -> run srv tr = Ok (srv1, out) -> server_ok srv1.
Proof.
  induction tr as [|i rest IH]; intros srv srv1 out O H; cbn [run] in H.
  - now injection H as <- <-.
  - destruct (step srv i) as [[srv2 o2]|] eqn:E; cbn [bind] in H;
      [|discriminate].
    cbn [fst snd] in H.
    destruct (run srv2 rest) as [[srv3 o3]|] eqn:R; cbn [bind] in H;
      [|discriminate].
    injection H as <- <-. cbn [fst].
    eapply IH; [|exact R]. eapply step_ok; eauto.
Qed.

(** ** Fan-out *)

Lemma recipients_room (sockets : JsMap.t Socket.t) (sender room c : string)
    (k : Socket.t) :
  JsMap.get c sockets = Some k -> Socket.id k = c ->
  in_room room k = true ->
  In c (recipients sockets sender (ToRoom room)).
Proof.
  intros G I R. cbn [recipients]. rewrite <- I.
  apply in_map. apply filter_In. split; [|exact R].
  apply JsMapFacts.get_in in G.
  change k with (snd (c, k)). now apply in_map.
Qed.

Lemma recipients_others (sockets : JsMap.t Socket.t) (sender room c : string)
    (k : Socket.t) :
  JsMap.get c sockets = Some k -> Socket.id k = c ->
  in_room room k = true -> c <> sender ->
  In c (recipients sockets sender (ToOthers room)).
Proof.
  intros G I R N. cbn [recipients]. rewrite <- I.
  apply in_map. apply filter_In. split.
  - apply JsMapFacts.get_in in G.
    change k with (snd (c, k)). now apply in_map.
  - rewrite R, I. simpl. apply negb_true_iff. now apply String.eqb_neq.
Qed.

Lemma recipients_others_exclude_sender (sockets : JsMap.t Socket.t)
    (sender room : string) :
  ~ In sender (recipients sockets sender (ToOthers room)).
Proof.
  cbn [recipients]. intros H. apply in_map_iff in H.
  destruct H as (k & I & F). apply filter_In in F. destruct F as [_ F].
  rewrite I, String.eqb_refl, andb_false_r in F. discriminate.
Qed.

(** ** Printing values *)

(** Induction on a value, its elements and the values of its
    properties. *)
Lemma value_induction (P : value -> Prop) :
  P VUndefined -> P VNull -> (forall b, P (VBool b)) ->
  (forall n, P (VNum n)) -> (forall s, P (VStr s)) ->
  (forall xs, Forall P xs -> P (VArr xs)) ->
  (forall o, Forall (fun kv => P (snd kv)) o -> P (VObj o)) ->
  forall v, P v.
Proof.
  intros Hu Hn Hb Hz Hs Ha Ho. fix IH 1. intros [| |b|n|s|xs|o].
  - exact Hu.
  - exact Hn.
  - apply Hb.
  - apply Hz.
  - apply Hs.
  - apply Ha. revert xs. fix all 1. intros [|x r].
    + constructor.
    + constructor; [apply IH | apply all].
  - apply Ho. revert o. fix all 1. intros [|kv r].
    + constructor.
    + constructor; [apply IH | apply all].
Qed.

(** Printing raises nothing but a [TypeError]. *)
Lemma to_string_raises (v : value) (e : string) :
  to_string v = Throw e -> e = "TypeError".
Proof.
  revert e. induction v using value_induction; intros e; try discriminate.
  - destruct b; discriminate.
  - cbn [to_string]. induction H as [|x r Hx Hr IH]; [discriminate|].
    destruct (nullish x).
    + cbn [bind]. destruct r as [|y r']; [discriminate|].
      destruct ((fix join (l : list value) : result string :=
                   match l with
                   | [] => Ok EmptyString
                   | x0 :: r0 =>
                       e0 <- (if nullish x0 then Ok EmptyString
                              else to_string x0) ;;
                       match r0 with
                       | [] => Ok e0
                       | _ :: _ => rest <- join r0 ;; Ok (e0 ++ "," ++ rest)
                       end
                   end) (y :: r')) eqn:J; cbn [bind]; [discriminate|].
      intros [= <-]. now apply IH.
    + destruct (to_string x) eqn:Tx; cbn [bind].
      * destruct r as [|y r']; [discriminate|].
        destruct ((fix join (l : list value) : result string :=
                     match l with
                     | [] => Ok EmptyString
                     | x0 :: r0 =>
                         e0 <- (if nullish x0 then Ok EmptyString
                                else to_string x0) ;;
                         match r0 with
                         | [] => Ok e0
                         | _ :: _ => rest <- join r0 ;; Ok (e0 ++ "," ++ rest)
                         end
                     end) (y :: r')) eqn:J; cbn [bind]; [discriminate|].
        intros [= <-]. now apply IH.
      * intros [= <-]. now apply Hx.
  - cbn [to_string]. destruct (JsMap.has "toString" o); [|discriminate].
    now intros [= <-].
Qed.

(** A tame value prints without raising, and so do the values it
    holds. *)
Lemma to_string_tame (v : value) :
  tame v = true -> exists s, to_string v = Ok s.
Proof.
  induction v using value_induction; intros T; try (eexists; reflexivity).
  - destruct b; eexists; reflexivity.
  - cbn [to_string tame] in *.
    induction H as [|x r Hx Hr IH]; [eexists; reflexivity|].
    apply andb_true_iff in T. destruct T as [Tx Tr].
    destruct (IH Tr) as [sr Er].
    assert (Ex : exists e,
               (if nullish x then Ok EmptyString else to_string x) = Ok e).
    { destruct (nullish x); [eexists; reflexivity | now apply Hx]. }
    destruct Ex as [e Ex]. rewrite Ex. cbn [bind].
    destruct r as [|y r']; [eexists; reflexivity|].
    rewrite Er. cbn [bind]. eexists; reflexivity.
  - cbn [to_string tame] in *.
    repeat (apply andb_true_iff in T; destruct T as [T ?]).
    apply negb_true_iff in T. rewrite T. eexists; reflexivity.
Qed.

Lemma tame_member (v : value) (k : string) :
  tame v = true -> tame (member v k) = true.
Proof.
  destruct v; try reflexivity. cbn [member tame]. intros T.
  apply andb_true_iff in T. destruct T as [_ T].
  induction props as [|[k' x] r IH]; [reflexivity|].
  apply andb_true_iff in T. destruct T as [Tx Tr]. cbn [JsMap.get].
  destruct (String.eqb k k'); [exact Tx | now apply IH].
Qed.

Lemma tame_opt_prop (v : value) (k : string) :
  tame v = true -> tame (opt_prop v k) = true.
Proof.
  intros T. unfold opt_prop. destruct (nullish v); [reflexivity|].
  now apply tame_member.
Qed.

Lemma log_entry_tame (data : value) (t : Z) :
  tame data = true -> exists entry, log_entry data t = Ok entry.
Proof.
  intros T. unfold log_entry.
  destruct (truthy (member data "note")); cbn [bind];
    [eexists; reflexivity|].
  destruct (to_string_tame (opt_prop (member data "roll") "total"))
    as [s ->]; [|cbn [bind]; eexists; reflexivity].
  now apply tame_opt_prop, tame_member.
Qed.

(** ** Game-state updates *)

(** C4, as the code has it.  In any state the server can reach, let a
    socket bound to a stored session send [gameStateUpdate] with a
    payload [data] that is not [undefined] or [null].

    If [data.type] is [diceRoll] or [gmNote], [data.note] is falsy and
    printing [data.roll?.total] raises, the handler raises and the run
    stops: nothing is logged and nothing is emitted.

    Otherwise the update goes through.  The sockets are as before, only
    that session changes, and in it only [lastActivity] and the log.  If
    [data.type] is [diceRoll] or [gmNote] the log gains exactly one
    entry at its end: [author] is [data.playerName] if that is truthy
    and [Sistema] otherwise, [content] is [data.note] if that is truthy
    (so not the empty string) and otherwise [Tiro dadi: ] followed by
    the text of [data.roll?.total] (stated when the numbers in it are
    safe integers; for a total that is a safe integer, its decimal
    digits), and [data] is the payload; for any other type the log is
    untouched.
    The payload itself is emitted to the whole room of the session, and
    the sender is one of the recipients, as is every socket in that
    room.  Printing raises nothing but a [TypeError]. *)
Theorem C4_gameStateUpdate_logs_and_echoes
    (tr : list input) (srv : server) (outs : list sent)
    (c sid : string) (socket : Socket.t) (session : Session.t)
    (data : value) (t1 t2 : Z) :
  run boot tr = Ok (srv, outs) ->
  JsMap.get c (srv_sockets srv) = Some socket ->
  Socket.sessionId socket = Some sid ->
  JsMap.get sid (srv_sessions srv) = Some session ->
  nullish data = false ->
  let logged :=
    is_str (member data "type") "diceRoll"
    || is_str (member data "type") "gmNote" in
  let total := opt_prop (member data "roll") "total" in
  (logged = true -> truthy (member data "note") = false ->
   to_string total = Throw "TypeError" ->
   step srv (Recv c (GameStateUpdate data t1 t2)) = Throw "TypeError")
  /\
  (forall text,
     (logged = true -> truthy (member data "note") = false ->
      to_string total = Ok text) ->
     exists srv1 log1 content,
       step srv (Recv c (GameStateUpdate data t1 t2))
       = Ok (srv1, [(c, mk_out (ToRoom sid) "gameStateUpdate" [data])])
       /\ srv_sockets srv1 = srv_sockets srv
       /\ srv_sessions srv1
          = JsMap.set sid
              (Session.mk (Session.id session) (Session.masterId session)
                 (Session.players session) log1 (Session.gameState session)
                 (Session.gmNotes session) (Session.createdAt session) t1)
              (srv_sessions srv)
       /\ (logged = true ->
           log1 =
           (Session.gameLog session ++
            [VObj [("timestamp", VNum t2);
                   ("type", member data "type");
                   ("author",
                    if truthy (member data "playerName")
                    then member data "playerName" else VStr "Sistema");
                   ("content", content);
                   ("data", data)]])%list)
       /\ (truthy (member data "note") = true ->
           content = member data "note")
       /\ (truthy (member data "note") = false -> plain total = true ->
           content = VStr ("Tiro dadi: " ++ text))
       /\ (logged = false -> log1 = Session.gameLog session)
       /\ In c (recipients (srv_sockets srv1) c (ToRoom sid))
       /\ (forall c1 k, JsMap.get c1 (srv_sockets srv1) = Some k ->
                        in_room sid k = true ->
                        In c1 (recipients (srv_sockets srv1) c (ToRoom sid))))
  /\
  (forall n, total = VNum n -> safe_integer n = true ->
             to_string total = Ok (string_of_Z n) /\ plain total = true)
  /\
  (forall e, to_string total = Throw e -> e = "TypeError").
Proof.
  intros R G B GS D logged total.
  pose proof (run_ok tr boot srv outs boot_ok R) as [K W T S].
  destruct (S c socket G) as [I Bd].
  destruct (Bd sid B) as [Key Room].
  assert (NE : String.eqb sid EmptyString = false).
  { destruct sid; [discriminate Key | reflexivity]. }
  assert (Same : JsMap.set c socket (srv_sockets srv) = srv_sockets srv)
    by now apply JsMapFacts.set_get_id.
  assert (St : step srv (Recv c (GameStateUpdate data t1 t2))
               = (gameLog <-
                    (if logged then
                       entry <- log_entry data t2 ;;
                       Ok (Session.gameLog session ++ [entry])%list
                     else Ok (Session.gameLog session)) ;;
                  Ok (mk_server
                        (JsMap.set sid
                           (Session.mk (Session.id session)
                              (Session.masterId session)
                              (Session.players session) gameLog
                              (Session.gameState session)
                              (Session.gmNotes session)
                              (Session.createdAt session) t1)
                           (srv_sessions srv))
                        (srv_sockets srv),
                      [(c, mk_out (ToRoom sid) "gameStateUpdate" [data])]))).
  { cbn [step handle]. rewrite G. unfold gameStateUpdate.
    rewrite B. cbn [set_id]. rewrite NE. cbn [negb].
    rewrite GS. unfold prop. rewrite D. cbn [bind]. fold logged.
    destruct logged; [destruct (log_entry data t2)|];
      cbn [bind r_sessions r_socket r_emitted map]; rewrite ?Same;
      reflexivity. }
  assert (Rc : In c (recipients (srv_sockets srv) c (ToRoom sid)))
    by now apply recipients_room with socket.
  assert (Ra : forall c1 k, JsMap.get c1 (srv_sockets srv) = Some k ->
                            in_room sid k = true ->
                            In c1 (recipients (srv_sockets srv) c (ToRoom sid))).
  { intros c1 k G1 R1. apply recipients_room with k; auto.
    now destruct (S c1 k G1). }
  split; [|split; [|split]].
  - intros L N E. rewrite St, L. unfold log_entry. rewrite N.
    fold total. rewrite E. reflexivity.
  - intros text H. rewrite St.
    exists (mk_server
              (JsMap.set sid
                 (Session.mk (Session.id session) (Session.masterId session)
                    (Session.players session)
                    (if logged then
                       (Session.gameLog session ++
                        [VObj [("timestamp", VNum t2);
                               ("type", member data "type");
                               ("author",
                                js_or (member data "playerName")
                                  (VStr "Sistema"));
                               ("content",
                                if truthy (member data "note")
                                then member data "note"
                                else VStr ("Tiro dadi: " ++ text));
                               ("data", data)]])%list
                     else Session.gameLog session)
                    (Session.gameState session) (Session.gmNotes session)
                    (Session.createdAt session) t1)
                 (srv_sessions srv))
              (srv_sockets srv)).
    eexists.
    exists (if truthy (member data "note") then member data "note"
            else VStr ("Tiro dadi: " ++ text)).
    cbn [srv_sockets srv_sessions].
    split; [|split; [reflexivity|split; [reflexivity|]]].
    + destruct logged eqn:L; [|reflexivity].
      unfold log_entry. fold total.
      destruct (truthy (member data "note")) eqn:N; [reflexivity|].
      now rewrite (H eq_refl eq_refl).
    + split; [intros ->; reflexivity|].
      split; [now intros ->|]. split; [now intros -> _|].
      split; [now intros ->|]. split; [exact Rc | exact Ra].
  - intros n -> Sf. split; [reflexivity | exact Sf].
  - intros e. apply to_string_raises.
Qed.

(** A dice roll of 15 is logged as [Tiro dadi: 15]. *)
Example log_entry_dice_roll :
  exists entry,
    log_entry dice_roll 2000 = Ok entry /\
    member entry "content" = VStr "Tiro dadi: 15".
Proof. eexists. split; reflexivity. Qed.

Lemma C4_witness :
  (exists srv1 log1,
     step anna_server (Recv "A" (GameStateUpdate dice_roll 2000 2001))
     = Ok (srv1, [("A", mk_out (ToRoom room1) "gameStateUpdate" [dice_roll])])
     /\ srv_sessions srv1
        = [(room1,
            Session.mk room1 (Some "A")
              [("A", sample_player "A" "Anna" true true)]
              log1 (VObj []) VUndefined 1000 2000)]
     /\ log1 = [VObj [("timestamp", VNum 2001);
                      ("type", VStr "diceRoll");
                      ("author", VStr "Sistema");
                      ("content", VStr "Tiro dadi: 15");
                      ("data", dice_roll)]]
     /\ In "A" (recipients (srv_sockets srv1) "A" (ToRoom room1)))
  /\ step anna_server (Recv "A" (GameStateUpdate odd_roll 2000 2001))
     = Throw "TypeError".
Proof.
  split.
  - destruct (C4_gameStateUpdate_logs_and_echoes
                anna_in_room anna_server anna_in_room_sent
                "A" room1 anna_socket anna_session dice_roll 2000 2001)
      as (_ & Acc & _).
    + vm_compute; reflexivity.
    + reflexivity.
    + reflexivity.
    + reflexivity.
    + reflexivity.
    + destruct (Acc "15")
        as (srv1 & log1 & content & E & _ & Ss & L & _ & Ct & _ & Rc & _).
      * intros _ _. reflexivity.
      * exists srv1, log1. split; [exact E|]. split; [exact Ss|].
        split; [|exact Rc].
        rewrite (L eq_refl), (Ct eq_refl eq_refl). reflexivity.
  - destruct (C4_gameStateUpdate_logs_and_echoes
                anna_in_room anna_server anna_in_room_sent
                "A" room1 anna_socket anna_session odd_roll 2000 2001)
      as (Raise & _).
    + vm_compute; reflexivity.
    + reflexivity.
    + reflexivity.
    + reflexivity.
    + reflexivity.
    + apply Raise; reflexivity.
Defined.

(** C4 as stated fails: a game-master note whose [note] is the empty
    string is present in the payload, yet the entry logged for it does
    not have that note as [content]. *)
Lemma C4_counterexample :
  run boot anna_in_room = Ok (anna_server, anna_in_room_sent) /\
  member empty_note "note" = VStr EmptyString /\
  exists srv1 s entry,
    step anna_server (Recv "A" (GameStateUpdate empty_note 2000 2001))
    = Ok (srv1, [("A", mk_out (ToRoom room1) "gameStateUpdate" [empty_note])])
    /\ JsMap.get room1 (srv_sessions srv1) = Some s
    /\ Session.gameLog s = [entry]
    /\ member entry "content" = VStr "Tiro dadi: undefined"
    /\ member entry "content" <> member empty_note "note".
Proof.
  split; [vm_compute; reflexivity|]. split; [reflexivity|].
  do 3 eexists. split; [reflexivity|]. split; [reflexivity|].
  split; [reflexivity|]. split; [reflexivity|]. discriminate.
Qed.

(** ** Joining as master or player does not bind the session *)

Lemma joinAsGameMaster_frame (sessions : JsMap.t Session.t)
    (socket : Socket.t) (data : value) (t1 t2 : Z) (r : reply) :
  joinAsGameMaster sessions socket data t1 t2 = Ok r ->
  Socket.id (r_socket r) = Socket.id socket /\
  Socket.sessionId (r_socket r) = Socket.sessionId socket /\
  Socket.rooms (r_socket r) = Socket.rooms socket /\
  (In "playerJoined" (map event (r_emitted r)) ->
   Socket.playerId (r_socket r) = Some (Socket.id socket) /\
   Socket.isMaster (r_socket r) = VBool true).
Proof.
  intros H. unfold joinAsGameMaster in H.
  returned H; cbn [r_socket r_emitted];
    (split; [reflexivity|split; [reflexivity|split; [reflexivity|]]]);
    intros A; cbn in A; try (split; reflexivity);
    intuition discriminate.
Qed.

Lemma joinAsPlayer_frame (sessions : JsMap.t Session.t)
    (socket : Socket.t) (data : value) (t1 t2 : Z) (r : reply) :
  joinAsPlayer sessions socket data t1 t2 = Ok r ->
  Socket.id (r_socket r) = Socket.id socket /\
  Socket.sessionId (r_socket r) = Socket.sessionId socket /\
  Socket.rooms (r_socket r) = Socket.rooms socket /\
  (In "playerJoined" (map event (r_emitted r)) ->
   Socket.playerId (r_socket r) = Some (Socket.id socket) /\
   Socket.isMaster (r_socket r) = VBool false).
Proof.
  intros H. unfold joinAsPlayer in H.
  returned H; cbn [r_socket r_emitted];
    (split; [reflexivity|split; [reflexivity|split; [reflexivity|]]]);
    intros A; cbn in A; try (split; reflexivity);
    intuition discriminate.
Qed.

Lemma step_keeps_unbound (c : string) (i : input) (srv srv1 : server)
    (out : list sent) (k : Socket.t) :
  only_joins_as c i = true ->
  step srv i = Ok (srv1, out) ->
  JsMap.get c (srv_sockets srv) = Some k ->
  exists k1, JsMap.get c (srv_sockets srv1) = Some k1 /\
             Socket.sessionId k1 = Socket.sessionId k /\
             Socket.rooms k1 = Socket.rooms k.
Proof.
  intros O H G.
  destruct i as [c'|c' m|c' t|now]; cbn [step only_joins_as] in H, O.
  - apply negb_true_iff, String.eqb_neq in O.
    destruct (JsMap.has c' (srv_sockets srv)); injection H as <- <-.
    + now exists k.
    + exists k. cbn. rewrite JsMapFacts.get_set_other by congruence. auto.
  - destruct (JsMap.get c' (srv_sockets srv)) as [socket|] eqn:G';
      [|injection H as <- <-; now exists k].
    destruct (handle (srv_sessions srv) socket m) as [r|] eqn:E;
      cbn [bind] in H; [|discriminate].
    injection H as <- <-. cbn [srv_sockets].
    destruct (string_dec c' c) as [->|N].
    + rewrite String.eqb_refl in O. cbn in O.
      rewrite G in G'. injection G' as <-.
      rewrite JsMapFacts.get_set_same. exists (r_socket r).
      split; [reflexivity|].
      destruct m; try discriminate O; cbn [handle] in E.
      * now destruct (joinAsGameMaster_frame _ _ _ _ _ _ E) as (_ & ? & ? & _).
      * now destruct (joinAsPlayer_frame _ _ _ _ _ _ E) as (_ & ? & ? & _).
    + exists k. rewrite JsMapFacts.get_set_other by congruence. auto.
  - apply negb_true_iff, String.eqb_neq in O.
    destruct (JsMap.get c' (srv_sockets srv)) as [socket|] eqn:G';
      [|injection H as <- <-; now exists k].
    destruct (disconnect (srv_sessions srv) socket t) as [r|] eqn:E;
      cbn [bind] in H; [|discriminate].
    injection H as <- <-. cbn [srv_sockets]. exists k.
    rewrite JsMapFacts.get_delete_other by congruence. auto.
  - injection H as <- <-. now exists k.
Qed.

Lemma run_keeps_unbound (c : string) (tr : list input) :
  forall (srv srv1 : server) (out : list sent) (k : Socket.t),
    forallb (only_joins_as c) tr = true ->
    run srv tr = Ok (srv1, out) ->
    JsMap.get c (srv_sockets srv) = Some k ->
    exists k1, JsMap.get c (srv_sockets srv1) = Some k1 /\
               Socket.sessionId k1 = Socket.sessionId k /\
               Socket.rooms k1 = Socket.rooms k.
Proof.
  induction tr as [|i rest IH]; intros srv srv1 out k O H G;
    cbn [run forallb] in H, O.
  - injection H as <- <-. now exists k.
  - apply andb_true_iff in O. destruct O as [O1 O2].
    destruct (step srv i) as [[srv2 o2]|] eqn:E; cbn [bind] in H;
      [|discriminate].
    cbn [fst snd] in H.
    destruct (run srv2 rest) as [[srv3 o3]|] eqn:R; cbn [bind] in H;
      [|discriminate].
    injection H as <- <-. cbn [fst].
    destruct (step_keeps_unbound c i srv srv2 o2 k O1 E G)
      as (k2 & G2 & S2 & R2).
    destruct (IH srv2 srv3 o3 k2 O2 R G2) as (k3 & G3 & S3 & R3).
    exists k3. split; [exact G3|]. split; congruence.
Qed.




(** ** Two live masters *)

(** C1 does not hold of the code.  [master_returns] uses only
    connection, [createSession], [joinSession], [joinAsGameMaster],
    [rejoinSession] and disconnection; the server runs it to the end,
    no join is refused, and afterwards [room1] holds two players, Anna
    and Bruno, both with [isMaster = true] and [online = true]:
    [joinAsGameMaster] let Bruno take the slot of the offline master
    without clearing her [isMaster], and [rejoinSession] then marked her
    online again without looking at [masterId]. *)
Theorem C1_rejoin_brings_back_a_second_live_master :
  forallb presence_op master_returns = true /\
  run boot master_returns = Ok (two_masters_server, master_returns_sent) /\
  (forall c o, In (c, o) master_returns_sent -> event o <> "sessionError") /\
  JsMap.get room1 (srv_sessions two_masters_server)
  = Some two_masters_session /\
  Session.players two_masters_session
  = [("A", sample_player "A" "Anna" true true);
     ("B", sample_player "B" "Bruno" true true)] /\
  live_masters two_masters_session = ["A"; "B"] /\
  (forall p, In p (JsMap.values (Session.players two_masters_session)) ->
             field p "isMaster" = VBool true /\
             field p "online" = VBool true).
Proof.
  split; [vm_compute; reflexivity|].
  split; [vm_compute; reflexivity|].
  split; [|split; [|split; [|split]]].
  - assert (F : forallb
                  (fun co => negb (String.eqb (event (snd co)) "sessionError"))
                  master_returns_sent = true)
      by (vm_compute; reflexivity).
    rewrite forallb_forall in F. intros c o I E.
    specialize (F (c, o) I). cbn [snd] in F. rewrite E in F.
    discriminate F.
  - vm_compute; reflexivity.
  - reflexivity.
  - vm_compute; reflexivity.
  - intros p [<-|[<-|[]]]; split; vm_compute; reflexivity.
Qed.

(** ** The master slot when nobody rejoins *)

Lemma slot_same (s s1 : Session.t) :
  Session.players s1 = Session.players s ->
  Session.masterId s1 = Session.masterId s ->
  master_slot_ok s -> master_slot_ok s1.
Proof. unfold master_slot_ok. intros -> ->. auto. Qed.

(** Storing a player who, if a live master, is the one in the slot. *)
Lemma slot_update (s s1 : Session.t) (c : string) (p : object) :
  Session.players s1 = JsMap.set c p (Session.players s) ->
  Session.masterId s1 = Session.masterId s ->
  (is_master p = true -> is_online p = true -> Session.masterId s = Some c) ->
  master_slot_ok s -> master_slot_ok s1.
Proof.
  unfold master_slot_ok. intros -> -> L (W & N & I).
  split; [now apply JsMapFacts.wf_set|]. split; [exact N|].
  intros pid q G M O. destruct (string_dec pid c) as [->|D].
  - rewrite JsMapFacts.get_set_same in G. injection G as <-. auto.
  - rewrite JsMapFacts.get_set_other in G by assumption. eauto.
Qed.

(** Taking the slot when the guard of [joinAsGameMaster] lets through. *)
Lemma slot_claim (s s1 : Session.t) (c : string) (p : object) :
  Session.players s1 = JsMap.set c p (Session.players s) ->
  Session.masterId s1 = Some c ->
  c <> EmptyString ->
  truthy (liveMaster s) = false ->
  master_slot_ok s -> master_slot_ok s1.
Proof.
  unfold master_slot_ok. intros -> -> C L (W & N & I).
  split; [now apply JsMapFacts.wf_set|]. split; [now intros m [= <-]|].
  intros pid q G M O. destruct (string_dec pid c) as [->|D]; [reflexivity|].
  rewrite JsMapFacts.get_set_other in G by assumption.
  pose proof (I pid q G M O) as Slot. exfalso.
  unfold liveMaster in L. rewrite Slot in L.
  pose proof (N pid Slot) as Ne. apply String.eqb_neq in Ne.
  rewrite Ne, G in L. unfold is_online in O. congruence.
Qed.

Lemma slot_empty (s : Session.t) :
  Session.players s = [] -> Session.masterId s = None -> master_slot_ok s.
Proof.
  unfold master_slot_ok. intros -> ->. split; [constructor|].
  split; discriminate.
Qed.

Lemma slots_ok_set (sid : string) (s : Session.t)
    (sessions : JsMap.t Session.t) :
  master_slot_ok s -> slots_ok sessions -> slots_ok (JsMap.set sid s sessions).
Proof.
  intros S H k x G. destruct (string_dec k sid) as [->|D].
  - rewrite JsMapFacts.get_set_same in G. now injection G as <-.
  - rewrite JsMapFacts.get_set_other in G by assumption. eauto.
Qed.

Lemma field_set_other (o : object) (k k' : string) (v : value) :
  k <> k' -> field (JsMap.set k' v o) k = field o k.
Proof.
  intros N. unfold field, member. now rewrite JsMapFacts.get_set_other.
Qed.

Lemma new_player_flags (socket : Socket.t) (playerData : value)
    (master : bool) (t : Z) (p : object) :
  new_player socket playerData master t = Ok p ->
  is_master p = master /\ is_online p = true.
Proof.
  unfold new_player. intros H. returned H. split; reflexivity.
Qed.

(** The stored session at hand satisfies what all stored sessions do. *)
Ltac slot_here :=
  match goal with
  | S : slots_ok ?sessions, G : JsMap.get ?sid ?sessions = Some ?s |- _ =>
      pose proof (S sid s G)
  end.

Lemma handle_keeps_slot (sessions : JsMap.t Session.t) (socket : Socket.t)
    (c : string) (m : message) (r : reply) :
  slots_ok sessions -> Socket.id socket <> EmptyString ->
  keeps_slot (Recv c m) = true ->
  handle sessions socket m = Ok r ->
  slots_ok (r_sessions r).
Proof.
  intros S N A H.
  destruct m; try discriminate A; cbn [handle] in H.
  - (* heartbeat *)
    unfold heartbeat in H. now injection H as <-.
  - (* createSession *)
    unfold createSession in H. injection H as <-. cbn [r_sessions].
    apply slots_ok_set; [|exact S]. now apply slot_empty.
  - (* joinSession *)
    unfold joinSession in H. returned H; found; cbn [r_sessions]; auto.
    slot_here. apply slots_ok_set; [|exact S].
    eapply slot_same; [| |eassumption]; reflexivity.
  - (* joinAsGameMaster *)
    unfold joinAsGameMaster in H. returned H; found; cbn [r_sessions]; auto.
    slot_here. apply slots_ok_set; [|exact S].
    eapply slot_claim; [| | | |eassumption]; try reflexivity; assumption.
  - (* joinAsPlayer *)
    unfold joinAsPlayer in H. returned H; found; cbn [r_sessions]; auto.
    slot_here. apply slots_ok_set; [|exact S].
    eapply slot_update; [| | |eassumption]; try reflexivity.
    match goal with
    | E : new_player _ _ _ _ = Ok _ |- _ =>
        destruct (new_player_flags _ _ _ _ _ E) as [M _]
    end.
    rewrite M. discriminate.
  - (* characterUpdate *)
    unfold characterUpdate, silent in H.
    returned H; cbn [r_sessions]; auto.
    slot_here.
    apply slots_ok_set; [|exact S].
    eapply slot_update; [| | |eassumption]; try reflexivity.
    match goal with
    | X : master_slot_ok _ |- _ => destruct X as (_ & _ & I)
    end.
    intros M O. eapply I; [eassumption| |].
    + match type of M with
      | context [if truthy ?v then _ else _] => destruct (truthy v)
      end; auto.
      unfold is_master in *. now rewrite field_set_other in M by discriminate.
    + match type of O with
      | context [if truthy ?v then _ else _] => destruct (truthy v)
      end; auto.
      unfold is_online in *. now rewrite field_set_other in O by discriminate.
  - (* gameStateUpdate *)
    unfold gameStateUpdate, silent in H.
    returned H; cbn [r_sessions]; auto;
      slot_here;
      (apply slots_ok_set; [|exact S]);
      (eapply slot_same; [| |eassumption]); reflexivity.
  - (* getActiveSessions *)
    unfold getActiveSessions in H. now injection H as <-.
  - (* gmNotesUpdate *)
    unfold gmNotesUpdate, silent in H.
    returned H; cbn [r_sessions]; auto.
    slot_here.
    apply slots_ok_set; [|exact S].
    eapply slot_same; [| |eassumption]; reflexivity.
  - (* messageAck *)
    unfold messageAck, silent in H. returned H; auto.
  - (* ping *)
    unfold ping in H. now injection H as <-.
  - (* create_session *)
    unfold create_session in H. injection H as <-. cbn [r_sessions].
    apply slots_ok_set; [|exact S]. now apply slot_empty.
  - (* game_message *)
    unfold game_message, silent in H.
    returned H; cbn [r_sessions]; auto.
    slot_here.
    apply slots_ok_set; [|exact S].
    eapply slot_same; [| |eassumption]; reflexivity.
Qed.

Lemma disconnect_keeps_slot (sessions : JsMap.t Session.t)
    (socket : Socket.t) (t : Z) (r : reply) :
  slots_ok sessions ->
  disconnect sessions socket t = Ok r ->
  slots_ok (r_sessions r).
Proof.
  intros S H. unfold disconnect, silent in H.
  returned H; cbn [r_sessions]; auto.
  slot_here.
  apply slots_ok_set; [|exact S].
  eapply slot_update; [| | |eassumption]; try reflexivity.
  intros _ O. unfold is_online, field, member in O.
  rewrite JsMapFacts.get_set_same in O. discriminate O.
Qed.

Lemma step_keeps_slot (srv srv1 : server) (i : input) (out : list sent) :
  keeps_slot i = true ->
  step srv i = Ok (srv1, out) ->
  server_ok srv ->
  slots_ok (srv_sessions srv) ->
  (forall c k, JsMap.get c (srv_sockets srv) = Some k -> c <> EmptyString) ->
  slots_ok (srv_sessions srv1) /\
  (forall c k, JsMap.get c (srv_sockets srv1) = Some k -> c <> EmptyString).
Proof.
  intros A H [K W T S] L N.
  destruct i as [c|c m|c t|now]; cbn [step] in H.
  - cbn in A. apply negb_true_iff, String.eqb_neq in A.
    destruct (JsMap.has c (srv_sockets srv)); injection H as <- <-;
      cbn [srv_sessions srv_sockets]; split; auto.
    intros c' k G. destruct (string_dec c' c) as [->|D]; [exact A|].
    rewrite JsMapFacts.get_set_other in G by assumption. eauto.
  - destruct (JsMap.get c (srv_sockets srv)) as [socket|] eqn:G;
      [|injection H as <- <-; auto].
    destruct (handle (srv_sessions srv) socket m) as [r|] eqn:E;
      cbn [bind] in H; [|discriminate].
    injection H as <- <-. cbn [srv_sessions srv_sockets]. split.
    + apply (handle_keeps_slot _ socket c m r L); auto.
      destruct (S c socket G) as [-> _]. eauto.
    + intros c' k G'. destruct (string_dec c' c) as [->|D]; [eauto|].
      rewrite JsMapFacts.get_set_other in G' by assumption. eauto.
  - destruct (JsMap.get c (srv_sockets srv)) as [socket|] eqn:G;
      [|injection H as <- <-; auto].
    destruct (disconnect (srv_sessions srv) socket t) as [r|] eqn:E;
      cbn [bind] in H; [|discriminate].
    injection H as <- <-. cbn [srv_sessions srv_sockets]. split.
    + now apply (disconnect_keeps_slot _ socket t r L).
    + intros c' k G'. destruct (string_dec c' c) as [->|D]; [eauto|].
      rewrite JsMapFacts.get_delete_other in G' by assumption. eauto.
  - injection H as <- <-. cbn [srv_sessions srv_sockets]. split; auto.
    intros sid s G. rewrite get_sweep in G by assumption.
    destruct (JsMap.get sid (srv_sessions srv)) as [s0|] eqn:G0;
      [|discriminate].
    destruct (inactive now s0); [discriminate|].
    injection G as <-. eauto.
Qed.

Lemma run_keeps_slot (tr : list input) :
  forall (srv srv1 : server) (out : list sent),
    forallb keeps_slot tr = true ->
    run srv tr = Ok (srv1, out) ->
    server_ok srv ->
    slots_ok (srv_sessions srv) ->
    (forall c k, JsMap.get c (srv_sockets srv) = Some k -> c <> EmptyString) ->
    slots_ok (srv_sessions srv1).
Proof.
  induction tr as [|i rest IH]; intros srv srv1 out A H O L N;
    cbn [run forallb] in H, A.
  - now injection H as <- <-.
  - apply andb_true_iff in A. destruct A as [A1 A2].
    destruct (step srv i) as [[srv2 o2]|] eqn:E; cbn [bind] in H;
      [|discriminate].
    cbn [fst snd] in H.
    destruct (run srv2 rest) as [[srv3 o3]|] eqn:R; cbn [bind] in H;
      [|discriminate].
    injection H as <- <-. cbn [fst].
    destruct (step_keeps_slot srv srv2 i o2 A1 E O L N) as [L2 N2].
    eapply IH; eauto. eapply step_ok; eauto.
Qed.

Lemma keys_filter_nodup (A : Type) (f : string * A -> bool)
    (l : list (string * A)) :
  NoDup (map fst l) -> NoDup (map fst (filter f l)).
Proof.
  induction l as [|[k v] r IH]; simpl; auto.
  intros W. apply NoDup_cons_iff in W. destruct W as [W1 W2].
  destruct (f (k, v)); simpl; auto.
  constructor; auto. intros I. apply W1.
  apply in_map_iff in I. destruct I as (x & <- & I).
  apply filter_In in I. apply in_map. tauto.
Qed.

Lemma nodup_all_equal (A : Type) (l : list A) :
  NoDup l -> (forall x y, In x l -> In y l -> x = y) -> (length l <= 1)%nat.
Proof.
  intros W E. destruct l as [|a [|b r]]; simpl; auto.
  exfalso. apply NoDup_cons_iff in W. destruct W as [W _]. apply W.
  rewrite (E a b); simpl; auto.
Qed.

Lemma slot_single (s : Session.t) :
  master_slot_ok s -> (length (live_masters s) <= 1)%nat.
Proof.
  intros (W & _ & I). unfold live_masters, JsMap.keys.
  apply nodup_all_equal.
  - now apply keys_filter_nodup.
  - assert (Slot : forall x,
               In x (map fst
                       (filter
                          (fun kv => is_master (snd kv) && is_online (snd kv))
                          (Session.players s))) ->
               Session.masterId s = Some x).
    { intros x Hx. apply in_map_iff in Hx. destruct Hx as ([k p] & <- & F).
      apply filter_In in F. destruct F as [F L]. cbn [fst snd] in *.
      apply andb_true_iff in L. destruct L as [M O].
      apply (I k p); auto. now apply JsMapFacts.in_get. }
    intros x y Hx Hy. apply Slot in Hx, Hy. congruence.
Qed.

(** What the guard of [joinAsGameMaster] does achieve: as long as no
    connection sends [rejoinSession] (nor the legacy [join_session] and
    [update_player]), every stored session has at most one player that is
    both master and online, whatever else the connections send and
    whenever they come and go. *)
Theorem single_live_master_unless_rejoined
    (tr : list input) (srv : server) (out : list sent)
    (sid : string) (s : Session.t) :
  forallb keeps_slot tr = true ->
  run boot tr = Ok (srv, out) ->
  JsMap.get sid (srv_sessions srv) = Some s ->
  (length (live_masters s) <= 1)%nat.
Proof.
  intros A R G. apply slot_single.
  apply (run_keeps_slot tr boot srv out A R boot_ok) with sid; auto.
  - intros k x. discriminate.
  - intros c k. discriminate.
Qed.

Example single_live_master_anna :
  (length (live_masters anna_session) <= 1)%nat.
Proof.
  apply (single_live_master_unless_rejoined
           anna_in_room anna_server anna_in_room_sent room1 anna_session);
    vm_compute; reflexivity.
Qed.

(** * Further properties of the handlers *)

(** ** The cleanup pass keeps the order of the sessions it spares *)

Lemma delete_past (k : string) (s : Session.t)
    (done rest : JsMap.t Session.t) :
  ~ In k (JsMap.keys done) ->
  JsMap.delete k (done ++ (k, s) :: rest)%list = (done ++ rest)%list.
Proof.
  induction done as [|[k' s'] d IH]; simpl; intros N.
  - now rewrite String.eqb_refl.
  - destruct (String.eqb k k') eqn:E.
    + apply String.eqb_eq in E. subst. tauto.
    + rewrite IH; tauto.
Qed.

Lemma sweep_from (now : Z) (rest : JsMap.t Session.t) :
  forall done : JsMap.t Session.t,
    JsMap.wf (done ++ rest)%list ->
    fold_left
      (fun acc kv =>
         if inactive now (snd kv) then JsMap.delete (fst kv) acc else acc)
      rest (done ++ rest)%list
    = (done ++ filter (kept now) rest)%list.
Proof.
  induction rest as [|[k s] r IH]; intros done W; simpl.
  - reflexivity.
  - unfold kept at 1. simpl. destruct (inactive now s) eqn:I; simpl.
    + rewrite delete_past.
      * apply IH. unfold JsMap.wf, JsMap.keys in *.
        rewrite map_app in *. simpl in W.
        now apply NoDup_remove_1 in W.
      * unfold JsMap.wf, JsMap.keys in W. rewrite map_app in W. simpl in W.
        apply NoDup_remove_2 in W. intros H. apply W.
        apply in_or_app. now left.
    + change (done ++ (k, s) :: r)%list with (done ++ [(k, s)] ++ r)%list.
      rewrite app_assoc. rewrite IH.
      * now rewrite <- app_assoc.
      * now rewrite <- app_assoc.
Qed.

(** X1.  On a map with distinct keys one cleanup pass is a filter: the
    sessions that are not inactive stay, each as it was and in the order
    they had. *)
Theorem sweep_is_filter (now : Z) (sessions : JsMap.t Session.t) :
  JsMap.wf sessions ->
  sweep now sessions = filter (kept now) sessions.
Proof. intros W. exact (sweep_from now sessions [] W). Qed.

Lemma sweep_is_filter_witness :
  sweep 3602001
    [("rinascimento-zzz", live_session); (room1, idle_session);
     ("rinascimento-aaa", anna_session)]
  = [("rinascimento-zzz", live_session); ("rinascimento-aaa", anna_session)].
Proof.
  rewrite sweep_is_filter.
  - reflexivity.
  - repeat constructor; simpl; intuition discriminate.
Defined.

Lemma filter_twice (A : Type) (f : A -> bool) (l : list A) :
  filter f (filter f l) = filter f l.
Proof.
  induction l as [|x r IH]; simpl; auto.
  destruct (f x) eqn:E; simpl; rewrite ?E, IH; reflexivity.
Qed.

(** X2.  A second cleanup pass at the same instant removes nothing
    more. *)
Theorem sweep_twice (now : Z) (sessions : JsMap.t Session.t) :
  JsMap.wf sessions ->
  sweep now (sweep now sessions) = sweep now sessions.
Proof.
  intros W.
  pose proof (sweep_from now (sweep now sessions) [] (wf_sweep now _ W)) as E.
  cbn [app] in E. fold (sweep now (sweep now sessions)) in E. rewrite E.
  pose proof (sweep_from now sessions [] W) as F.
  cbn [app] in F. fold (sweep now sessions) in F. rewrite F.
  apply filter_twice.
Qed.

Lemma sweep_twice_witness :
  sweep 3602001 (sweep 3602001 [(room1, idle_session)])
  = sweep 3602001 [(room1, idle_session)].
Proof.
  apply sweep_twice. repeat constructor. simpl. tauto.
Defined.

(** ** A session nobody joins *)

(** X3.  A session created and never joined is gone after the first
    cleanup pass that runs more than an hour after its creation, and is
    still there, untouched, after any earlier pass. *)
Theorem unjoined_session_expires
    (srv : server) (c : string) (socket : Socket.t) (data : value)
    (rnd : string) (t1 t2 now : Z) :
  server_ok srv ->
  JsMap.get c (srv_sockets srv) = Some socket ->
  exists srv2 out,
    run srv [Recv c (CreateSession data rnd t1 t2); Sweep now]
    = Ok (srv2, out)
    /\ JsMap.get (new_session_id rnd) (srv_sessions srv2)
       = if now - t2 >? oneHour then None
         else Some (blank_session (new_session_id rnd) t1 t2).
Proof.
  intros [K W T S] G. cbn [run step handle]. rewrite G.
  unfold createSession. cbn [bind fst snd r_sessions r_socket r_emitted
                              srv_sessions srv_sockets].
  do 2 eexists. split; [reflexivity|]. cbn [srv_sessions].
  rewrite get_sweep by now apply JsMapFacts.wf_set.
  rewrite JsMapFacts.get_set_same. unfold inactive. cbn.
  now destruct (now - t2 >? oneHour).
Qed.

Lemma unjoined_session_expires_witness :
  exists srv2 out,
    run anna_server
      [Recv "A" (CreateSession VUndefined "0.k3x9qa" 5000 5000);
       Sweep 3605001]
    = Ok (srv2, out)
    /\ JsMap.get "rinascimento-k3x9qa" (srv_sessions srv2) = None.
Proof.
  destruct (unjoined_session_expires anna_server "A" anna_socket VUndefined
              "0.k3x9qa" 5000 5000 3605001)
    as (srv2 & out & R & G).
  - apply (run_ok anna_in_room boot anna_server anna_in_room_sent boot_ok).
    vm_compute; reflexivity.
  - reflexivity.
  - exists srv2, out. split; [exact R | exact G].
Defined.

(** ** What every stored session satisfies *)

Lemma has_set_same (V : Type) (k : string) (v : V) (m : JsMap.t V) :
  JsMap.has k (JsMap.set k v m) = true.
Proof. unfold JsMap.has. now rewrite JsMapFacts.get_set_same. Qed.

Lemma has_set_kept (V : Type) (k c : string) (v : V) (m : JsMap.t V) :
  JsMap.has k m = true -> JsMap.has k (JsMap.set c v m) = true.
Proof.
  intros H. destruct (string_dec k c) as [->|N].
  - apply has_set_same.
  - unfold JsMap.has in *. now rewrite JsMapFacts.get_set_other.
Qed.

Lemma ok_same (k : string) (s s1 : Session.t) :
  Session.id s1 = Session.id s ->
  Session.players s1 = Session.players s ->
  Session.masterId s1 = Session.masterId s ->
  session_ok k s -> session_ok k s1.
Proof. unfold session_ok. intros -> -> ->. auto. Qed.

Lemma ok_player (k : string) (s s1 : Session.t) (c : string) (p : object) :
  Session.id s1 = Session.id s ->
  Session.players s1 = JsMap.set c p (Session.players s) ->
  Session.masterId s1 = Session.masterId s ->
  session_ok k s -> session_ok k s1.
Proof.
  unfold session_ok. intros -> -> -> (I & W & M).
  split; [exact I|]. split; [now apply JsMapFacts.wf_set|].
  intros m E. apply has_set_kept. auto.
Qed.

Lemma ok_claim (k : string) (s s1 : Session.t) (c : string) (p : object) :
  Session.id s1 = Session.id s ->
  Session.players s1 = JsMap.set c p (Session.players s) ->
  Session.masterId s1 = Some c ->
  session_ok k s -> session_ok k s1.
Proof.
  unfold session_ok. intros -> -> -> (I & W & M).
  split; [exact I|]. split; [now apply JsMapFacts.wf_set|].
  intros m [= <-]. apply has_set_same.
Qed.

Lemma ok_blank (k : string) (log : list value) (gs gn : value) (t1 t2 : Z) :
  session_ok k (Session.mk k None JsMap.empty log gs gn t1 t2).
Proof.
  split; [reflexivity|]. split; [constructor | discriminate].
Qed.

Lemma registry_set (k : string) (s : Session.t)
    (sessions : JsMap.t Session.t) :
  session_ok k s -> registry_ok sessions ->
  registry_ok (JsMap.set k s sessions).
Proof.
  intros S H k' x G. destruct (string_dec k' k) as [->|D].
  - rewrite JsMapFacts.get_set_same in G. now injection G as <-.
  - rewrite JsMapFacts.get_set_other in G by assumption. eauto.
Qed.

(** The stored session at hand is as every stored session is. *)
Ltac registered :=
  match goal with
  | S : registry_ok ?sessions, G : JsMap.get ?sid ?sessions = Some ?s |- _ =>
      pose proof (S sid s G)
  end.

Ltac split_branches :=
  repeat match goal with
    | |- context [if ?b then _ else _] => destruct b
    end.

Ltac keep_registry :=
  cbn [r_sessions]; try assumption;
  (apply registry_set; [|assumption]);
  first [ apply ok_blank
        | registered; split_branches;
          first [ eapply ok_same; [| | |eassumption]; reflexivity
                | eapply ok_claim; [| | |eassumption]; reflexivity
                | eapply ok_player; [| | |eassumption]; reflexivity ] ].

Lemma handle_registry (sessions : JsMap.t Session.t) (socket : Socket.t)
    (m : message) (r : reply) :
  registry_ok sessions ->
  handle sessions socket m = Ok r ->
  registry_ok (r_sessions r).
Proof.
  intros S H.
  destruct m; cbn [handle] in H;
    unfold heartbeat, createSession, joinSession, joinAsGameMaster,
      joinAsPlayer, rejoinSession, rejoin_failed, characterUpdate,
      gameStateUpdate, getActiveSessions, gmNotesUpdate, messageAck, ping,
      create_session, join_session, game_message, update_player, silent in H;
    returned H; found; keep_registry.
Qed.

Lemma disconnect_registry (sessions : JsMap.t Session.t) (socket : Socket.t)
    (t : Z) (r : reply) :
  registry_ok sessions ->
  disconnect sessions socket t = Ok r ->
  registry_ok (r_sessions r).
Proof.
  intros S H. unfold disconnect, silent in H. returned H; keep_registry.
Qed.

Lemma step_registry (srv srv1 : server) (i : input) (out : list sent) :
  server_ok srv -> registry_ok (srv_sessions srv) ->
  step srv i = Ok (srv1, out) ->
  registry_ok (srv_sessions srv1).
Proof.
  intros [K W T S] R H. destruct i as [c|c m|c t|now]; cbn [step] in H.
  - destruct (JsMap.has c (srv_sockets srv)); now injection H as <- <-.
  - destruct (JsMap.get c (srv_sockets srv)) as [socket|];
      [|now injection H as <- <-].
    destruct (handle (srv_sessions srv) socket m) as [r|] eqn:E;
      cbn [bind] in H; [|discriminate].
    injection H as <- <-. cbn [srv_sessions].
    now apply (handle_registry _ socket m r R).
  - destruct (JsMap.get c (srv_sockets srv)) as [socket|];
      [|now injection H as <- <-].
    destruct (disconnect (srv_sessions srv) socket t) as [r|] eqn:E;
      cbn [bind] in H; [|discriminate].
    injection H as <- <-. cbn [srv_sessions].
    now apply (disconnect_registry _ socket t r R).
  - injection H as <- <-. cbn [srv_sessions].
    intros k s G. rewrite get_sweep in G by assumption.
    destruct (JsMap.get k (srv_sessions srv)) as [s0|] eqn:G0;
      [|discriminate].
    destruct (inactive now s0); [discriminate|].
    injection G as <-. eauto.
Qed.

Lemma run_registry (tr : list input) :
  forall (srv srv1 : server) (out : list sent),
    server_ok srv -> registry_ok (srv_sessions srv) ->
    run srv tr = Ok (srv1, out) ->
    registry_ok (srv_sessions srv1).
Proof.
  induction tr as [|i rest IH]; intros srv srv1 out O R H; cbn [run] in H.
  - now injection H as <- <-.
  - destruct (step srv i) as [[srv2 o2]|] eqn:E; cbn [bind] in H;
      [|discriminate].
    cbn [fst snd] in H.
    destruct (run srv2 rest) as [[srv3 o3]|] eqn:X; cbn [bind] in H;
      [|discriminate].
    injection H as <- <-. cbn [fst].
    eapply IH; [| |exact X].
    + eapply step_ok; eauto.
    + eapply step_registry; eauto.
Qed.

(** X4.  Whatever the server has been through since start-up, each
    stored session carries the id it is filed under, that id begins with
    [rinascimento-], its players have distinct ids, and its [masterId],
    when set, is the id of a player the session still holds: the master
    reference never dangles. *)
Theorem stored_sessions_are_consistent
    (tr : list input) (srv : server) (out : list sent)
    (k : string) (s : Session.t) :
  run boot tr = Ok (srv, out) ->
  JsMap.get k (srv_sessions srv) = Some s ->
  Session.id s = k /\
  prefix "rinascimento-" k = true /\
  NoDup (JsMap.keys (Session.players s)) /\
  (forall m, Session.masterId s = Some m ->
             exists p, JsMap.get m (Session.players s) = Some p).
Proof.
  intros R G.
  pose proof (run_ok tr boot srv out boot_ok R) as [K _ _ _].
  assert (Reg : registry_ok (srv_sessions srv)).
  { apply (run_registry tr boot srv out boot_ok); [|exact R].
    intros k' s'. discriminate. }
  destruct (Reg k s G) as (I & W & M).
  split; [exact I|]. split.
  - apply K. eapply JsMapFacts.get_in_keys; eauto.
  - split; [exact W|]. intros m E. specialize (M m E).
    unfold JsMap.has in M.
    destruct (JsMap.get m (Session.players s)) as [p|]; [|discriminate].
    now exists p.
Qed.

Lemma stored_sessions_are_consistent_witness :
  Session.id two_masters_session = room1 /\
  prefix "rinascimento-" room1 = true /\
  NoDup (JsMap.keys (Session.players two_masters_session)) /\
  (forall m, Session.masterId two_masters_session = Some m ->
             exists p,
               JsMap.get m (Session.players two_masters_session) = Some p).
Proof.
  apply (stored_sessions_are_consistent
           master_returns two_masters_server master_returns_sent
           room1 two_masters_session).
  - vm_compute; reflexivity.
  - reflexivity.
Defined.

(** X5.  Whatever the server has been through since start-up, each
    connected socket is filed under its own id, and a socket whose
    [sessionId] is set has joined the room of that session, so that an
    event sent to the whole room reaches it. *)
Theorem bound_sockets_are_in_their_room
    (tr : list input) (srv : server) (out : list sent)
    (c : string) (k : Socket.t) :
  run boot tr = Ok (srv, out) ->
  JsMap.get c (srv_sockets srv) = Some k ->
  Socket.id k = c /\
  NoDup (JsMap.keys (srv_sockets srv)) /\
  (forall sid, Socket.sessionId k = Some sid ->
               prefix "rinascimento-" sid = true /\
               In sid (Socket.rooms k) /\
               forall sender,
                 In c (recipients (srv_sockets srv) sender (ToRoom sid))).
Proof.
  intros R G.
  pose proof (run_ok tr boot srv out boot_ok R) as [_ _ T S].
  destruct (S c k G) as [I B]. split; [exact I|]. split; [exact T|].
  intros sid E. destruct (B sid E) as [P M]. split; [exact P|]. split.
  - unfold in_room in M. apply existsb_exists in M.
    destruct M as (x & Hx & Ex). apply String.eqb_eq in Ex. now subst.
  - intros sender. now apply recipients_room with k.
Qed.

Lemma bound_sockets_are_in_their_room_witness :
  Socket.id anna_socket = "A" /\
  NoDup (JsMap.keys (srv_sockets anna_server)) /\
  (forall sid, Socket.sessionId anna_socket = Some sid ->
               prefix "rinascimento-" sid = true /\
               In sid (Socket.rooms anna_socket) /\
               forall sender,
                 In "A" (recipients (srv_sockets anna_server) sender
                           (ToRoom sid))).
Proof.
  apply (bound_sockets_are_in_their_room
           anna_in_room anna_server anna_in_room_sent "A" anna_socket).
  - vm_compute; reflexivity.
  - reflexivity.
Defined.

(** ** Sessions only grow *)

Lemma continues_refl (s : Session.t) : continues s s.
Proof.
  repeat split; auto. exists []. now rewrite app_nil_r.
Qed.

Lemma continues_trans (s s1 s2 : Session.t) :
  continues s s1 -> continues s1 s2 -> continues s s2.
Proof.
  intros (I1 & C1 & (m1 & L1) & P1) (I2 & C2 & (m2 & L2) & P2).
  split; [congruence|]. split; [congruence|]. split; [|auto].
  exists (m1 ++ m2)%list. rewrite L2, L1. now rewrite app_assoc.
Qed.

Lemma continues_intro (s s1 : Session.t) :
  Session.id s1 = Session.id s ->
  Session.createdAt s1 = Session.createdAt s ->
  (exists more, Session.gameLog s1 = (Session.gameLog s ++ more)%list) ->
  (Session.players s1 = Session.players s \/
   exists c p, Session.players s1 = JsMap.set c p (Session.players s)) ->
  continues s s1.
Proof.
  intros I C L P. split; [exact I|]. split; [exact C|]. split; [exact L|].
  intros pid H. destruct P as [->|(c & p & ->)]; auto.
  now apply has_set_kept.
Qed.

(** The session looked up twice is one session. *)
Ltac same_session :=
  match goal with
  | G : JsMap.get ?k ?m = Some ?s, E : JsMap.get ?k ?m = Some ?t |- _ =>
      rewrite G in E; injection E as <-
  end.

Ltac continued :=
  split_branches;
  (apply continues_intro; cbn;
   [ reflexivity
   | reflexivity
   | first [ exists []; now rewrite app_nil_r | eexists; reflexivity ]
   | first [ left; reflexivity | right; do 2 eexists; reflexivity ] ]).

Ltac keep_session sid G :=
  cbn [r_sessions];
  first
    [ eexists; split; [exact G | apply continues_refl]
    | match goal with
      | |- context [JsMap.get sid (JsMap.set ?k ?v _)] =>
          destruct (string_dec sid k) as [->|?];
          [ rewrite JsMapFacts.get_set_same; eexists;
            split; [reflexivity|]; try same_session; continued
          | rewrite JsMapFacts.get_set_other by assumption;
            eexists; split; [exact G | apply continues_refl] ]
      end ].

Lemma handle_continues (sessions : JsMap.t Session.t) (socket : Socket.t)
    (m : message) (r : reply) (sid : string) (s : Session.t) :
  handle sessions socket m = Ok r ->
  JsMap.get sid sessions = Some s ->
  creates m <> Some sid ->
  exists s1, JsMap.get sid (r_sessions r) = Some s1 /\ continues s s1.
Proof.
  intros H G N.
  destruct m; cbn [handle creates] in H, N;
    unfold heartbeat, createSession, joinSession, joinAsGameMaster,
      joinAsPlayer, rejoinSession, rejoin_failed, characterUpdate,
      gameStateUpdate, getActiveSessions, gmNotesUpdate, messageAck, ping,
      create_session, join_session, game_message, update_player, silent in H;
    returned H; found; logged_here;
    try (cbn [r_sessions];
         rewrite JsMapFacts.get_set_other by congruence;
         eexists; split; [exact G | apply continues_refl]; fail);
    keep_session sid G.
Qed.

Lemma handle_absent (sessions : JsMap.t Session.t) (socket : Socket.t)
    (m : message) (r : reply) (sid : string) :
  handle sessions socket m = Ok r ->
  JsMap.get sid sessions = None ->
  creates m <> Some sid ->
  JsMap.get sid (r_sessions r) = None.
Proof.
  intros H G N.
  destruct m; cbn [handle creates] in H, N;
    unfold heartbeat, createSession, joinSession, joinAsGameMaster,
      joinAsPlayer, rejoinSession, rejoin_failed, characterUpdate,
      gameStateUpdate, getActiveSessions, gmNotesUpdate, messageAck, ping,
      create_session, join_session, game_message, update_player, silent in H;
    returned H; found; cbn [r_sessions]; try assumption;
    rewrite JsMapFacts.get_set_other by congruence; assumption.
Qed.

Lemma disconnect_continues (sessions : JsMap.t Session.t)
    (socket : Socket.t) (t : Z) (r : reply) (sid : string) (s : Session.t) :
  disconnect sessions socket t = Ok r ->
  JsMap.get sid sessions = Some s ->
  exists s1, JsMap.get sid (r_sessions r) = Some s1 /\ continues s s1.
Proof.
  intros H G. unfold disconnect, silent in H.
  returned H; keep_session sid G.
Qed.

Lemma disconnect_absent (sessions : JsMap.t Session.t)
    (socket : Socket.t) (t : Z) (r : reply) (sid : string) :
  disconnect sessions socket t = Ok r ->
  JsMap.get sid sessions = None ->
  JsMap.get sid (r_sessions r) = None.
Proof.
  intros H G. unfold disconnect, silent in H.
  returned H; cbn [r_sessions]; try assumption;
    rewrite JsMapFacts.get_set_other by congruence; assumption.
Qed.

Lemma recreates_not (sid c : string) (m : message) :
  recreates sid (Recv c m) = false -> creates m <> Some sid.
Proof.
  cbn. destruct (creates m) as [k|]; [|discriminate].
  intros E [= ->]. now rewrite String.eqb_refl in E.
Qed.

Lemma step_continues (srv srv1 : server) (i : input) (out : list sent)
    (sid : string) (s : Session.t) :
  server_ok srv ->
  recreates sid i = false ->
  step srv i = Ok (srv1, out) ->
  JsMap.get sid (srv_sessions srv) = Some s ->
  (exists s1, JsMap.get sid (srv_sessions srv1) = Some s1 /\ continues s s1)
  \/ (JsMap.get sid (srv_sessions srv1) = None /\ is_sweep i = true).
Proof.
  intros [K W T S] N H G. destruct i as [c|c m|c t|now]; cbn [step] in H.
  - left. exists s. split; [|apply continues_refl].
    destruct (JsMap.has c (srv_sockets srv)); now injection H as <- <-.
  - left. destruct (JsMap.get c (srv_sockets srv)) as [socket|].
    + destruct (handle (srv_sessions srv) socket m) as [r|] eqn:E;
        cbn [bind] in H; [|discriminate].
      injection H as <- <-. cbn [srv_sessions].
      apply (handle_continues _ socket m r sid s E G).
      now apply recreates_not with c.
    + injection H as <- <-. exists s. split; [exact G|apply continues_refl].
  - left. destruct (JsMap.get c (srv_sockets srv)) as [socket|].
    + destruct (disconnect (srv_sessions srv) socket t) as [r|] eqn:E;
        cbn [bind] in H; [|discriminate].
      injection H as <- <-. cbn [srv_sessions].
      apply (disconnect_continues _ socket t r sid s E G).
    + injection H as <- <-. exists s. split; [exact G|apply continues_refl].
  - injection H as <- <-. cbn [srv_sessions].
    rewrite get_sweep by assumption. rewrite G.
    destruct (inactive now s).
    + right. auto.
    + left. exists s. split; [reflexivity|apply continues_refl].
Qed.

Lemma step_absent (srv srv1 : server) (i : input) (out : list sent)
    (sid : string) :
  server_ok srv ->
  recreates sid i = false ->
  step srv i = Ok (srv1, out) ->
  JsMap.get sid (srv_sessions srv) = None ->
  JsMap.get sid (srv_sessions srv1) = None.
Proof.
  intros [K W T S] N H G. destruct i as [c|c m|c t|now]; cbn [step] in H.
  - destruct (JsMap.has c (srv_sockets srv)); now injection H as <- <-.
  - destruct (JsMap.get c (srv_sockets srv)) as [socket|];
      [|now injection H as <- <-].
    destruct (handle (srv_sessions srv) socket m) as [r|] eqn:E;
      cbn [bind] in H; [|discriminate].
    injection H as <- <-. cbn [srv_sessions].
    apply (handle_absent _ socket m r sid E G).
    now apply recreates_not with c.
  - destruct (JsMap.get c (srv_sockets srv)) as [socket|];
      [|now injection H as <- <-].
    destruct (disconnect (srv_sessions srv) socket t) as [r|] eqn:E;
      cbn [bind] in H; [|discriminate].
    injection H as <- <-. cbn [srv_sessions].
    apply (disconnect_absent _ socket t r sid E G).
  - injection H as <- <-. cbn [srv_sessions].
    rewrite get_sweep by assumption. now rewrite G.
Qed.

Lemma run_absent (tr : list input) :
  forall (srv srv1 : server) (out : list sent) (sid : string),
    server_ok srv ->
    forallb (fun i => negb (recreates sid i)) tr = true ->
    run srv tr = Ok (srv1, out) ->
    JsMap.get sid (srv_sessions srv) = None ->
    JsMap.get sid (srv_sessions srv1) = None.
Proof.
  induction tr as [|i rest IH]; intros srv srv1 out sid O N H G;
    cbn [run forallb] in H, N.
  - now injection H as <- <-.
  - apply andb_true_iff in N. destruct N as [N1 N2].
    apply negb_true_iff in N1.
    destruct (step srv i) as [[srv2 o2]|] eqn:E; cbn [bind] in H;
      [|discriminate].
    cbn [fst snd] in H.
    destruct (run srv2 rest) as [[srv3 o3]|] eqn:X; cbn [bind] in H;
      [|discriminate].
    injection H as <- <-. cbn [fst].
    apply (IH srv2 srv3 o3 sid); auto.
    + eapply step_ok; eauto.
    + eapply step_absent; eauto.
Qed.

(** X6.  As long as no creation request produces its id again, a stored
    session only grows: after any run of the server it is either still
    stored, with the same id and [createdAt], with its former log as an
    initial segment of its log and with every former player still in
    its player map, or it is gone and the run contained a cleanup pass.
    No event handler removes a session, a log entry or a player. *)
Theorem sessions_only_grow
    (tr : list input) (srv srv1 : server) (out : list sent)
    (sid : string) (s : Session.t) :
  server_ok srv ->
  forallb (fun i => negb (recreates sid i)) tr = true ->
  run srv tr = Ok (srv1, out) ->
  JsMap.get sid (srv_sessions srv) = Some s ->
  (exists s1, JsMap.get sid (srv_sessions srv1) = Some s1 /\ continues s s1)
  \/ (JsMap.get sid (srv_sessions srv1) = None /\
      existsb is_sweep tr = true).
Proof.
  revert srv srv1 out s.
  induction tr as [|i rest IH]; intros srv srv1 out s O N H G;
    cbn [run forallb existsb] in *.
  - injection H as <- <-. left. exists s. split; [exact G|].
    apply continues_refl.
  - apply andb_true_iff in N. destruct N as [N1 N2].
    apply negb_true_iff in N1.
    destruct (step srv i) as [[srv2 o2]|] eqn:E; cbn [bind] in H;
      [|discriminate].
    cbn [fst snd] in H.
    destruct (run srv2 rest) as [[srv3 o3]|] eqn:X; cbn [bind] in H;
      [|discriminate].
    injection H as <- <-. cbn [fst].
    assert (O2 : server_ok srv2) by (eapply step_ok; eauto).
    destruct (step_continues srv srv2 i o2 sid s O N1 E G)
      as [(s2 & G2 & C2)|[G2 Sw]].
    + destruct (IH srv2 srv3 o3 s2 O2 N2 X G2) as [(s3 & G3 & C3)|[G3 Sw]].
      * left. exists s3. split; [exact G3|].
        now apply continues_trans with s2.
      * right. split; [exact G3|]. rewrite Sw. apply orb_true_r.
    + right. split.
      * now apply (run_absent rest srv2 srv3 o3 sid).
      * now rewrite Sw.
Qed.

Lemma sessions_only_grow_witness :
  (exists s1,
     JsMap.get room1 (srv_sessions bruno_unbound) = Some s1 /\
     continues anna_session s1)
  \/ (JsMap.get room1 (srv_sessions bruno_unbound) = None /\
      existsb is_sweep bruno_joins_as_player = true).
Proof.
  apply (sessions_only_grow bruno_joins_as_player bruno_connected
           bruno_unbound bruno_sent room1 anna_session).
  - constructor.
    + intros k [<-|[]]. reflexivity.
    + repeat constructor. simpl. tauto.
    + repeat constructor; simpl; intuition discriminate.
    + intros c k G. simpl in G.
      destruct (String.eqb c "A") eqn:EA.
      * injection G as <-. apply String.eqb_eq in EA. subst.
        split; [reflexivity|]. intros s [= <-]. split; reflexivity.
      * destruct (String.eqb c "B") eqn:EB; [|discriminate].
        injection G as <-. apply String.eqb_eq in EB. subst.
        split; [reflexivity|]. discriminate.
  - reflexivity.
  - vm_compute; reflexivity.
  - reflexivity.
Defined.

(** ** Payloads that are missing *)

Ltac every_branch :=
  repeat match goal with
    | |- context [match ?x with _ => _ end] => destruct x
    end.

Lemma gameStateUpdate_returns (sessions : JsMap.t Session.t)
    (socket : Socket.t) (data : value) (t1 t2 : Z) :
  tame data = true -> nullish data = false ->
  exists r, gameStateUpdate sessions socket data t1 t2 = Ok r.
Proof.
  intros T N. unfold gameStateUpdate, silent, prop. rewrite N.
  destruct (log_entry_tame data t2 T) as [entry ->]. cbn [bind].
  destruct (is_str (member data "type") "diceRoll"
            || is_str (member data "type") "gmNote");
    every_branch; cbn [bind]; eexists; reflexivity.
Qed.

Lemma handle_well_formed (sessions : JsMap.t Session.t) (socket : Socket.t)
    (m : message) :
  well_formed m = true -> exists r, handle sessions socket m = Ok r.
Proof.
  intros Wf. unfold well_formed in Wf.
  apply andb_true_iff in Wf. destruct Wf as [Tm Wf].
  destruct m; cbn [handle payload] in *;
    try (apply gameStateUpdate_returns;
         [exact Tm | now apply negb_true_iff]);
    clear Tm;
    try (apply andb_true_iff in Wf; destruct Wf as [Wf Wp];
         apply negb_true_iff in Wp);
    try apply negb_true_iff in Wf;
    unfold heartbeat, createSession, joinSession, joinAsGameMaster,
      joinAsPlayer, rejoinSession, rejoin_failed, characterUpdate,
      getActiveSessions, gmNotesUpdate, messageAck, ping,
      create_session, join_session, game_message, update_player, silent,
      new_player, prop;
    rewrite ?Wf; cbn [bind]; rewrite ?Wp; cbn [bind];
    every_branch; cbn [bind]; rewrite ?Wp; cbn [bind];
    eexists; reflexivity.
Qed.

Lemma disconnect_returns (sessions : JsMap.t Session.t) (socket : Socket.t)
    (t : Z) :
  exists r, disconnect sessions socket t = Ok r.
Proof. unfold disconnect. every_branch; eexists; reflexivity. Qed.

Lemma run_well_formed (tr : list input) :
  forall srv : server,
    forallb well_formed_input tr = true ->
    exists srv1 out, run srv tr = Ok (srv1, out).
Proof.
  induction tr as [|i rest IH]; intros srv Wf; cbn [run forallb] in *.
  - eauto.
  - apply andb_true_iff in Wf. destruct Wf as [W1 W2].
    assert (St : exists srv2 o2, step srv i = Ok (srv2, o2)).
    { destruct i as [c|c m|c t|now]; cbn [step well_formed_input] in *.
      - destruct (JsMap.has c (srv_sockets srv)); eauto.
      - destruct (JsMap.get c (srv_sockets srv)) as [socket|]; eauto.
        destruct (handle_well_formed (srv_sessions srv) socket m W1)
          as [r ->]. cbn [bind]. eauto.
      - destruct (JsMap.get c (srv_sockets srv)) as [socket|]; eauto.
        destruct (disconnect_returns (srv_sessions srv) socket t) as [r ->].
        cbn [bind]. eauto.
      - eauto. }
    destruct St as (srv2 & o2 & ->). cbn [bind fst snd].
    destruct (IH srv2 W2) as (srv3 & o3 & ->). cbn [bind]. eauto.
Qed.

(** X7.  From start-up the server runs any sequence of inputs to the
    end, no handler raising on the way, provided the payloads are tame
    and no event arrives without the payload its handler reads: [data]
    is not [undefined] or [null] for [joinSession], [rejoinSession],
    [characterUpdate], [gameStateUpdate], [gmNotesUpdate] and
    [messageAck], and neither [data] nor [data.playerData] is for
    [joinAsGameMaster], [joinAsPlayer] and the legacy [join_session].
    Connections, disconnections and the cleanup never raise. *)
Theorem well_formed_traffic_never_raises (tr : list input) :
  forallb well_formed_input tr = true ->
  exists srv1 out, run boot tr = Ok (srv1, out).
Proof. apply run_well_formed. Qed.

Lemma well_formed_traffic_never_raises_witness :
  exists srv1 out,
    run boot
      (master_returns ++
       [Recv "C" (GameStateUpdate (VNum 7) 1 2);
        Recv "C" (LegacyGameMessage VUndefined 3 4);
        Recv "B" (LegacyJoinSession (join_request room1 "Bruno") true 5);
        Sweep 9999999])
    = Ok (srv1, out).
Proof.
  apply well_formed_traffic_never_raises. vm_compute; reflexivity.
Defined.

(** X8.  [joinSession], [joinAsGameMaster], [joinAsPlayer],
    [rejoinSession], [messageAck] and the legacy [join_session] read a
    property of their payload before anything else: sent with no payload
    ([undefined] or [null]) by any connected client, in any state of the
    server, each raises a [TypeError], and the run stops there. *)
Theorem missing_payload_raises
    (srv : server) (c : string) (socket : Socket.t) (m : message)
    (data : value) (rest : list input) :
  JsMap.get c (srv_sockets srv) = Some socket ->
  read_at_once m = Some data ->
  nullish data = true ->
  handle (srv_sessions srv) socket m = Throw "TypeError" /\
  run srv (Recv c m :: rest) = Throw "TypeError".
Proof.
  intros G R N.
  assert (H : handle (srv_sessions srv) socket m = Throw "TypeError").
  { destruct m; cbn [read_at_once] in R; try discriminate R;
      injection R as ->; cbn [handle];
      unfold joinSession, joinAsGameMaster, joinAsPlayer, rejoinSession,
        messageAck, join_session, prop; now rewrite N. }
  split; [exact H|]. cbn [run step]. rewrite G, H. reflexivity.
Qed.

Lemma missing_payload_raises_witness :
  handle (srv_sessions anna_server) anna_socket (JoinSession VUndefined 5000)
  = Throw "TypeError" /\
  run anna_server
    [Recv "A" (JoinSession VUndefined 5000);
     Recv "A" (GameStateUpdate dice_roll 5001 5002)]
  = Throw "TypeError".
Proof.
  apply (missing_payload_raises anna_server "A" anna_socket
           (JoinSession VUndefined 5000) VUndefined
           [Recv "A" (GameStateUpdate dice_roll 5001 5002)]);
    reflexivity.
Defined.

(** ** Disconnecting *)







(** X12.  A connection whose [sessionId] is unset and that has sent
    nothing but [joinAsGameMaster] and [joinAsPlayer] leaves no trace
    when it goes: its disconnection changes no session and emits nothing,
    so the player it created stays as it is, online included.  Until
    then its [gmNotesUpdate], [game_message] and [update_player] are
    dropped as well, even if it is the game master. *)
Theorem join_as_only_connection_is_ignored
    (c : string) (srv : server) (socket : Socket.t) (tr : list input)
    (srv1 : server) (out : list sent) :
  JsMap.get c (srv_sockets srv) = Some socket ->
  Socket.sessionId socket = None ->
  forallb (only_joins_as c) tr = true ->
  run srv tr = Ok (srv1, out) ->
  (forall t,
     step srv1 (Disconnect c t)
     = Ok (mk_server (srv_sessions srv1) (JsMap.delete c (srv_sockets srv1)),
           []))
  /\ (forall data t,
        step srv1 (Recv c (GmNotesUpdate data t)) = Ok (srv1, []))
  /\ (forall data t1 t2,
        step srv1 (Recv c (LegacyGameMessage data t1 t2)) = Ok (srv1, []))
  /\ (forall data t,
        step srv1 (Recv c (LegacyUpdatePlayer data t)) = Ok (srv1, [])).
Proof.
  intros G U O R.
  destruct (run_keeps_unbound c tr srv srv1 out socket O R G)
    as (k1 & G1 & S1 & _).
  rewrite U in S1.
  assert (Same : JsMap.set c k1 (srv_sockets srv1) = srv_sockets srv1)
    by now apply JsMapFacts.set_get_id.
  split; [|split; [|split]].
  - intros t. cbn [step]. rewrite G1. unfold disconnect. rewrite S1.
    reflexivity.
  - intros data t. cbn [step handle]. rewrite G1.
    unfold gmNotesUpdate. rewrite S1. cbn. rewrite Same. now destruct srv1.
  - intros data t1 t2. cbn [step handle]. rewrite G1.
    unfold game_message. rewrite S1. cbn. rewrite Same. now destruct srv1.
  - intros data t. cbn [step handle]. rewrite G1.
    unfold update_player. rewrite S1. cbn. rewrite Same. now destruct srv1.
Qed.

Lemma join_as_only_connection_is_ignored_witness :
  step bruno_unbound (Disconnect "B" 5000)
  = Ok (mk_server (srv_sessions bruno_unbound) [("A", anna_socket)], [])
  /\ step bruno_unbound
       (Recv "B" (GmNotesUpdate (VObj [("notes", VStr "x")]) 5000))
     = Ok (bruno_unbound, []).
Proof.
  destruct (join_as_only_connection_is_ignored
              "B" bruno_connected (Socket.fresh "B") bruno_joins_as_player
              bruno_unbound bruno_sent) as (D & N & _ & _).
  - reflexivity.
  - reflexivity.
  - vm_compute; reflexivity.
  - vm_compute; reflexivity.
  - split; [apply D | apply N].
Defined.

(** ** Joining as master, joining as player *)

Lemma prop_not_nullish (data : value) (k : string) (v : value) :
  prop data k = Ok v -> nullish data = false /\ v = member data k.
Proof.
  unfold prop. destruct (nullish data); [discriminate|].
  intros [= <-]. auto.
Qed.





(** ** Legacy handlers *)

Lemma join_session_frame (sessions : JsMap.t Session.t) (socket : Socket.t)
    (data : value) (cb : bool) (t : Z) (r : reply) :
  join_session sessions socket data cb t = Ok r ->
  Socket.playerId (r_socket r) = Socket.playerId socket /\
  Socket.isMaster (r_socket r) = Socket.isMaster socket.
Proof.
  intros H. unfold join_session in H. returned H; cbn; auto.
Qed.



(** X16.  The legacy [join_session] binds the session but sets neither
    [playerId] nor [isMaster] on the socket.  A socket that joined only
    that way therefore has its [characterUpdate] and [gmNotesUpdate]
    dropped, without any change or event, even when it holds the master
    slot. *)
Theorem legacy_join_binds_no_player
    (sessions : JsMap.t Session.t) (socket : Socket.t) (data : value)
    (cb : bool) (t : Z) (r : reply) :
  Socket.playerId socket = None ->
  truthy (Socket.isMaster socket) = false ->
  join_session sessions socket data cb t = Ok r ->
  forall data' t',
    characterUpdate (r_sessions r) (r_socket r) data' t'
    = Ok (mk_reply (r_sessions r) (r_socket r) [])
    /\ gmNotesUpdate (r_sessions r) (r_socket r) data' t'
       = Ok (mk_reply (r_sessions r) (r_socket r) []).
Proof.
  intros P M J data' t'.
  destruct (join_session_frame _ _ _ _ _ _ J) as [P1 M1].
  rewrite P in P1. rewrite <- M1 in M. split.
  - unfold characterUpdate. rewrite P1. cbn. now rewrite orb_true_r.
  - unfold gmNotesUpdate. rewrite M. cbn. now rewrite orb_true_r.
Qed.

Lemma legacy_join_binds_no_player_witness :
  exists r s1,
    join_session [(room1, legacy_session)] (Socket.fresh "C")
      (legacy_join_request room1 "Carla") true 3000 = Ok r
    /\ JsMap.get room1 (r_sessions r) = Some s1
    /\ Session.masterId s1 = Some "C"
    /\ gmNotesUpdate (r_sessions r) (r_socket r)
         (VObj [("notes", VStr "x")]) 3001
       = Ok (mk_reply (r_sessions r) (r_socket r) []).
Proof.
  assert (J : join_session [(room1, legacy_session)] (Socket.fresh "C")
                (legacy_join_request room1 "Carla") true 3000
              = Ok (mk_reply
                      [(room1,
                        Session.mk room1 (Some "C")
                          [("C",
                            [("name", VStr "Carla");
                             ("wantsToBeMaster", VBool true);
                             ("online", VBool true);
                             ("id", VStr "C");
                             ("isMaster", VBool true)])]
                          (Session.gameLog legacy_session)
                          VUndefined VUndefined 1000 3000)]
                      (Socket.mk "C" (Some room1) None VUndefined [room1])
                      [callback
                         (VObj
                            [("success", VBool true);
                             ("session",
                              VObj
                                [("id", VStr room1);
                                 ("players",
                                  VArr
                                    [VObj
                                       [("name", VStr "Carla");
                                        ("wantsToBeMaster", VBool true);
                                        ("online", VBool true);
                                        ("id", VStr "C");
                                        ("isMaster", VBool true)]]);
                                 ("gameLog",
                                  VArr (Session.gameLog legacy_session));
                                 ("masterId", VStr "C")])]);
                       emit_others room1 "player_joined"
                         [VObj
                            [("player",
                              VObj
                                [("name", VStr "Carla");
                                 ("wantsToBeMaster", VBool true);
                                 ("online", VBool true);
                                 ("id", VStr "C");
                                 ("isMaster", VBool true)])]]]))
    by (vm_compute; reflexivity).
  eexists. eexists. split; [exact J|]. cbn [r_sessions r_socket].
  split; [reflexivity|]. split; [reflexivity|].
  apply (legacy_join_binds_no_player
           [(room1, legacy_session)] (Socket.fresh "C")
           (legacy_join_request room1 "Carla") true 3000 _
           eq_refl eq_refl J).
Defined.

(** X17.  The legacy [game_message] from a socket bound to a stored
    session appends exactly one entry to the log and sends that same
    entry to the whole room, sender included: a copy of the payload's
    own properties whose [timestamp] is the clock reading of the server,
    whatever [timestamp] the payload carried.  A payload that is missing
    gives the entry [{timestamp}] and raises nothing. *)
Theorem game_message_stamps_and_logs
    (sessions : JsMap.t Session.t) (socket : Socket.t) (data : value)
    (t1 t2 : Z) (sid : string) (s : Session.t) :
  Socket.sessionId socket = Some sid -> sid <> EmptyString ->
  JsMap.get sid sessions = Some s ->
  exists message,
    game_message sessions socket data t1 t2
    = Ok (mk_reply
            (JsMap.set sid
               (Session.mk (Session.id s) (Session.masterId s)
                  (Session.players s)
                  (Session.gameLog s ++ [VObj message])
                  (Session.gameState s) (Session.gmNotes s)
                  (Session.createdAt s) t2)
               sessions)
            socket
            [mk_out (ToRoom sid) "game_message" [VObj message]])
    /\ JsMap.get "timestamp" message = Some (VNum t1)
    /\ (forall k, k <> "timestamp" -> JsMap.wf (own_props data) ->
                  JsMap.get k message = JsMap.get k (own_props data))
    /\ (nullish data = true -> message = [("timestamp", VNum t1)]).
Proof.
  intros B Ne G. apply String.eqb_neq in Ne.
  unfold game_message. rewrite B. cbn [set_id]. rewrite Ne. cbn [negb].
  rewrite G. eexists. split; [reflexivity|]. split; [|split].
  - apply JsMapFacts.get_set_same.
  - intros k Nk W. rewrite JsMapFacts.get_set_other by assumption.
    now apply get_assign_empty.
  - intros N. destruct data; try discriminate N; reflexivity.
Qed.

Lemma game_message_stamps_and_logs_witness :
  (exists message,
     game_message [(room1, anna_session)] anna_socket chat_message 7000 7001
     = Ok (mk_reply
             [(room1,
               Session.mk room1 (Some "A") (Session.players anna_session)
                 [VObj message] (VObj []) VUndefined 1000 7001)]
             anna_socket
             [mk_out (ToRoom room1) "game_message" [VObj message]])
     /\ JsMap.get "timestamp" message = Some (VNum 7000)
     /\ JsMap.get "text" message = Some (VStr "ciao"))
  /\
  (exists message,
     game_message [(room1, anna_session)] anna_socket (VStr "sì") 7000 7001
     = Ok (mk_reply
             [(room1,
               Session.mk room1 (Some "A") (Session.players anna_session)
                 [VObj message] (VObj []) VUndefined 1000 7001)]
             anna_socket
             [mk_out (ToRoom room1) "game_message" [VObj message]])
     /\ JsMap.get "timestamp" message = Some (VNum 7000)
     /\ JsMap.get "0" message = Some (VStr "s")
     /\ JsMap.get "1" message = Some (VStr "ì")
     /\ JsMap.get "2" message = None).
Proof.
  split.
  - destruct (game_message_stamps_and_logs
                [(room1, anna_session)] anna_socket chat_message 7000 7001
                room1 anna_session) as (message & E & T & K & _).
    + reflexivity.
    + discriminate.
    + reflexivity.
    + exists message. split; [exact E|]. split; [exact T|].
      rewrite K.
      * reflexivity.
      * discriminate.
      * repeat constructor; simpl; intuition discriminate.
  - destruct (game_message_stamps_and_logs
                [(room1, anna_session)] anna_socket (VStr "sì") 7000 7001
                room1 anna_session) as (message & E & T & K & _).
    + reflexivity.
    + discriminate.
    + reflexivity.
    + assert (W : JsMap.wf (own_props (VStr "sì")))
        by (repeat constructor; simpl; intuition discriminate).
      exists message. split; [exact E|]. split; [exact T|].
      rewrite !K by (exact W || discriminate).
      repeat split; reflexivity.
Defined.

(** X18.  The legacy [update_player] from a socket bound to a stored
    session in which it is filed as a player copies every own property
    of the payload onto that player, [online], [isMaster] and [id]
    included, and keeps the properties the payload lacks (the payload
    having no [__proto__] of its own, which [Object.assign] would not
    copy as a property); [masterId],
    the other players and the log are untouched, and the others in the
    room are sent the whole updated player. *)
Theorem update_player_overwrites_any_field
    (sessions : JsMap.t Session.t) (socket : Socket.t) (data : value) (t : Z)
    (sid : string) (s : Session.t) (p : object) :
  Socket.sessionId socket = Some sid -> sid <> EmptyString ->
  JsMap.get sid sessions = Some s ->
  JsMap.get (Socket.id socket) (Session.players s) = Some p ->
  JsMap.get "__proto__" (own_props data) = None ->
  exists p1,
    update_player sessions socket data t
    = Ok (mk_reply
            (JsMap.set sid
               (Session.mk (Session.id s) (Session.masterId s)
                  (JsMap.set (Socket.id socket) p1 (Session.players s))
                  (Session.gameLog s) (Session.gameState s)
                  (Session.gmNotes s) (Session.createdAt s) t)
               sessions)
            socket
            [mk_out (ToOthers sid) "player_updated"
               [VObj [("playerId", VStr (Socket.id socket));
                      ("playerData", VObj p1)]]])
    /\ (forall k, JsMap.get k (own_props data) = None ->
                  JsMap.get k p1 = JsMap.get k p)
    /\ (forall k v, JsMap.wf (own_props data) ->
                    JsMap.get k (own_props data) = Some v ->
                    JsMap.get k p1 = Some v).
Proof.
  intros B Ne G P _. apply String.eqb_neq in Ne.
  unfold update_player. rewrite B. cbn [set_id]. rewrite Ne. cbn [negb].
  rewrite G, P. eexists. split; [reflexivity|]. split.
  - intros k N. now apply get_assign_absent.
  - intros k v W H. now apply get_assign_present.
Qed.

Lemma update_player_overwrites_any_field_witness :
  (exists p1,
     update_player [(room1, bruno_new_session)] bruno_socket
       (VObj [("online", VBool false); ("isMaster", VBool true)]) 7000
     = Ok (mk_reply
             [(room1,
               Session.mk room1 None [("B", p1)] [] (VObj []) VUndefined
                 1000 7000)]
             bruno_socket
             [mk_out (ToOthers room1) "player_updated"
                [VObj [("playerId", VStr "B"); ("playerData", VObj p1)]]])
     /\ JsMap.get "online" p1 = Some (VBool false)
     /\ JsMap.get "isMaster" p1 = Some (VBool true)
     /\ JsMap.get "name" p1 = Some (VStr "Bruno"))
  /\
  (exists p1,
     update_player [(room1, bruno_new_session)] bruno_socket (VStr "sì") 7000
     = Ok (mk_reply
             [(room1,
               Session.mk room1 None [("B", p1)] [] (VObj []) VUndefined
                 1000 7000)]
             bruno_socket
             [mk_out (ToOthers room1) "player_updated"
                [VObj [("playerId", VStr "B"); ("playerData", VObj p1)]]])
     /\ JsMap.get "0" p1 = Some (VStr "s")
     /\ JsMap.get "1" p1 = Some (VStr "ì")
     /\ JsMap.get "2" p1 = None
     /\ JsMap.get "name" p1 = Some (VStr "Bruno")).
Proof.
  split.
  - destruct (update_player_overwrites_any_field
                [(room1, bruno_new_session)] bruno_socket
                (VObj [("online", VBool false); ("isMaster", VBool true)])
                7000 room1 bruno_new_session
                (sample_player "B" "Bruno" false true))
      as (p1 & E & Keep & Take).
    + reflexivity.
    + discriminate.
    + reflexivity.
    + reflexivity.
    + reflexivity.
    + assert (W : JsMap.wf
                    (own_props
                       (VObj [("online", VBool false);
                              ("isMaster", VBool true)])))
        by (repeat constructor; simpl; intuition discriminate).
      exists p1. split; [exact E|]. split; [|split].
      * apply Take; [exact W | reflexivity].
      * apply Take; [exact W | reflexivity].
      * rewrite Keep; reflexivity.
  - destruct (update_player_overwrites_any_field
                [(room1, bruno_new_session)] bruno_socket (VStr "sì")
                7000 room1 bruno_new_session
                (sample_player "B" "Bruno" false true))
      as (p1 & E & Keep & Take).
    + reflexivity.
    + discriminate.
    + reflexivity.
    + reflexivity.
    + reflexivity.
    + assert (W : JsMap.wf (own_props (VStr "sì")))
        by (repeat constructor; simpl; intuition discriminate).
      exists p1. split; [exact E|].
      split; [apply Take; [exact W | reflexivity]|].
      split; [apply Take; [exact W | reflexivity]|].
      split; rewrite Keep; reflexivity.
Defined.

(** ** [GET /sessions] *)

Lemma list_session_clock (now now' : Z) (kv : string * Session.t) :
  Session.createdAt (snd kv) <> 0 ->
  list_session now kv = list_session now' kv.
Proof.
  intros N. unfold list_session. apply Z.eqb_neq in N. now rewrite N.
Qed.

Lemma listing_clock (nows : nat -> Z) (l : JsMap.t Session.t) :
  forall n,
    (forall k s, In (k, s) l -> Session.createdAt s <> 0) ->
    map (fun ikv => list_session (nows (fst ikv)) (snd ikv))
      (combine (seq n (length l)) l)
    = map (list_session 0) l.
Proof.
  induction l as [|[k s] r IH]; intros n H; simpl; auto.
  f_equal.
  - apply list_session_clock. simpl. apply (H k). now left.
  - apply IH. intros k' s' I. apply (H k'). now right.
Qed.

(** X19.  [GET /sessions] lists every stored session, also those with
    nobody online: one entry per session, ordered from the newest
    [createdAt] to the oldest, each with the id, the number of players
    ever filed ([totalPlayers]) and the number of them online
    ([playerCount]), which never exceeds it.  ([createdAt] is a clock
    reading, so it is not 0.) *)
Theorem rest_listing_shows_every_session
    (nows : nat -> Z) (sessions : JsMap.t Session.t) :
  (forall k s, In (k, s) sessions -> Session.createdAt s <> 0) ->
  exists l,
    get_sessions nows sessions
    = VObj [("sessions",
             VArr
               (map
                  (fun x =>
                     VObj [("id", VStr (ls_id x));
                           ("playerCount", VNum (Z.of_nat (ls_playerCount x)));
                           ("totalPlayers",
                            VNum (Z.of_nat (ls_totalPlayers x)));
                           ("createdAt", VNum (ls_createdAt x));
                           ("hasMaster", ls_hasMaster x);
                           ("masterName", ls_masterName x)])
                  l))]
    /\ Permutation l (map (list_session 0) sessions)
    /\ length l = JsMap.size sessions
    /\ newest_listing_first l
    /\ forall x, In x l ->
         exists k s,
           In (k, s) sessions
           /\ ls_id x = k
           /\ ls_createdAt x = Session.createdAt s
           /\ ls_totalPlayers x = JsMap.size (Session.players s)
           /\ ls_playerCount x
              = length (filter is_online (JsMap.values (Session.players s)))
           /\ (ls_playerCount x <= ls_totalPlayers x)%nat.
Proof.
  intros H. unfold get_sessions. rewrite (listing_clock nows sessions 0%nat H).
  eexists. split; [reflexivity|].
  assert (P : Permutation
                (js_sort (fun a b => ls_createdAt b - ls_createdAt a)
                   (map (list_session 0) sessions))
                (map (list_session 0) sessions)) by apply js_sort_perm.
  split; [exact P|]. split; [|split].
  - rewrite (Permutation_length P). unfold JsMap.size. apply length_map.
  - unfold newest_listing_first.
    eapply sorted_weaken;
      [| apply (js_sort_sorted listing
                  (fun a b => ls_createdAt b - ls_createdAt a))].
    + intros a b L. simpl in L. lia.
    + intros x y. lia.
    + intros x y z. lia.
  - intros x I. apply (Permutation_in _ P) in I.
    apply in_map_iff in I. destruct I as ([k s] & <- & I).
    exists k, s. split; [exact I|]. unfold list_session. cbn [fst snd].
    cbn [ls_id ls_createdAt ls_totalPlayers ls_playerCount].
    split; [reflexivity|]. split.
    + specialize (H k s I). apply Z.eqb_neq in H. now rewrite H.
    + split; [reflexivity|]. split; [reflexivity|].
      unfold onlinePlayers, JsMap.size, JsMap.values.
      rewrite <- (length_map snd (Session.players s)).
      apply filter_length_le.
Qed.

Lemma rest_listing_shows_every_session_witness :
  exists l,
    get_sessions (fun _ => 9000)
      [(room1, idle_session);
       ("rinascimento-new", blank_session "rinascimento-new" 5000 5000)]
    = VObj [("sessions",
             VArr
               (map
                  (fun x =>
                     VObj [("id", VStr (ls_id x));
                           ("playerCount", VNum (Z.of_nat (ls_playerCount x)));
                           ("totalPlayers",
                            VNum (Z.of_nat (ls_totalPlayers x)));
                           ("createdAt", VNum (ls_createdAt x));
                           ("hasMaster", ls_hasMaster x);
                           ("masterName", ls_masterName x)])
                  l))]
    /\ length l = 2%nat
    /\ newest_listing_first l.
Proof.
  destruct (rest_listing_shows_every_session (fun _ => 9000)
              [(room1, idle_session);
               ("rinascimento-new",
                blank_session "rinascimento-new" 5000 5000)])
    as (l & E & _ & Len & Srt & _).
  - intros k s [I|[I|[]]]; injection I as <- <-; discriminate.
  - exists l. split; [exact E|]. split; [exact Len | exact Srt].
Defined.

(** After [createSession] the new session is listed with no players. *)
Example rest_listing_after_createSession :
  get_sessions (fun _ => 9000)
    [(room1, idle_session);
     ("rinascimento-new", blank_session "rinascimento-new" 5000 5000)]
  = VObj [("sessions",
           VArr [VObj [("id", VStr "rinascimento-new");
                       ("playerCount", VNum 0); ("totalPlayers", VNum 0);
                       ("createdAt", VNum 5000);
                       ("hasMaster", VBool false); ("masterName", VNull)];
                 VObj [("id", VStr room1);
                       ("playerCount", VNum 0); ("totalPlayers", VNum 2);
                       ("createdAt", VNum 1000);
                       ("hasMaster", VBool false);
                       ("masterName", VStr "Anna")]])].
Proof. vm_compute; reflexivity. Qed.

(** ** Sockets bound to a session that is gone *)

(** X20.  The cleanup removes a session without looking at the sockets
    bound to it.  A socket still bound to a session the cleanup has just
    removed is ignored from then on: its [characterUpdate],
    [gameStateUpdate], [gmNotesUpdate], [game_message] and
    [update_player] change nothing and emit nothing, and so does its
    disconnection; none of them brings the session back. *)
Theorem swept_session_ignores_its_sockets
    (srv : server) (c sid : string) (socket : Socket.t) (s : Session.t)
    (now : Z) :
  server_ok srv ->
  JsMap.get c (srv_sockets srv) = Some socket ->
  Socket.sessionId socket = Some sid ->
  JsMap.get sid (srv_sessions srv) = Some s ->
  inactive now s = true ->
  exists srv1,
    step srv (Sweep now) = Ok (srv1, [])
    /\ srv_sockets srv1 = srv_sockets srv
    /\ JsMap.get sid (srv_sessions srv1) = None
    /\ (forall data t,
          step srv1 (Recv c (CharacterUpdate data t)) = Ok (srv1, []))
    /\ (forall data t1 t2,
          step srv1 (Recv c (GameStateUpdate data t1 t2)) = Ok (srv1, []))
    /\ (forall data t,
          step srv1 (Recv c (GmNotesUpdate data t)) = Ok (srv1, []))
    /\ (forall data t1 t2,
          step srv1 (Recv c (LegacyGameMessage data t1 t2)) = Ok (srv1, []))
    /\ (forall data t,
          step srv1 (Recv c (LegacyUpdatePlayer data t)) = Ok (srv1, []))
    /\ (forall t,
          step srv1 (Disconnect c t)
          = Ok (mk_server (srv_sessions srv1)
                  (JsMap.delete c (srv_sockets srv1)), [])).
Proof.
  intros [K W T S] G B Gs I.
  eexists. split; [reflexivity|]. cbn [srv_sockets srv_sessions].
  split; [reflexivity|].
  assert (Gone : JsMap.get sid (sweep now (srv_sessions srv)) = None).
  { rewrite get_sweep by assumption. now rewrite Gs, I. }
  assert (Same : JsMap.set c socket (srv_sockets srv) = srv_sockets srv)
    by now apply JsMapFacts.set_get_id.
  split; [exact Gone|].
  repeat split; intros; cbn [step handle srv_sockets srv_sessions];
    rewrite G;
    unfold characterUpdate, gameStateUpdate, gmNotesUpdate, game_message,
      update_player, disconnect, silent;
    rewrite B, Gone;
    repeat match goal with
      | |- context [if ?b then _ else _] => destruct b
      | |- context [match Socket.playerId socket with _ => _ end] =>
          destruct (Socket.playerId socket)
      end;
    cbn [bind r_sessions r_socket r_emitted map]; rewrite ?Same;
    reflexivity.
Qed.

Lemma swept_session_ignores_its_sockets_witness :
  exists srv1,
    step (mk_server [(room1, idle_session)] [("B", bruno_socket)])
      (Sweep 3602001) = Ok (srv1, [])
    /\ JsMap.get room1 (srv_sessions srv1) = None
    /\ step srv1 (Recv "B" (GameStateUpdate dice_roll 3602002 3602003))
       = Ok (srv1, []).
Proof.
  destruct (swept_session_ignores_its_sockets
              (mk_server [(room1, idle_session)] [("B", bruno_socket)])
              "B" room1 bruno_socket idle_session 3602001)
    as (srv1 & Sw & _ & Gone & _ & Gs & _).
  - constructor; cbn.
    + intros k [<-|[]]. reflexivity.
    + repeat constructor. simpl. tauto.
    + repeat constructor. simpl. tauto.
    + intros c k G. simpl in G.
      destruct (String.eqb c "B") eqn:EB; [|discriminate].
      injection G as <-. apply String.eqb_eq in EB. subst.
      split; [reflexivity|]. intros s [= <-]. split; reflexivity.
  - reflexivity.
  - reflexivity.
  - reflexivity.
  - reflexivity.
  - exists srv1. split; [exact Sw|]. split; [exact Gone | apply Gs].
Defined.

(** ** Rejoining takes over the player's role *)



(** ** Sessions and players that are not there *)

(** X22.  A request naming a session that is not stored (an unknown id,
    or a [sessionId] that is no string at all) changes nothing and binds
    nothing; the caller alone is told.  [joinSession] answers
    [sessionError] with the code [SESSION_NOT_FOUND]; [joinAsGameMaster]
    and [joinAsPlayer] answer [sessionError] with a message and no code;
    [rejoinSession] answers [sessionError] with its own message, as it
    does for a stored session that lacks the player; the legacy
    [join_session] answers through its callback, and not at all when
    there is none. *)
Theorem unknown_session_is_reported_to_the_caller
    (sessions : JsMap.t Session.t) (socket : Socket.t) (data v : value)
    (cb : bool) (t t1 t2 : Z) :
  prop data "sessionId" = Ok v ->
  (forall sid, v = VStr sid -> JsMap.get sid sessions = None) ->
  joinSession sessions socket data t
  = Ok (mk_reply sessions socket
          [mk_out ToSender "sessionError" [not_found_coded]])
  /\ joinAsGameMaster sessions socket data t1 t2
     = Ok (mk_reply sessions socket
             [mk_out ToSender "sessionError" [not_found]])
  /\ joinAsPlayer sessions socket data t1 t2
     = Ok (mk_reply sessions socket
             [mk_out ToSender "sessionError" [not_found]])
  /\ rejoinSession sessions socket data t
     = Ok (mk_reply sessions socket
             [mk_out ToSender "sessionError" [cannot_rejoin]])
  /\ join_session sessions socket data cb t
     = Ok (mk_reply sessions socket
             (if cb then
                [mk_out ToCallback "callback"
                   [VObj [("success", VBool false);
                          ("error", VStr "Sessione non trovata")]]]
              else [])).
Proof.
  intros Ds U.
  destruct (prop_not_nullish _ _ _ Ds) as [Nd _].
  assert (F : find_session v sessions = None).
  { unfold find_session. destruct v; auto. now rewrite (U s eq_refl). }
  unfold joinSession, joinAsGameMaster, joinAsPlayer, rejoinSession,
    join_session, rejoin_failed.
  rewrite Ds. unfold prop. rewrite Nd. cbn [bind]. rewrite F.
  repeat split.
Qed.

Lemma unknown_session_is_reported_to_the_caller_witness :
  joinSession [(room1, idle_session)] bruno_socket
    (VObj [("sessionId", VNum 42)]) 3000
  = Ok (mk_reply [(room1, idle_session)] bruno_socket
          [mk_out ToSender "sessionError" [not_found_coded]])
  /\ joinAsGameMaster [(room1, idle_session)] bruno_socket
       (VObj [("sessionId", VNum 42)]) 3000 3001
     = Ok (mk_reply [(room1, idle_session)] bruno_socket
             [mk_out ToSender "sessionError" [not_found]]).
Proof.
  destruct (unknown_session_is_reported_to_the_caller
              [(room1, idle_session)] bruno_socket
              (VObj [("sessionId", VNum 42)]) (VNum 42) true 3000 3000 3001)
    as (A & B & _).
  - reflexivity.
  - discriminate.
  - split; [exact A | exact B].
Defined.

(** X23.  [rejoinSession] naming a stored session but a player the
    session does not hold fails the same way: the sessions and the socket
    are as they were, so the socket is not bound and has joined no room,
    and the caller alone receives the [sessionError]. *)
Theorem unknown_player_cannot_rejoin
    (sessions : JsMap.t Session.t) (socket : Socket.t) (data v : value)
    (sid : string) (s : Session.t) (t : Z) :
  prop data "sessionId" = Ok (VStr sid) ->
  JsMap.get sid sessions = Some s ->
  prop data "playerId" = Ok v ->
  (forall pid, v = VStr pid -> JsMap.get pid (Session.players s) = None) ->
  rejoinSession sessions socket data t
  = Ok (mk_reply sessions socket
          [mk_out ToSender "sessionError" [cannot_rejoin]]).
Proof.
  intros Ds G Dp U. unfold rejoinSession, rejoin_failed.
  rewrite Ds, Dp. cbn [bind find_session]. rewrite G.
  unfold find_player. destruct v; auto. now rewrite (U s0 eq_refl).
Qed.

Lemma unknown_player_cannot_rejoin_witness :
  rejoinSession [(room1, idle_session)] (Socket.fresh "C")
    (rejoin_request room1 "Z") 3000
  = Ok (mk_reply [(room1, idle_session)] (Socket.fresh "C")
          [mk_out ToSender "sessionError" [cannot_rejoin]]).
Proof.
  apply (unknown_player_cannot_rejoin
           [(room1, idle_session)] (Socket.fresh "C")
           (rejoin_request room1 "Z") (VStr "Z") room1 idle_session 3000).
  - reflexivity.
  - reflexivity.
  - reflexivity.
  - intros pid [= <-]. reflexivity.
Defined.

(** ** From creating a session to joining it *)

(** X24.  The id [createSession] hands out opens the session it filed:
    a [joinSession] with that id, by any socket, right after, succeeds,
    binds the socket to the session and its room, and returns an empty
    roster and an empty log.  After the legacy [create_session] the same
    [joinSession] returns the log with its one opening entry,
    [Sessione creata.]. *)
Theorem created_session_can_be_joined
    (sessions : JsMap.t Session.t) (socket socket2 : Socket.t)
    (data data2 : value) (cb : bool) (rnd : string) (t1 t2 t3 t4 : Z) :
  prop data2 "sessionId" = Ok (VStr (new_session_id rnd)) ->
  (exists r1,
     createSession sessions socket data rnd t1 t2 = Ok r1
     /\ joinSession (r_sessions r1) socket2 data2 t4
        = Ok (mk_reply
                (JsMap.set (new_session_id rnd)
                   (blank_session (new_session_id rnd) t1 t4)
                   (r_sessions r1))
                (Socket.with_sessionId (Some (new_session_id rnd))
                   (Socket.join (new_session_id rnd) socket2))
                [mk_out ToSender "joinedSession"
                   [VObj [("sessionId", VStr (new_session_id rnd));
                          ("players", VArr []);
                          ("gameLog", VArr [])]]]))
  /\
  (exists r1,
     create_session sessions socket data cb rnd t1 t2 t3 = Ok r1
     /\ exists r2,
          joinSession (r_sessions r1) socket2 data2 t4 = Ok r2
          /\ r_emitted r2
             = [mk_out ToSender "joinedSession"
                  [VObj [("sessionId", VStr (new_session_id rnd));
                         ("players", VArr []);
                         ("gameLog",
                          VArr [VObj [("author", VStr "Sistema");
                                      ("text", VStr "Sessione creata.");
                                      ("timestamp", VNum t1)]])]]]
          /\ Socket.sessionId (r_socket r2) = Some (new_session_id rnd)).
Proof.
  intros Ds. destruct (prop_not_nullish _ _ _ Ds) as [Nd _].
  split.
  - eexists. split; [reflexivity|]. cbn [r_sessions].
    unfold joinSession. rewrite Ds. cbn [bind find_session].
    rewrite JsMapFacts.get_set_same. reflexivity.
  - eexists. split; [reflexivity|]. cbn [r_sessions].
    unfold joinSession. rewrite Ds. cbn [bind find_session].
    rewrite JsMapFacts.get_set_same.
    eexists. split; [reflexivity|]. split; reflexivity.
Qed.

Lemma created_session_can_be_joined_witness :
  exists r1,
    createSession [(room1, idle_session)] anna_socket VUndefined
      "0.k3x9qa" 5000 5001 = Ok r1
    /\ joinSession (r_sessions r1) (Socket.fresh "C")
         (VObj [("sessionId", VStr "rinascimento-k3x9qa")]) 5002
       = Ok (mk_reply
               (JsMap.set (new_session_id "0.k3x9qa")
                  (blank_session (new_session_id "0.k3x9qa") 5000 5002)
                  (r_sessions r1))
               (Socket.with_sessionId (Some (new_session_id "0.k3x9qa"))
                  (Socket.join (new_session_id "0.k3x9qa")
                     (Socket.fresh "C")))
               [mk_out ToSender "joinedSession"
                  [VObj [("sessionId", VStr (new_session_id "0.k3x9qa"));
                         ("players", VArr []);
                         ("gameLog", VArr [])]]]).
Proof.
  destruct (created_session_can_be_joined
              [(room1, idle_session)] anna_socket (Socket.fresh "C")
              VUndefined (VObj [("sessionId", VStr "rinascimento-k3x9qa")])
              true "0.k3x9qa" 5000 5001 5001 5002) as [(r1 & C & J) _].
  - reflexivity.
  - exists r1. split; [exact C | exact J].
Defined.

(** X25.  [joinSession] only attaches the socket: it files no player
    and leaves [masterId], the players and the log as they were, the
    socket keeping its [playerId] and [isMaster]; the caller is sent the
    roster, all players in the order they were first filed, and the
    log.  Being bound is all [gameStateUpdate] asks for: a dice roll the
    socket sends next is logged and sent to the whole room although the
    session holds no player for that socket (the roll being tame, so
    that printing its total does not raise). *)
Theorem joinSession_only_attaches
    (sessions : JsMap.t Session.t) (socket : Socket.t) (data : value)
    (sid : string) (s : Session.t) (t : Z) (roll : value) (u1 u2 : Z) :
  prop data "sessionId" = Ok (VStr sid) -> sid <> EmptyString ->
  JsMap.get sid sessions = Some s ->
  member roll "type" = VStr "diceRoll" ->
  tame roll = true ->
  exists r content,
    joinSession sessions socket data t = Ok r
    /\ r_sessions r
       = JsMap.set sid
           (Session.mk (Session.id s) (Session.masterId s)
              (Session.players s) (Session.gameLog s) (Session.gameState s)
              (Session.gmNotes s) (Session.createdAt s) t)
           sessions
    /\ Socket.sessionId (r_socket r) = Some sid
    /\ in_room sid (r_socket r) = true
    /\ Socket.playerId (r_socket r) = Socket.playerId socket
    /\ Socket.isMaster (r_socket r) = Socket.isMaster socket
    /\ r_emitted r
       = [mk_out ToSender "joinedSession"
            [VObj [("sessionId", VStr sid);
                   ("players",
                    VArr (map VObj (JsMap.values (Session.players s))));
                   ("gameLog", VArr (Session.gameLog s))]]]
    /\ gameStateUpdate (r_sessions r) (r_socket r) roll u1 u2
       = Ok (mk_reply
               (JsMap.set sid
                  (Session.mk (Session.id s) (Session.masterId s)
                     (Session.players s)
                     (Session.gameLog s ++
                      [VObj [("timestamp", VNum u2);
                             ("type", VStr "diceRoll");
                             ("author",
                              if truthy (member roll "playerName")
                              then member roll "playerName"
                              else VStr "Sistema");
                             ("content", content);
                             ("data", roll)]])
                     (Session.gameState s) (Session.gmNotes s)
                     (Session.createdAt s) u1)
                  (r_sessions r))
               (r_socket r)
               [mk_out (ToRoom sid) "gameStateUpdate" [roll]]).
Proof.
  intros Ds Ne G Ty Tm. apply String.eqb_neq in Ne.
  assert (Nr : nullish roll = false)
    by (destruct roll; try discriminate Ty; reflexivity).
  assert (Ct : exists content,
             log_entry roll u2
             = Ok (VObj [("timestamp", VNum u2);
                         ("type", VStr "diceRoll");
                         ("author",
                          if truthy (member roll "playerName")
                          then member roll "playerName"
                          else VStr "Sistema");
                         ("content", content);
                         ("data", roll)])).
  { unfold log_entry. rewrite Ty.
    destruct (truthy (member roll "note")); cbn [bind];
      [eexists; reflexivity|].
    destruct (to_string_tame (opt_prop (member roll "roll") "total"))
      as [text ->]; [|cbn [bind]; eexists; reflexivity].
    now apply tame_opt_prop, tame_member. }
  destruct Ct as [content Ct].
  unfold joinSession. rewrite Ds. cbn [bind find_session]. rewrite G.
  eexists. exists content. split; [reflexivity|].
  cbn [r_sessions r_socket r_emitted].
  split; [reflexivity|]. split; [reflexivity|].
  split; [apply (in_room_join sid socket)|].
  split; [reflexivity|]. split; [reflexivity|]. split; [reflexivity|].
  unfold gameStateUpdate.
  cbn [Socket.sessionId Socket.with_sessionId Socket.join set_id].
  rewrite Ne, JsMapFacts.get_set_same. cbn [negb].
  unfold prop. rewrite Nr, Ty, Ct. reflexivity.
Qed.

Lemma joinSession_only_attaches_witness :
  exists r content,
    joinSession [(room1, anna_session)] (Socket.fresh "C")
      (VObj [("sessionId", VStr room1)]) 6000 = Ok r
    /\ r_emitted r
       = [mk_out ToSender "joinedSession"
            [VObj [("sessionId", VStr room1);
                   ("players",
                    VArr [VObj (sample_player "A" "Anna" true true)]);
                   ("gameLog", VArr [])]]]
    /\ Socket.playerId (r_socket r) = None
    /\ gameStateUpdate (r_sessions r) (r_socket r) dice_roll 6001 6002
       = Ok (mk_reply
               (JsMap.set room1
                  (Session.mk room1 (Some "A")
                     [("A", sample_player "A" "Anna" true true)]
                     [VObj [("timestamp", VNum 6002);
                            ("type", VStr "diceRoll");
                            ("author", VStr "Sistema");
                            ("content", content);
                            ("data", dice_roll)]]
                     (VObj []) VUndefined 1000 6001)
                  (r_sessions r))
               (r_socket r)
               [mk_out (ToRoom room1) "gameStateUpdate" [dice_roll]]).
Proof.
  destruct (joinSession_only_attaches
              [(room1, anna_session)] (Socket.fresh "C")
              (VObj [("sessionId", VStr room1)]) room1 anna_session 6000
              dice_roll 6001 6002)
    as (r & content & J & _ & _ & _ & P & _ & E & Gs).
  - reflexivity.
  - discriminate.
  - reflexivity.
  - reflexivity.
  - reflexivity.
  - exists r, content. split; [exact J|]. split; [exact E|].
    split; [exact P | exact Gs].
Defined.

(** ** Players are filed under their own id *)

Lemma filed_same (s s1 : Session.t) :
  Session.players s1 = Session.players s ->
  players_filed s -> players_filed s1.
Proof. unfold players_filed. intros ->. auto. Qed.

Lemma filed_update (s s1 : Session.t) (c : string) (p : object) :
  Session.players s1 = JsMap.set c p (Session.players s) ->
  field p "id" = VStr c ->
  players_filed s -> players_filed s1.
Proof.
  unfold players_filed. intros -> I F pid q G.
  destruct (string_dec pid c) as [->|D].
  - rewrite JsMapFacts.get_set_same in G. now injection G as <-.
  - rewrite JsMapFacts.get_set_other in G by assumption. eauto.
Qed.

Lemma filed_blank (s : Session.t) :
  Session.players s = [] -> players_filed s.
Proof. unfold players_filed. intros ->. discriminate. Qed.

Lemma all_filed_set (k : string) (s : Session.t)
    (sessions : JsMap.t Session.t) :
  players_filed s -> all_filed sessions -> all_filed (JsMap.set k s sessions).
Proof.
  intros S H k' x G. destruct (string_dec k' k) as [->|D].
  - rewrite JsMapFacts.get_set_same in G. now injection G as <-.
  - rewrite JsMapFacts.get_set_other in G by assumption. eauto.
Qed.

Lemma new_player_id (socket : Socket.t) (playerData : value)
    (master : bool) (t : Z) (p : object) :
  new_player socket playerData master t = Ok p ->
  field p "id" = VStr (Socket.id socket).
Proof. unfold new_player. intros H. returned H. reflexivity. Qed.

Lemma find_player_get (v : value) (players : JsMap.t object)
    (pid : string) (p : object) :
  find_player v players = Some (pid, p) ->
  v = VStr pid /\ JsMap.get pid players = Some p.
Proof.
  unfold find_player. destruct v; try discriminate.
  destruct (JsMap.get s players) eqn:G; [|discriminate].
  intros [= <- <-]. auto.
Qed.

Ltac filed_here :=
  match goal with
  | S : all_filed ?sessions, G : JsMap.get ?sid ?sessions = Some ?s |- _ =>
      pose proof (S sid s G)
  end.

(** The id of a stored player survives a change of another field. *)
Ltac id_kept :=
  match goal with
  | F : players_filed ?s, G : JsMap.get ?pid (Session.players ?s) = Some ?p
    |- _ =>
      split_branches;
      rewrite ?field_set_other by discriminate; exact (F pid p G)
  end.

Lemma handle_filed (sessions : JsMap.t Session.t) (socket : Socket.t)
    (c : string) (m : message) (r : reply) :
  all_filed sessions ->
  keeps_ids (Recv c m) = true ->
  handle sessions socket m = Ok r ->
  all_filed (r_sessions r).
Proof.
  intros S A H.
  destruct m; try discriminate A; cbn [handle] in H;
    unfold heartbeat, createSession, joinSession, joinAsGameMaster,
      joinAsPlayer, rejoinSession, rejoin_failed, characterUpdate,
      gameStateUpdate, getActiveSessions, gmNotesUpdate, messageAck, ping,
      create_session, join_session, game_message, silent in H;
    returned H; found; cbn [r_sessions]; try assumption;
    (apply all_filed_set; [|assumption]);
    try (apply filed_blank; reflexivity);
    filed_here; split_branches;
    first
      [ eapply filed_same; [|eassumption]; reflexivity
      | eapply filed_update; [reflexivity| |eassumption] ];
    first
      [ eapply new_player_id; eassumption
      | match goal with
        | E : find_player _ _ = Some _ |- _ =>
            apply find_player_get in E; destruct E as [_ E]
        end; id_kept
      | id_kept
      | unfold field, member;
        rewrite ?JsMapFacts.get_set_other by discriminate;
        now rewrite JsMapFacts.get_set_same ].
Qed.

Lemma disconnect_filed (sessions : JsMap.t Session.t) (socket : Socket.t)
    (t : Z) (r : reply) :
  all_filed sessions ->
  disconnect sessions socket t = Ok r ->
  all_filed (r_sessions r).
Proof.
  intros S H. unfold disconnect, silent in H.
  returned H; cbn [r_sessions]; try assumption.
  apply all_filed_set; [|assumption]. filed_here.
  eapply filed_update; [reflexivity| |eassumption]. id_kept.
Qed.

Lemma step_filed (srv srv1 : server) (i : input) (out : list sent) :
  server_ok srv -> all_filed (srv_sessions srv) ->
  keeps_ids i = true ->
  step srv i = Ok (srv1, out) ->
  all_filed (srv_sessions srv1).
Proof.
  intros [K W T S] F A H. destruct i as [c|c m|c t|now]; cbn [step] in H.
  - destruct (JsMap.has c (srv_sockets srv)); now injection H as <- <-.
  - destruct (JsMap.get c (srv_sockets srv)) as [socket|];
      [|now injection H as <- <-].
    destruct (handle (srv_sessions srv) socket m) as [r|] eqn:E;
      cbn [bind] in H; [|discriminate].
    injection H as <- <-. cbn [srv_sessions].
    now apply (handle_filed _ socket c m r F).
  - destruct (JsMap.get c (srv_sockets srv)) as [socket|];
      [|now injection H as <- <-].
    destruct (disconnect (srv_sessions srv) socket t) as [r|] eqn:E;
      cbn [bind] in H; [|discriminate].
    injection H as <- <-. cbn [srv_sessions].
    now apply (disconnect_filed _ socket t r F).
  - injection H as <- <-. cbn [srv_sessions].
    intros k s G. rewrite get_sweep in G by assumption.
    destruct (JsMap.get k (srv_sessions srv)) as [s0|] eqn:G0;
      [|discriminate].
    destruct (inactive now s0); [discriminate|].
    injection G as <-. eauto.
Qed.

Lemma run_filed (tr : list input) :
  forall (srv srv1 : server) (out : list sent),
    server_ok srv -> all_filed (srv_sessions srv) ->
    forallb keeps_ids tr = true ->
    run srv tr = Ok (srv1, out) ->
    all_filed (srv_sessions srv1).
Proof.
  induction tr as [|i rest IH]; intros srv srv1 out O F A H;
    cbn [run forallb] in H, A.
  - now injection H as <- <-.
  - apply andb_true_iff in A. destruct A as [A1 A2].
    destruct (step srv i) as [[srv2 o2]|] eqn:E; cbn [bind] in H;
      [|discriminate].
    cbn [fst snd] in H.
    destruct (run srv2 rest) as [[srv3 o3]|] eqn:X; cbn [bind] in H;
      [|discriminate].
    injection H as <- <-. cbn [fst].
    eapply IH; [| | exact A2 | exact X].
    + eapply step_ok; eauto.
    + eapply step_filed; eauto.
Qed.

(** X26.  As long as no client uses the legacy [update_player], every
    player of every stored session carries as its [id] the id it is
    filed under, so the roster a client receives names each player by the
    id that [rejoinSession] accepts, and no two players of a session
    share an id. *)
Theorem players_carry_the_id_they_are_filed_under
    (tr : list input) (srv : server) (out : list sent)
    (sid : string) (s : Session.t) (pid : string) (p : object) :
  forallb keeps_ids tr = true ->
  run boot tr = Ok (srv, out) ->
  JsMap.get sid (srv_sessions srv) = Some s ->
  JsMap.get pid (Session.players s) = Some p ->
  field p "id" = VStr pid /\
  (forall pid' p', JsMap.get pid' (Session.players s) = Some p' ->
                   field p' "id" = field p "id" -> pid' = pid).
Proof.
  intros A R G P.
  assert (F : all_filed (srv_sessions srv)).
  { apply (run_filed tr boot srv out boot_ok); auto.
    intros k x. discriminate. }
  split; [exact (F sid s G pid p P)|].
  intros pid' p' P' E.
  rewrite (F sid s G pid p P), (F sid s G pid' p' P') in E.
  now injection E.
Qed.

Lemma players_carry_the_id_they_are_filed_under_witness :
  field (sample_player "B" "Bruno" true true) "id" = VStr "B".
Proof.
  apply (players_carry_the_id_they_are_filed_under
           master_returns two_masters_server master_returns_sent
           room1 two_masters_session "B"
           (sample_player "B" "Bruno" true true)).
  - reflexivity.
  - vm_compute; reflexivity.
  - reflexivity.
  - reflexivity.
Defined.

(** ** The live master is the holder of the slot *)

(** X27.  As long as no client sends [rejoinSession] or the legacy
    [join_session] and [update_player], a player that is both master and
    online is the one [masterId] names, and so each stored session has
    at most one such player: the guard of [joinAsGameMaster] does keep
    the masters apart when nobody rejoins. *)
Theorem live_master_holds_the_slot
    (tr : list input) (srv : server) (out : list sent)
    (sid : string) (s : Session.t) (pid : string) (p : object) :
  forallb keeps_slot tr = true ->
  run boot tr = Ok (srv, out) ->
  JsMap.get sid (srv_sessions srv) = Some s ->
  JsMap.get pid (Session.players s) = Some p ->
  is_master p = true -> is_online p = true ->
  Session.masterId s = Some pid /\
  live_masters s = [pid].
Proof.
  intros A R G P M O.
  assert (Slot : master_slot_ok s).
  { apply (run_keeps_slot tr boot srv out A R boot_ok) with sid; auto.
    - intros k x. discriminate.
    - intros c k. discriminate. }
  pose proof (slot_single s Slot) as Len.
  destruct Slot as (W & _ & I).
  split; [exact (I pid p P M O)|].
  assert (In pid (live_masters s)) as Hin.
  { unfold live_masters, JsMap.keys.
    change pid with (fst (pid, p)). apply in_map. apply filter_In.
    split; [now apply JsMapFacts.get_in|]. cbn. now rewrite M, O. }
  destruct (live_masters s) as [|a [|b r]]; simpl in *.
  - destruct Hin.
  - destruct Hin as [->|[]]. reflexivity.
  - lia.
Qed.

Lemma live_master_holds_the_slot_witness :
  Session.masterId anna_session = Some "A" /\
  live_masters anna_session = ["A"].
Proof.
  apply (live_master_holds_the_slot
           anna_in_room anna_server anna_in_room_sent room1 anna_session
           "A" (sample_player "A" "Anna" true true)).
  - reflexivity.
  - vm_compute; reflexivity.
  - reflexivity.
  - reflexivity.
  - reflexivity.
  - reflexivity.
Defined.
